(** * MPU-9250 driver (drivers/mpu9250/mpu9250.c): model and properties

    The driver is embedded as a state monad over a [world]: the device
    descriptor [mpu9250_t] together with the chronological trace of every
    call made to the I2C bus and to the timer.  The bus and the chip are
    external: what [i2c_acquire] answers and which bytes the chip returns
    are given by an arbitrary [i2c_bus], a function of the history so far.

    [mpu9250_read_compass] (floating point), [mpu9250_read_temperature],
    [mpu9250_set_interrupt] and [mpu9250_read_int_status] are not needed by
    any property below and are left out. *)

From Stdlib Require Import ZArith List Bool Lia.
Import ListNotations.
Local Open Scope Z_scope.

(** ** Fixed-width integers of the C code *)

(** Conversion to [uint8_t]. *)
Definition u8 (x : Z) : Z := x mod 256.

(** Conversion to [uint16_t]. *)
Definition u16 (x : Z) : Z := x mod 65536.

(** Conversion to [int16_t]. *)
Definition s16 (x : Z) : Z := (x + 32768) mod 65536 - 32768.

(** ** Names declared by mpu9250.h and mpu9250-regs.h *)

(** Modelled from the spec: mpu9250-regs.h is not among the sources, so
    the register macros the driver uses are kept as names.  The spec treats
    them as distinct registers (power-management-1, power-management-2,
    user control, the slave-line descriptors, ...). *)
Inductive reg : Set :=
| MPU9250_PWR_MGMT_1_REG
| MPU9250_PWR_MGMT_2_REG
| MPU9250_USER_CTRL_REG
| MPU9250_INT_PIN_CFG_REG
| MPU9250_INT_ENABLE_REG
| MPU9250_CONFIG
| MPU9250_GYRO_CFG_REG
| MPU9250_ACCEL_CFG_REG
| MPU9250_ACCEL_CFG_REG2
| MPU9250_RATE_DIV_REG
| MPU9250_GYRO_START_REG
| MPU9250_ACCEL_START_REG
| MPU9250_I2C_MST_REG
| MPU9250_SLAVE0_ADDR_REG
| MPU9250_SLAVE0_REG_REG
| MPU9250_SLAVE0_CTRL_REG
| MPU9250_SLAVE1_ADDR_REG
| MPU9250_SLAVE1_REG_REG
| MPU9250_SLAVE1_CTRL_REG
| MPU9250_SLAVE1_DATA_OUT_REG
| MPU9250_SLAVE4_CTRL_REG
| MPU9250_I2C_DELAY_CTRL_REG
| MPU9250_MOT_DETECT_CTRL_REG
| MPU9250_WOM_THR_REG
| MPU9250_LP_ACCEL_ODR_REG
| COMPASS_WHOAMI_REG
| COMPASS_CNTL_REG
| COMPASS_ASAX_REG
| COMPASS_DATA_START_REG.

(** Modelled from the spec: the settle-time macros of mpu9250.h, kept as
    names (the spec only says that fixed settle delays are applied). *)
Inductive delay : Set :=
| MPU9250_RESET_SLEEP_US
| MPU9250_PWR_CHANGE_SLEEP_US
| MPU9250_COMP_MODE_SLEEP_US
| MPU9250_BYPASS_SLEEP_US.

Definition reg_eq_dec (a b : reg) : {a = b} + {a <> b}.
Proof. decide equality. Defined.

(** [mpu9250_pwr_t]: power state of one subsystem. *)
Inductive mpu9250_pwr_t : Set :=
| MPU9250_SENSOR_PWR_OFF
| MPU9250_SENSOR_PWR_ON.

(** [mpu9250_lpf_t]: the low-pass filter settings [conf_lpf] chooses from. *)
Inductive mpu9250_lpf_t : Set :=
| MPU9250_FILTER_184HZ
| MPU9250_FILTER_92HZ
| MPU9250_FILTER_41HZ
| MPU9250_FILTER_20HZ
| MPU9250_FILTER_10HZ
| MPU9250_FILTER_5HZ.

(** The numeric values behind the macros and enumerators of the two
    headers.  The headers are not among the sources, so the driver is
    parameterised by them: every property below holds for any values,
    unless it says otherwise. *)
Record mpu9250_regs_h : Type := {
  (* values written to power management 1 *)
  MPU9250_PWR_WAKEUP : Z;
  MPU9250_PWR_PLL : Z;
  MPU9250_PWR_RESET : Z;
  MPU9250_PWR_CYCLE : Z;
  BIT_PWR_MGMT1_SLEEP : Z;
  (* standby bits of power management 2 *)
  MPU9250_PWR_ACCEL : Z;
  MPU9250_PWR_GYRO : Z;
  (* user control, pin configuration, I2C master *)
  BIT_I2C_MST_EN : Z;
  BIT_I2C_BYPASS_EN : Z;
  BIT_WAIT_FOR_ES : Z;
  BIT_SLAVE_RW : Z;
  BIT_SLAVE_EN : Z;
  BIT_SLV0_DELAY_EN : Z;
  BIT_SLV1_DELAY_EN : Z;
  (* compass *)
  MPU9250_COMP_POWER_DOWN : Z;
  MPU9250_COMP_SINGLE_MEASURE : Z;
  MPU9250_COMP_FUSE_ROM : Z;
  MPU9250_COMP_WHOAMI_ANSWER : Z;
  (* wake on motion *)
  MPU9250_ACCEL_CFG_WOM : Z;
  MPU9250_INT_WOM : Z;
  MPU9250_ACCEL_INTEL_CFG : Z;
  (* enumerators of mpu9250_gyro_ranges_t and mpu9250_accel_ranges_t *)
  MPU9250_GYRO_FSR_250DPS : Z;
  MPU9250_GYRO_FSR_500DPS : Z;
  MPU9250_GYRO_FSR_1000DPS : Z;
  MPU9250_GYRO_FSR_2000DPS : Z;
  MPU9250_ACCEL_FSR_2G : Z;
  MPU9250_ACCEL_FSR_4G : Z;
  MPU9250_ACCEL_FSR_8G : Z;
  MPU9250_ACCEL_FSR_16G : Z;
  (* value of each mpu9250_lpf_t enumerator *)
  lpf_code : mpu9250_lpf_t -> Z;
  (* register number behind a register macro, where it is used as data *)
  reg_code : reg -> Z
}.

(** Modelled from the spec: MPU9250_MIN_SAMPLE_RATE of mpu9250.h
    ("sample rate: integer Hz, valid range [4, 1000]"). *)
Definition MPU9250_MIN_SAMPLE_RATE : Z := 4.

(** Modelled from the spec: MPU9250_MAX_SAMPLE_RATE of mpu9250.h
    ("sample rate: integer Hz, valid range [4, 1000]"). *)
Definition MPU9250_MAX_SAMPLE_RATE : Z := 1000.

(** Modelled from the spec: MPU9250_MIN_COMP_SMPL_RATE of mpu9250.h
    ("compass sample rate: integer Hz, valid range [1, 100]"). *)
Definition MPU9250_MIN_COMP_SMPL_RATE : Z := 1.

(** Modelled from the spec: MPU9250_MAX_COMP_SMPL_RATE of mpu9250.h
    ("compass sample rate: integer Hz, valid range [1, 100]"). *)
Definition MPU9250_MAX_COMP_SMPL_RATE : Z := 100.

Definition REG_RESET : Z := 0x00.
Definition MAX_VALUE : Z := 0x7FFF.

(** ** The device descriptor *)

(** Modelled from the spec: [mpu9250_status_t] of mpu9250.h, the
    configuration snapshot, with the fields the driver reads and writes.
    The ranges are kept as integers because the driver itself tests them
    against the enumeration ([default: return -2]).  The sample rate is a
    16-bit and the compass rate and the trims are 8-bit quantities. *)
Record mpu9250_status_t : Type := {
  accel_pwr : mpu9250_pwr_t;
  gyro_pwr : mpu9250_pwr_t;
  compass_pwr : mpu9250_pwr_t;
  gyro_fsr : Z;
  accel_fsr : Z;
  sample_rate : Z;
  compass_sample_rate : Z;
  compass_x_adj : Z;
  compass_y_adj : Z;
  compass_z_adj : Z
}.

(** Modelled from the spec: [mpu9250_params_t] of mpu9250.h (bus, primary
    and compass address, default sample rate). *)
Record mpu9250_params_t : Type := {
  i2c : Z;
  addr : Z;
  comp_addr : Z;
  params_sample_rate : Z
}.

(** Modelled from the spec: [mpu9250_t] of mpu9250.h. *)
Record mpu9250_t : Type := {
  params : mpu9250_params_t;
  conf : mpu9250_status_t
}.

(** Modelled from the spec: [mpu9250_results_t] of mpu9250.h, three 16-bit
    signed axis values ([mpu9250_read_compass] casts them to and from
    [int16_t]). *)
Record mpu9250_results_t : Type := {
  x_axis : Z;
  y_axis : Z;
  z_axis : Z
}.

Definition pwr_eqb (a b : mpu9250_pwr_t) : bool :=
  match a, b with
  | MPU9250_SENSOR_PWR_OFF, MPU9250_SENSOR_PWR_OFF => true
  | MPU9250_SENSOR_PWR_ON, MPU9250_SENSOR_PWR_ON => true
  | _, _ => false
  end.

(** Field updates of the snapshot ([dev->conf.f = v]). *)
Definition with_accel_pwr (v : mpu9250_pwr_t) (c : mpu9250_status_t) :=
  {| accel_pwr := v; gyro_pwr := gyro_pwr c; compass_pwr := compass_pwr c;
     gyro_fsr := gyro_fsr c; accel_fsr := accel_fsr c;
     sample_rate := sample_rate c;
     compass_sample_rate := compass_sample_rate c;
     compass_x_adj := compass_x_adj c; compass_y_adj := compass_y_adj c;
     compass_z_adj := compass_z_adj c |}.

Definition with_gyro_pwr (v : mpu9250_pwr_t) (c : mpu9250_status_t) :=
  {| accel_pwr := accel_pwr c; gyro_pwr := v; compass_pwr := compass_pwr c;
     gyro_fsr := gyro_fsr c; accel_fsr := accel_fsr c;
     sample_rate := sample_rate c;
     compass_sample_rate := compass_sample_rate c;
     compass_x_adj := compass_x_adj c; compass_y_adj := compass_y_adj c;
     compass_z_adj := compass_z_adj c |}.

Definition with_compass_pwr (v : mpu9250_pwr_t) (c : mpu9250_status_t) :=
  {| accel_pwr := accel_pwr c; gyro_pwr := gyro_pwr c; compass_pwr := v;
     gyro_fsr := gyro_fsr c; accel_fsr := accel_fsr c;
     sample_rate := sample_rate c;
     compass_sample_rate := compass_sample_rate c;
     compass_x_adj := compass_x_adj c; compass_y_adj := compass_y_adj c;
     compass_z_adj := compass_z_adj c |}.

Definition with_gyro_fsr (v : Z) (c : mpu9250_status_t) :=
  {| accel_pwr := accel_pwr c; gyro_pwr := gyro_pwr c;
     compass_pwr := compass_pwr c;
     gyro_fsr := v; accel_fsr := accel_fsr c;
     sample_rate := sample_rate c;
     compass_sample_rate := compass_sample_rate c;
     compass_x_adj := compass_x_adj c; compass_y_adj := compass_y_adj c;
     compass_z_adj := compass_z_adj c |}.

Definition with_accel_fsr (v : Z) (c : mpu9250_status_t) :=
  {| accel_pwr := accel_pwr c; gyro_pwr := gyro_pwr c;
     compass_pwr := compass_pwr c;
     gyro_fsr := gyro_fsr c; accel_fsr := v;
     sample_rate := sample_rate c;
     compass_sample_rate := compass_sample_rate c;
     compass_x_adj := compass_x_adj c; compass_y_adj := compass_y_adj c;
     compass_z_adj := compass_z_adj c |}.

Definition with_sample_rate (v : Z) (c : mpu9250_status_t) :=
  {| accel_pwr := accel_pwr c; gyro_pwr := gyro_pwr c;
     compass_pwr := compass_pwr c;
     gyro_fsr := gyro_fsr c; accel_fsr := accel_fsr c;
     sample_rate := u16 v;
     compass_sample_rate := compass_sample_rate c;
     compass_x_adj := compass_x_adj c; compass_y_adj := compass_y_adj c;
     compass_z_adj := compass_z_adj c |}.

Definition with_compass_sample_rate (v : Z) (c : mpu9250_status_t) :=
  {| accel_pwr := accel_pwr c; gyro_pwr := gyro_pwr c;
     compass_pwr := compass_pwr c;
     gyro_fsr := gyro_fsr c; accel_fsr := accel_fsr c;
     sample_rate := sample_rate c;
     compass_sample_rate := u8 v;
     compass_x_adj := compass_x_adj c; compass_y_adj := compass_y_adj c;
     compass_z_adj := compass_z_adj c |}.

Definition with_compass_adj (x y z : Z) (c : mpu9250_status_t) :=
  {| accel_pwr := accel_pwr c; gyro_pwr := gyro_pwr c;
     compass_pwr := compass_pwr c;
     gyro_fsr := gyro_fsr c; accel_fsr := accel_fsr c;
     sample_rate := sample_rate c;
     compass_sample_rate := compass_sample_rate c;
     compass_x_adj := u8 x; compass_y_adj := u8 y; compass_z_adj := u8 z |}.

(** ** The bus, the timer and the world *)

(** One call to the I2C peripheral or to the timer, with what it returned. *)
Inductive event : Type :=
| EvInitMaster (rc : Z)
| EvAcquire (rc : Z)
| EvRelease
| EvRead (a : Z) (r : reg) (v : Z)
| EvReadRegs (a : Z) (r : reg) (vs : list Z)
| EvWrite (a : Z) (r : reg) (v : Z)
| EvUsleep (d : delay).

(** The external side of periph/i2c.h: the return code of
    [i2c_init_master] and [i2c_acquire] and the bytes the addressed chip
    delivers, each as a function of everything that happened before. *)
Record i2c_bus : Type := {
  init_master_rc : list event -> Z;
  acquire_rc : list event -> Z;
  slave_byte : list event -> Z -> reg -> nat -> Z
}.

Record world : Type := {
  dev : mpu9250_t;
  trace : list event
}.

Definition M (A : Type) : Type := world -> A * world.

Definition ret {A : Type} (a : A) : M A := fun w => (a, w).

Definition bind {A B : Type} (m : M A) (k : A -> M B) : M B :=
  fun w => let (a, w') := m w in k a w'.

Notation "x <- m ;; k" := (bind m (fun x => k))
  (at level 61, m at next level, right associativity).
Notation "m ;;; k" := (bind m (fun _ => k))
  (at level 61, right associativity).

Definition emit (e : event) : M unit :=
  fun w => (tt, {| dev := dev w; trace := trace w ++ [e] |}).

Definition get_dev : M mpu9250_t := fun w => (dev w, w).

Definition get_conf : M mpu9250_status_t := fun w => (conf (dev w), w).

Definition put_conf (c : mpu9250_status_t) : M unit :=
  fun w => (tt, {| dev := {| params := params (dev w); conf := c |};
                   trace := trace w |}).

Definition put_dev (d : mpu9250_t) : M unit :=
  fun w => (tt, {| dev := d; trace := trace w |}).

(** What a call appended to the trace: the events of [w'] after those of
    [w]. *)
Definition events_since (w w' : world) : list event :=
  skipn (length (trace w)) (trace w').

(** ** The driver *)

Section Driver.

Variable h : mpu9250_regs_h.
Variable bus : i2c_bus.

(** *** periph/i2c.h and xtimer.h as seen by the driver *)

Definition i2c_init_master : M Z :=
  fun w => let rc := init_master_rc bus (trace w) in
           (rc, {| dev := dev w; trace := trace w ++ [EvInitMaster rc] |}).

Definition i2c_acquire : M Z :=
  fun w => let rc := acquire_rc bus (trace w) in
           (rc, {| dev := dev w; trace := trace w ++ [EvAcquire rc] |}).

Definition i2c_release : M unit := emit EvRelease.

Definition i2c_read_reg (a : Z) (r : reg) : M Z :=
  fun w => let v := u8 (slave_byte bus (trace w) a r 0) in
           (v, {| dev := dev w; trace := trace w ++ [EvRead a r v] |}).

Definition i2c_read_regs (a : Z) (r : reg) (n : nat) : M (list Z) :=
  fun w => let vs := map (fun i => u8 (slave_byte bus (trace w) a r i))
                         (seq 0 n) in
           (vs, {| dev := dev w; trace := trace w ++ [EvReadRegs a r vs] |}).

Definition i2c_write_reg (a : Z) (r : reg) (v : Z) : M unit :=
  emit (EvWrite a r (u8 v)).

Definition xtimer_usleep (d : delay) : M unit := emit (EvUsleep d).

(** *** Default config settings *)

Definition DEFAULT_STATUS : mpu9250_status_t :=
  {| accel_pwr := MPU9250_SENSOR_PWR_ON;
     gyro_pwr := MPU9250_SENSOR_PWR_ON;
     compass_pwr := MPU9250_SENSOR_PWR_ON;
     gyro_fsr := MPU9250_GYRO_FSR_250DPS h;
     accel_fsr := MPU9250_ACCEL_FSR_16G h;
     sample_rate := 0;
     compass_sample_rate := 0;
     compass_x_adj := 0;
     compass_y_adj := 0;
     compass_z_adj := 0 |}.

(** *** Internal functions *)

(** The filter [conf_lpf] selects for half the sample rate. *)
Definition lpf_for (half_rate : Z) : mpu9250_lpf_t :=
  if 184 <=? half_rate then MPU9250_FILTER_184HZ
  else if 92 <=? half_rate then MPU9250_FILTER_92HZ
  else if 42 <=? half_rate then MPU9250_FILTER_41HZ
  else if 20 <=? half_rate then MPU9250_FILTER_20HZ
  else if 10 <=? half_rate then MPU9250_FILTER_10HZ
  else MPU9250_FILTER_5HZ.

Definition conf_lpf (half_rate : Z) : M unit :=
  d <- get_dev ;;
  let lpf_setting := lpf_code h (lpf_for half_rate) in
  i2c_write_reg (addr (params d)) MPU9250_CONFIG lpf_setting ;;;
  acceldata <- i2c_read_reg (addr (params d)) MPU9250_ACCEL_CFG_REG2 ;;
  let acceldata := u8 (Z.land acceldata (Z.lnot 0x0F)) in
  let acceldata := u8 (Z.lor acceldata lpf_setting) in
  i2c_write_reg (addr (params d)) MPU9250_ACCEL_CFG_REG2 acceldata ;;;
  gyrodata <- i2c_read_reg (addr (params d)) MPU9250_GYRO_CFG_REG ;;
  let gyrodata := u8 (Z.land gyrodata (Z.lnot 0x03)) in
  i2c_write_reg (addr (params d)) MPU9250_GYRO_CFG_REG gyrodata.

Definition conf_bypass (bypass_enable : Z) : M unit :=
  d <- get_dev ;;
  data <- i2c_read_reg (addr (params d)) MPU9250_USER_CTRL_REG ;;
  if negb (bypass_enable =? 0) then
    let data := u8 (Z.land data (Z.lnot (BIT_I2C_MST_EN h))) in
    i2c_write_reg (addr (params d)) MPU9250_USER_CTRL_REG data ;;;
    xtimer_usleep MPU9250_BYPASS_SLEEP_US ;;;
    i2c_write_reg (addr (params d)) MPU9250_INT_PIN_CFG_REG
                  (BIT_I2C_BYPASS_EN h)
  else
    let data := u8 (Z.lor data (BIT_I2C_MST_EN h)) in
    i2c_write_reg (addr (params d)) MPU9250_USER_CTRL_REG data ;;;
    xtimer_usleep MPU9250_BYPASS_SLEEP_US ;;;
    i2c_write_reg (addr (params d)) MPU9250_INT_PIN_CFG_REG REG_RESET.

Definition compass_init : M Z :=
  d <- get_dev ;;
  let DEV_ADDR := addr (params d) in
  let DEV_COMP_ADDR := comp_addr (params d) in
  conf_bypass 1 ;;;
  whoami <- i2c_read_reg DEV_COMP_ADDR COMPASS_WHOAMI_REG ;;
  if negb (whoami =? MPU9250_COMP_WHOAMI_ANSWER h) then ret (-1)
  else
    i2c_write_reg DEV_COMP_ADDR COMPASS_CNTL_REG (MPU9250_COMP_POWER_DOWN h) ;;;
    xtimer_usleep MPU9250_COMP_MODE_SLEEP_US ;;;
    i2c_write_reg DEV_COMP_ADDR COMPASS_CNTL_REG (MPU9250_COMP_FUSE_ROM h) ;;;
    xtimer_usleep MPU9250_COMP_MODE_SLEEP_US ;;;
    data <- i2c_read_regs DEV_COMP_ADDR COMPASS_ASAX_REG 3 ;;
    c <- get_conf ;;
    put_conf (with_compass_adj (nth 0 data 0) (nth 1 data 0) (nth 2 data 0) c) ;;;
    i2c_write_reg DEV_COMP_ADDR COMPASS_CNTL_REG (MPU9250_COMP_POWER_DOWN h) ;;;
    xtimer_usleep MPU9250_COMP_MODE_SLEEP_US ;;;
    conf_bypass 0 ;;;
    i2c_write_reg DEV_ADDR MPU9250_I2C_MST_REG (BIT_WAIT_FOR_ES h) ;;;
    i2c_write_reg DEV_ADDR MPU9250_SLAVE0_ADDR_REG
                  (Z.lor (BIT_SLAVE_RW h) DEV_COMP_ADDR) ;;;
    i2c_write_reg DEV_ADDR MPU9250_SLAVE0_REG_REG
                  (reg_code h COMPASS_DATA_START_REG) ;;;
    i2c_write_reg DEV_ADDR MPU9250_SLAVE0_CTRL_REG
                  (Z.lor (BIT_SLAVE_EN h) 0x06) ;;;
    i2c_write_reg DEV_ADDR MPU9250_SLAVE1_ADDR_REG DEV_COMP_ADDR ;;;
    i2c_write_reg DEV_ADDR MPU9250_SLAVE1_REG_REG
                  (reg_code h COMPASS_CNTL_REG) ;;;
    i2c_write_reg DEV_ADDR MPU9250_SLAVE1_CTRL_REG
                  (Z.lor (BIT_SLAVE_EN h) 0x01) ;;;
    i2c_write_reg DEV_ADDR MPU9250_SLAVE1_DATA_OUT_REG
                  (MPU9250_COMP_SINGLE_MEASURE h) ;;;
    i2c_write_reg DEV_ADDR MPU9250_I2C_DELAY_CTRL_REG
                  (Z.lor (BIT_SLV0_DELAY_EN h) (BIT_SLV1_DELAY_EN h)) ;;;
    ret 0.

(** *** Power *)

Definition mpu9250_set_accel_power (pwr_conf : mpu9250_pwr_t) : M Z :=
  d <- get_dev ;;
  if pwr_eqb (accel_pwr (conf d)) pwr_conf then ret 0
  else
    rc <- i2c_acquire ;;
    if negb (rc =? 0) then ret (-1)
    else
      pwr_2_setting <- i2c_read_reg (addr (params d)) MPU9250_PWR_MGMT_2_REG ;;
      let '(pwr_1_setting, pwr_2_setting) :=
        if pwr_eqb pwr_conf MPU9250_SENSOR_PWR_ON
        then (MPU9250_PWR_WAKEUP h,
              u8 (Z.land pwr_2_setting (Z.lnot (MPU9250_PWR_ACCEL h))))
        else (BIT_PWR_MGMT1_SLEEP h,
              u8 (Z.lor pwr_2_setting (MPU9250_PWR_ACCEL h))) in
      (if pwr_eqb (gyro_pwr (conf d)) MPU9250_SENSOR_PWR_OFF
          && pwr_eqb (compass_pwr (conf d)) MPU9250_SENSOR_PWR_OFF
       then i2c_write_reg (addr (params d)) MPU9250_PWR_MGMT_1_REG pwr_1_setting
       else ret tt) ;;;
      i2c_write_reg (addr (params d)) MPU9250_PWR_MGMT_2_REG pwr_2_setting ;;;
      i2c_release ;;;
      put_conf (with_accel_pwr pwr_conf (conf d)) ;;;
      xtimer_usleep MPU9250_PWR_CHANGE_SLEEP_US ;;;
      ret 0.

Definition mpu9250_set_gyro_power (pwr_conf : mpu9250_pwr_t) : M Z :=
  d <- get_dev ;;
  if pwr_eqb (gyro_pwr (conf d)) pwr_conf then ret 0
  else
    rc <- i2c_acquire ;;
    if negb (rc =? 0) then ret (-1)
    else
      pwr_2_setting <- i2c_read_reg (addr (params d)) MPU9250_PWR_MGMT_2_REG ;;
      pwr_2_setting <-
        (if pwr_eqb pwr_conf MPU9250_SENSOR_PWR_ON then
           i2c_write_reg (addr (params d)) MPU9250_PWR_MGMT_1_REG
                         (MPU9250_PWR_PLL h) ;;;
           ret (u8 (Z.land pwr_2_setting (Z.lnot (MPU9250_PWR_GYRO h))))
         else
           (if pwr_eqb (accel_pwr (conf d)) MPU9250_SENSOR_PWR_OFF
               && pwr_eqb (compass_pwr (conf d)) MPU9250_SENSOR_PWR_OFF
            then i2c_write_reg (addr (params d)) MPU9250_PWR_MGMT_1_REG
                               (BIT_PWR_MGMT1_SLEEP h)
            else i2c_write_reg (addr (params d)) MPU9250_PWR_MGMT_1_REG
                               (MPU9250_PWR_WAKEUP h)) ;;;
           ret (u8 (Z.lor pwr_2_setting (MPU9250_PWR_GYRO h)))) ;;
      i2c_write_reg (addr (params d)) MPU9250_PWR_MGMT_2_REG pwr_2_setting ;;;
      i2c_release ;;;
      put_conf (with_gyro_pwr pwr_conf (conf d)) ;;;
      xtimer_usleep MPU9250_PWR_CHANGE_SLEEP_US ;;;
      ret 0.

Definition mpu9250_set_compass_power (pwr_conf : mpu9250_pwr_t) : M Z :=
  d <- get_dev ;;
  if pwr_eqb (compass_pwr (conf d)) pwr_conf then ret 0
  else
    rc <- i2c_acquire ;;
    if negb (rc =? 0) then ret (-1)
    else
      usr_ctrl_setting <- i2c_read_reg (addr (params d)) MPU9250_USER_CTRL_REG ;;
      let '(pwr_1_setting, s1_do_setting, usr_ctrl_setting) :=
        if pwr_eqb pwr_conf MPU9250_SENSOR_PWR_ON
        then (MPU9250_PWR_WAKEUP h, MPU9250_COMP_SINGLE_MEASURE h,
              u8 (Z.lor usr_ctrl_setting (BIT_I2C_MST_EN h)))
        else (BIT_PWR_MGMT1_SLEEP h, MPU9250_COMP_POWER_DOWN h,
              u8 (Z.land usr_ctrl_setting (Z.lnot (BIT_I2C_MST_EN h)))) in
      (if pwr_eqb (gyro_pwr (conf d)) MPU9250_SENSOR_PWR_OFF
          && pwr_eqb (accel_pwr (conf d)) MPU9250_SENSOR_PWR_OFF
       then i2c_write_reg (addr (params d)) MPU9250_PWR_MGMT_1_REG pwr_1_setting
       else ret tt) ;;;
      i2c_write_reg (addr (params d)) MPU9250_SLAVE1_DATA_OUT_REG s1_do_setting ;;;
      i2c_write_reg (addr (params d)) MPU9250_USER_CTRL_REG usr_ctrl_setting ;;;
      i2c_release ;;;
      put_conf (with_compass_pwr pwr_conf (conf d)) ;;;
      xtimer_usleep MPU9250_PWR_CHANGE_SLEEP_US ;;;
      ret 0.

(** *** Measurements *)

(** The [switch] of [mpu9250_read_gyro]: full-scale range in degrees per
    second, [None] on the [default] branch. *)
Definition gyro_fsr_dps (fsr : Z) : option Z :=
  if fsr =? MPU9250_GYRO_FSR_250DPS h then Some 250
  else if fsr =? MPU9250_GYRO_FSR_500DPS h then Some 500
  else if fsr =? MPU9250_GYRO_FSR_1000DPS h then Some 1000
  else if fsr =? MPU9250_GYRO_FSR_2000DPS h then Some 2000
  else None.

(** The [switch] of [mpu9250_read_accel]: full-scale range in milli-g. *)
Definition accel_fsr_mg (fsr : Z) : option Z :=
  if fsr =? MPU9250_ACCEL_FSR_2G h then Some 2000
  else if fsr =? MPU9250_ACCEL_FSR_4G h then Some 4000
  else if fsr =? MPU9250_ACCEL_FSR_8G h then Some 8000
  else if fsr =? MPU9250_ACCEL_FSR_16G h then Some 16000
  else None.

(** [temp = (data[i] << 8) | data[i+1]; ... = (temp * fsr) / MAX_VALUE]. *)
Definition normalize (data : list Z) (i : nat) (fsr : Z) : Z :=
  let temp := s16 (Z.lor (Z.shiftl (nth i data 0) 8) (nth (S i) data 0)) in
  s16 (Z.quot (temp * fsr) MAX_VALUE).

Definition mpu9250_read_gyro (output : mpu9250_results_t)
  : M (Z * mpu9250_results_t) :=
  d <- get_dev ;;
  match gyro_fsr_dps (gyro_fsr (conf d)) with
  | None => ret (-2, output)
  | Some fsr =>
    rc <- i2c_acquire ;;
    if negb (rc =? 0) then ret (-1, output)
    else
      data <- i2c_read_regs (addr (params d)) MPU9250_GYRO_START_REG 6 ;;
      i2c_release ;;;
      ret (0, {| x_axis := normalize data 0 fsr;
                 y_axis := normalize data 2 fsr;
                 z_axis := normalize data 4 fsr |})
  end.

Definition mpu9250_read_accel (output : mpu9250_results_t)
  : M (Z * mpu9250_results_t) :=
  d <- get_dev ;;
  match accel_fsr_mg (accel_fsr (conf d)) with
  | None => ret (-2, output)
  | Some fsr =>
    rc <- i2c_acquire ;;
    if negb (rc =? 0) then ret (-1, output)
    else
      data <- i2c_read_regs (addr (params d)) MPU9250_ACCEL_START_REG 6 ;;
      i2c_release ;;;
      ret (0, {| x_axis := normalize data 0 fsr;
                 y_axis := normalize data 2 fsr;
                 z_axis := normalize data 4 fsr |})
  end.

(** *** Ranges and rates *)

(** The [switch] of the two range setters has the case labels of the
    [switch] of the corresponding read function, so membership in the
    enumeration is tested with [gyro_fsr_dps] and [accel_fsr_mg]. *)

Definition mpu9250_set_gyro_fsr (fsr : Z) : M Z :=
  d <- get_dev ;;
  if gyro_fsr (conf d) =? fsr then ret 0
  else
    match gyro_fsr_dps fsr with
    | Some _ =>
      rc <- i2c_acquire ;;
      if negb (rc =? 0) then ret (-1)
      else
        i2c_write_reg (addr (params d)) MPU9250_GYRO_CFG_REG (Z.shiftl fsr 3) ;;;
        i2c_release ;;;
        put_conf (with_gyro_fsr fsr (conf d)) ;;;
        ret 0
    | None => ret (-2)
    end.

Definition mpu9250_set_accel_fsr (fsr : Z) : M Z :=
  d <- get_dev ;;
  if accel_fsr (conf d) =? fsr then ret 0
  else
    match accel_fsr_mg fsr with
    | Some _ =>
      rc <- i2c_acquire ;;
      if negb (rc =? 0) then ret (-1)
      else
        i2c_write_reg (addr (params d)) MPU9250_ACCEL_CFG_REG (Z.shiftl fsr 3) ;;;
        i2c_release ;;;
        put_conf (with_accel_fsr fsr (conf d)) ;;;
        ret 0
    | None => ret (-2)
    end.

(** [divider = (1000 / rate - 1)], a [uint8_t]. *)
Definition sample_rate_divider (rate : Z) : Z := u8 (Z.quot 1000 rate - 1).

Definition mpu9250_set_sample_rate (rate : Z) : M Z :=
  d <- get_dev ;;
  if (rate <? MPU9250_MIN_SAMPLE_RATE) || (rate >? MPU9250_MAX_SAMPLE_RATE)
  then ret (-2)
  else if sample_rate (conf d) =? rate then ret 0
  else
    let divider := sample_rate_divider rate in
    rc <- i2c_acquire ;;
    if negb (rc =? 0) then ret (-1)
    else
      i2c_write_reg (addr (params d)) MPU9250_RATE_DIV_REG divider ;;;
      put_conf (with_sample_rate (Z.quot 1000 (u16 divider + 1)) (conf d)) ;;;
      c <- get_conf ;;
      conf_lpf (Z.shiftr (sample_rate c) 1) ;;;
      i2c_release ;;;
      ret 0.

(** [divider = (dev->conf.sample_rate / rate - 1)], a [uint8_t]. *)
Definition compass_rate_divider (sensor_rate rate : Z) : Z :=
  u8 (Z.quot sensor_rate rate - 1).

Definition mpu9250_set_compass_sample_rate (rate : Z) : M Z :=
  d <- get_dev ;;
  if (rate <? MPU9250_MIN_COMP_SMPL_RATE)
     || (rate >? MPU9250_MAX_COMP_SMPL_RATE)
     || (rate >? sample_rate (conf d))
  then ret (-2)
  else if compass_sample_rate (conf d) =? rate then ret 0
  else
    let divider := compass_rate_divider (sample_rate (conf d)) rate in
    rc <- i2c_acquire ;;
    if negb (rc =? 0) then ret (-1)
    else
      i2c_write_reg (addr (params d)) MPU9250_SLAVE4_CTRL_REG divider ;;;
      i2c_release ;;;
      put_conf (with_compass_sample_rate
                  (Z.quot (sample_rate (conf d)) (u16 divider + 1)) (conf d)) ;;;
      ret 0.

(** *** Wake on motion *)

Definition mpu9250_enable_wom (wom_threshold wake_up_freq : Z) : M Z :=
  d <- get_dev ;;
  let DEV_ADDR := addr (params d) in
  let DEV_COMP_ADDR := comp_addr (params d) in
  rc <- i2c_acquire ;;
  if negb (rc =? 0) then ret (-1)
  else
    conf_bypass 1 ;;;
    i2c_write_reg DEV_COMP_ADDR COMPASS_CNTL_REG (MPU9250_COMP_POWER_DOWN h) ;;;
    xtimer_usleep MPU9250_COMP_MODE_SLEEP_US ;;;
    conf_bypass 0 ;;;
    i2c_write_reg DEV_ADDR MPU9250_PWR_MGMT_1_REG (MPU9250_PWR_RESET h) ;;;
    xtimer_usleep MPU9250_RESET_SLEEP_US ;;;
    i2c_write_reg DEV_ADDR MPU9250_PWR_MGMT_1_REG (MPU9250_PWR_WAKEUP h) ;;;
    temp <- i2c_read_reg DEV_ADDR MPU9250_PWR_MGMT_2_REG ;;
    let temp :=
      u8 (Z.land temp
            (Z.lnot (Z.lor (MPU9250_PWR_ACCEL h)
                           (Z.lnot (MPU9250_PWR_GYRO h))))) in
    i2c_write_reg DEV_ADDR MPU9250_PWR_MGMT_2_REG temp ;;;
    temp <- i2c_read_reg DEV_ADDR MPU9250_ACCEL_CFG_REG2 ;;
    let temp := u8 (Z.land temp (Z.lnot 0x0F)) in
    let temp := u8 (Z.lor temp (MPU9250_ACCEL_CFG_WOM h)) in
    i2c_write_reg DEV_ADDR MPU9250_ACCEL_CFG_REG2 temp ;;;
    i2c_write_reg DEV_ADDR MPU9250_INT_ENABLE_REG (MPU9250_INT_WOM h) ;;;
    temp <- i2c_read_reg DEV_ADDR MPU9250_MOT_DETECT_CTRL_REG ;;
    let temp := u8 (Z.land temp (Z.lnot (MPU9250_ACCEL_INTEL_CFG h))) in
    let temp := u8 (Z.lor temp (MPU9250_ACCEL_INTEL_CFG h)) in
    i2c_write_reg DEV_ADDR MPU9250_MOT_DETECT_CTRL_REG temp ;;;
    i2c_write_reg DEV_ADDR MPU9250_WOM_THR_REG wom_threshold ;;;
    i2c_write_reg DEV_ADDR MPU9250_LP_ACCEL_ODR_REG wake_up_freq ;;;
    i2c_write_reg DEV_ADDR MPU9250_PWR_MGMT_1_REG (MPU9250_PWR_CYCLE h) ;;;
    i2c_release ;;;
    ret 0.

(** *** Initialisation *)

Definition mpu9250_reset_and_init : M Z :=
  d <- get_dev ;;
  let DEV_ADDR := addr (params d) in
  i2c_acquire ;;;
  i2c_write_reg DEV_ADDR MPU9250_PWR_MGMT_1_REG (MPU9250_PWR_RESET h) ;;;
  xtimer_usleep MPU9250_RESET_SLEEP_US ;;;
  i2c_write_reg DEV_ADDR MPU9250_PWR_MGMT_1_REG (MPU9250_PWR_WAKEUP h) ;;;
  i2c_release ;;;
  mpu9250_set_gyro_fsr (MPU9250_GYRO_FSR_2000DPS h) ;;;
  mpu9250_set_accel_fsr (MPU9250_ACCEL_FSR_2G h) ;;;
  mpu9250_set_sample_rate (params_sample_rate (params d)) ;;;
  i2c_acquire ;;;
  i2c_write_reg DEV_ADDR MPU9250_INT_ENABLE_REG REG_RESET ;;;
  rc <- compass_init ;;
  if negb (rc =? 0) then
    i2c_release ;;;
    ret (-2)
  else
    i2c_release ;;;
    mpu9250_set_compass_sample_rate 10 ;;;
    i2c_acquire ;;;
    i2c_write_reg DEV_ADDR MPU9250_PWR_MGMT_1_REG (MPU9250_PWR_PLL h) ;;;
    temp <- i2c_read_reg DEV_ADDR MPU9250_PWR_MGMT_2_REG ;;
    let temp :=
      u8 (Z.land temp
            (Z.lnot (Z.lor (MPU9250_PWR_ACCEL h) (MPU9250_PWR_GYRO h)))) in
    i2c_write_reg DEV_ADDR MPU9250_PWR_MGMT_2_REG temp ;;;
    i2c_release ;;;
    xtimer_usleep MPU9250_PWR_CHANGE_SLEEP_US ;;;
    ret 0.

Definition mpu9250_init (p : mpu9250_params_t) : M Z :=
  put_dev {| params := p; conf := DEFAULT_STATUS |} ;;;
  rc <- i2c_init_master ;;
  if negb (rc =? 0) then ret (-1)
  else mpu9250_reset_and_init.

(** *** Sequences of calls *)

(** One call of the application into the driver. *)
Inductive api_call : Type :=
| SetAccelPower (pwr_conf : mpu9250_pwr_t)
| SetGyroPower (pwr_conf : mpu9250_pwr_t)
| SetCompassPower (pwr_conf : mpu9250_pwr_t)
| SetGyroFsr (fsr : Z)
| SetAccelFsr (fsr : Z)
| SetSampleRate (rate : Z)
| SetCompassSampleRate (rate : Z)
| EnableWom (wom_threshold wake_up_freq : Z)
| ResetAndInit
| Init (p : mpu9250_params_t).

Definition call (c : api_call) : M Z :=
  match c with
  | SetAccelPower p => mpu9250_set_accel_power p
  | SetGyroPower p => mpu9250_set_gyro_power p
  | SetCompassPower p => mpu9250_set_compass_power p
  | SetGyroFsr f => mpu9250_set_gyro_fsr f
  | SetAccelFsr f => mpu9250_set_accel_fsr f
  | SetSampleRate r => mpu9250_set_sample_rate r
  | SetCompassSampleRate r => mpu9250_set_compass_sample_rate r
  | EnableWom t f => mpu9250_enable_wom t f
  | ResetAndInit => mpu9250_reset_and_init
  | Init p => mpu9250_init p
  end.

(** The world after a sequence of calls (return codes dropped). *)
Fixpoint calls (cs : list api_call) (w : world) : world :=
  match cs with
  | [] => w
  | c :: cs' => calls cs' (snd (call c w))
  end.

(** The return codes of a sequence of calls. *)
Fixpoint returns (cs : list api_call) (w : world) : list Z :=
  match cs with
  | [] => []
  | c :: cs' => fst (call c w) :: returns cs' (snd (call c w))
  end.

(** A freshly constructed handle: default snapshot, nothing on the bus yet. *)
Definition fresh (p : mpu9250_params_t) : world :=
  {| dev := {| params := p; conf := DEFAULT_STATUS |}; trace := [] |}.

(** The configurations the driver can be in: a fresh handle followed by any
    sequence of calls, whatever they return. *)
Definition reachable (w : world) : Prop :=
  exists p cs, w = calls cs (fresh p).

End Driver.

(** ** Observations on traces *)

Definition is_write_to (r : reg) (e : event) : bool :=
  match e with
  | EvWrite _ r' _ =>
    if reg_eq_dec r r' then true else false
  | _ => false
  end.

(** The bytes written to register [r], in order. *)
Definition writes_to (r : reg) (evs : list event) : list Z :=
  flat_map (fun e => match e with
                     | EvWrite _ r' v => if reg_eq_dec r r' then [v] else []
                     | _ => []
                     end) evs.

(** The registers written, in order. *)
Definition written_regs (evs : list event) : list reg :=
  flat_map (fun e => match e with EvWrite _ r _ => [r] | _ => [] end) evs.

(** Is power management 1 written at all? *)
Definition pm1_written (evs : list event) : bool :=
  existsb (is_write_to MPU9250_PWR_MGMT_1_REG) evs.

(** The three power states of a snapshot. *)
Definition power_triple (c : mpu9250_status_t)
  : mpu9250_pwr_t * mpu9250_pwr_t * mpu9250_pwr_t :=
  (accel_pwr c, gyro_pwr c, compass_pwr c).

Definition all_off (t : mpu9250_pwr_t * mpu9250_pwr_t * mpu9250_pwr_t) : bool :=
  match t with
  | (MPU9250_SENSOR_PWR_OFF, MPU9250_SENSOR_PWR_OFF, MPU9250_SENSOR_PWR_OFF) =>
    true
  | _ => false
  end.

(** ** The specification's formulas, as it words them *)

(** The spec's [round(a/b)]: the quotient of two positive integers rounded
    to the nearest integer (a half rounds up). *)
Definition spec_round_div (a b : Z) : Z := (2 * a + b) / (2 * b).

(** The spec's stored sample rate, [1000/(round(1000/rate)-1+1)]. *)
Definition spec_stored_sample_rate (rate : Z) : Z :=
  1000 / (spec_round_div 1000 rate - 1 + 1).

(** The spec's stored compass rate,
    [sensor_rate/(round(sensor_rate/r)-1+1)]. *)
Definition spec_stored_compass_rate (sensor_rate r : Z) : Z :=
  sensor_rate / (spec_round_div sensor_rate r - 1 + 1).

(** The spec's condition for touching power management 1: the transition
    leaves all three subsystems off, or goes from all-off to any-on. *)
Definition spec_pm1_touched
  (before after : mpu9250_pwr_t * mpu9250_pwr_t * mpu9250_pwr_t) : bool :=
  all_off after || (all_off before && negb (all_off after)).

(** Modelled from the spec: the bandwidth in Hz of each filter of
    [mpu9250_lpf_t] (mpu9250.h is not among the sources; the enumerators
    carry the bandwidth in their names, the last one is the spec's "narrowest
    (about 5 Hz) filter"). *)
Definition lpf_bandwidth (f : mpu9250_lpf_t) : Z :=
  match f with
  | MPU9250_FILTER_184HZ => 184
  | MPU9250_FILTER_92HZ => 92
  | MPU9250_FILTER_41HZ => 41
  | MPU9250_FILTER_20HZ => 20
  | MPU9250_FILTER_10HZ => 10
  | MPU9250_FILTER_5HZ => 5
  end.

(** The spec's ordered threshold table, highest threshold first. *)
Definition lpf_thresholds : list (Z * mpu9250_lpf_t) :=
  [ (184, MPU9250_FILTER_184HZ); (92, MPU9250_FILTER_92HZ);
    (42, MPU9250_FILTER_41HZ); (20, MPU9250_FILTER_20HZ);
    (10, MPU9250_FILTER_10HZ) ].

(** Lookup in a threshold table: the filter of the first threshold that
    [half_rate] reaches, the narrowest filter when it reaches none. *)
Fixpoint lpf_lookup (table : list (Z * mpu9250_lpf_t)) (half_rate : Z)
  : mpu9250_lpf_t :=
  match table with
  | [] => MPU9250_FILTER_5HZ
  | (threshold, f) :: table' =>
    if threshold <=? half_rate then f else lpf_lookup table' half_rate
  end.

(** ** Concrete instances, used in the examples *)

(** One assignment of the header values: the bit masks and codes of the
    chip's register map. *)
Definition example_regs : mpu9250_regs_h :=
  {| MPU9250_PWR_WAKEUP := 0x00;
     MPU9250_PWR_PLL := 0x01;
     MPU9250_PWR_RESET := 0x80;
     MPU9250_PWR_CYCLE := 0x20;
     BIT_PWR_MGMT1_SLEEP := 0x40;
     MPU9250_PWR_ACCEL := 0x38;
     MPU9250_PWR_GYRO := 0x07;
     BIT_I2C_MST_EN := 0x20;
     BIT_I2C_BYPASS_EN := 0x02;
     BIT_WAIT_FOR_ES := 0x40;
     BIT_SLAVE_RW := 0x80;
     BIT_SLAVE_EN := 0x80;
     BIT_SLV0_DELAY_EN := 0x01;
     BIT_SLV1_DELAY_EN := 0x02;
     MPU9250_COMP_POWER_DOWN := 0x00;
     MPU9250_COMP_SINGLE_MEASURE := 0x01;
     MPU9250_COMP_FUSE_ROM := 0x0F;
     MPU9250_COMP_WHOAMI_ANSWER := 0x48;
     MPU9250_ACCEL_CFG_WOM := 0x09;
     MPU9250_INT_WOM := 0x40;
     MPU9250_ACCEL_INTEL_CFG := 0xC0;
     MPU9250_GYRO_FSR_250DPS := 0;
     MPU9250_GYRO_FSR_500DPS := 1;
     MPU9250_GYRO_FSR_1000DPS := 2;
     MPU9250_GYRO_FSR_2000DPS := 3;
     MPU9250_ACCEL_FSR_2G := 0;
     MPU9250_ACCEL_FSR_4G := 1;
     MPU9250_ACCEL_FSR_8G := 2;
     MPU9250_ACCEL_FSR_16G := 3;
     lpf_code := fun f => match f with
                          | MPU9250_FILTER_184HZ => 1
                          | MPU9250_FILTER_92HZ => 2
                          | MPU9250_FILTER_41HZ => 3
                          | MPU9250_FILTER_20HZ => 4
                          | MPU9250_FILTER_10HZ => 5
                          | MPU9250_FILTER_5HZ => 6
                          end;
     reg_code := fun r => match r with
                          | COMPASS_DATA_START_REG => 0x03
                          | COMPASS_CNTL_REG => 0x0A
                          | _ => 0
                          end |}.

(** A bus that is always free, with a chip that answers 0 to every read
    (so the compass does not identify itself). *)
Definition quiet_bus : i2c_bus :=
  {| init_master_rc := fun _ => 0;
     acquire_rc := fun _ => 0;
     slave_byte := fun _ _ _ _ => 0 |}.

(** A bus that can never be acquired. *)
Definition busy_bus : i2c_bus :=
  {| init_master_rc := fun _ => 0;
     acquire_rc := fun _ => -1;
     slave_byte := fun _ _ _ _ => 0 |}.

(** A bus that is always free, with a chip on which every register reads
    as [0x48] (so the compass identifies itself). *)
Definition answering_bus : i2c_bus :=
  {| init_master_rc := fun _ => 0;
     acquire_rc := fun _ => 0;
     slave_byte := fun _ _ _ _ => 0x48 |}.

Definition example_params : mpu9250_params_t :=
  {| i2c := 0; addr := 0x68; comp_addr := 0x0C; params_sample_rate := 50 |}.

(** A snapshot with the three power states and the two rates given, the
    rest as in [DEFAULT_STATUS]. *)
Definition example_conf (a g c : mpu9250_pwr_t) (rate compass_rate : Z)
  : mpu9250_status_t :=
  {| accel_pwr := a; gyro_pwr := g; compass_pwr := c;
     gyro_fsr := 0; accel_fsr := 3;
     sample_rate := rate; compass_sample_rate := compass_rate;
     compass_x_adj := 0; compass_y_adj := 0; compass_z_adj := 0 |}.

Definition example_world (c : mpu9250_status_t) : world :=
  {| dev := {| params := example_params; conf := c |}; trace := [] |}.

(** ** Calls and what they do on the bus *)

(** The setters that touch the bus: the power, range and sample-rate
    setters. *)
Definition is_bus_setter (c : api_call) : bool :=
  match c with
  | SetAccelPower _ | SetGyroPower _ | SetCompassPower _
  | SetGyroFsr _ | SetAccelFsr _
  | SetSampleRate _ | SetCompassSampleRate _ => true
  | _ => false
  end.

(** What a setter returns before it asks for the bus: [Some r] when one of
    the tests that precede its [i2c_acquire] makes it return [r] (the
    request is the stored value, or it is not a value the setter accepts),
    [None] when the setter goes on to [i2c_acquire].  The tests are those
    of the seven setters, in the order of the source; the other calls have
    no such test. *)
Definition returns_before_acquire
  (h : mpu9250_regs_h) (c : api_call) (s : mpu9250_status_t) : option Z :=
  match c with
  | SetAccelPower p => if pwr_eqb (accel_pwr s) p then Some 0 else None
  | SetGyroPower p => if pwr_eqb (gyro_pwr s) p then Some 0 else None
  | SetCompassPower p => if pwr_eqb (compass_pwr s) p then Some 0 else None
  | SetGyroFsr f =>
    if gyro_fsr s =? f then Some 0
    else match gyro_fsr_dps h f with Some _ => None | None => Some (-2) end
  | SetAccelFsr f =>
    if accel_fsr s =? f then Some 0
    else match accel_fsr_mg h f with Some _ => None | None => Some (-2) end
  | SetSampleRate r =>
    if (r <? MPU9250_MIN_SAMPLE_RATE) || (r >? MPU9250_MAX_SAMPLE_RATE)
    then Some (-2)
    else if sample_rate s =? r then Some 0 else None
  | SetCompassSampleRate r =>
    if (r <? MPU9250_MIN_COMP_SMPL_RATE)
       || (r >? MPU9250_MAX_COMP_SMPL_RATE)
       || (r >? sample_rate s)
    then Some (-2)
    else if compass_sample_rate s =? r then Some 0 else None
  | EnableWom _ _ | ResetAndInit | Init _ => None
  end.

(** The shape of a call whose bus accesses are guarded by [i2c_acquire]:
    it leaves the world alone, or it fails to acquire the bus, returns -1
    and has done nothing else, or it has acquired the bus exactly once. *)
Definition guarded_by_acquire (w : world) (res : Z * world) : Prop :=
  snd res = w \/
  (exists rc, rc <> 0 /\
     res = (-1, {| dev := dev w; trace := trace w ++ [EvAcquire rc] |})) \/
  (exists rest, trace (snd res) = trace w ++ EvAcquire 0 :: rest /\
     forall rc, ~ In (EvAcquire rc) rest).

(** The bytes read from the compass identity register, in order. *)
Definition whoami_reads (evs : list event) : list Z :=
  flat_map (fun e => match e with
                     | EvRead _ COMPASS_WHOAMI_REG v => [v]
                     | _ => []
                     end) evs.

(** [w'] continues the trace of [w], and the identity bytes read in between
    are [ids]. *)
Definition appends (w w' : world) (ids : list Z) : Prop :=
  exists evs, trace w' = trace w ++ evs /\ whoami_reads evs = ids.

(** The reads and writes of register [r], in order. *)
Definition accesses_of (r : reg) (evs : list event) : list event :=
  filter (fun e => match e with
                   | EvRead _ r' _ | EvWrite _ r' _ | EvReadRegs _ r' _ =>
                     if reg_eq_dec r r' then true else false
                   | _ => false
                   end) evs.

(** The spec's reading of what step 3 of the wake-on-motion sequence was
    meant to write to power management 2 ("enable accel, disable gyro"):
    the old value with the accel standby bits cleared and the gyro standby
    bits set. *)
Definition spec_wom_intended (h : mpu9250_regs_h) (old : Z) : Z :=
  u8 (Z.lor (Z.land old (Z.lnot (MPU9250_PWR_ACCEL h))) (MPU9250_PWR_GYRO h)).

(** ** Stored rates *)

(** The integers [lo], [lo+1], ..., [lo+n-1]. *)
Definition zrange (lo : Z) (n : nat) : list Z :=
  map (fun i => lo + Z.of_nat i) (seq 0 n).

(** A sample rate the driver can have stored: 0 (never set) or a rate in
    [4,1000] that is the rate of its own divider. *)
Definition stored_rate_ok (s : Z) : Prop :=
  s = 0 \/ (4 <= s <= 1000 /\ 1000 / (1000 / s) = s).

Definition stored_rate_okb (s : Z) : bool :=
  (s =? 0) || ((4 <=? s) && (s <=? 1000) && (1000 / (1000 / s) =? s)).

(** What holds of the two stored rates in every configuration the driver
    reaches. *)
Definition rates_inv (w : world) : Prop :=
  stored_rate_ok (sample_rate (conf (dev w))) /\
  0 <= compass_sample_rate (conf (dev w)) <= 166.

(** ** The rest of the driver *)

(** The macros of mpu9250-regs.h and the platform parameter that only the
    functions of this part use.  The two registers are parameters as well:
    nothing below depends on which registers they are. *)
Record mpu9250_more_h : Type := {
  MPU9250_TEMP_START_REG : reg;
  MPU9250_INT_STATUS_REG : reg;
  MPU9250_INT_EN_CFG : Z;
  MPU9250_INT_EN : Z;
  MPU9250_INT_STATUS_WOM : Z;
  MPU9250_INT_STATUS_RAW : Z;
  (* width in bits of [unsigned long] on the target *)
  ulong_bits : Z
}.

(** Modelled from the spec: [mpu9250_int_results_t] of mpu9250.h, with the
    two flags [mpu9250_read_int_status] sets. *)
Record mpu9250_int_results_t : Type := {
  wom : Z;
  raw : Z
}.

(** Conversion to [int32_t]. *)
Definition s32 (v : Z) : Z := (v + 2 ^ 31) mod 2 ^ 32 - 2 ^ 31.

Section MoreDriver.

Variable h : mpu9250_regs_h.
Variable x : mpu9250_more_h.
Variable bus : i2c_bus.

(** Conversion to [unsigned long]. *)
Definition ulong (v : Z) : Z := v mod 2 ^ ulong_bits x.

(** [(((int32_t)temp * 1000LU) / 340) + (35 * 1000LU)], stored in an
    [int32_t]: the arithmetic is that of [unsigned long]. *)
Definition temperature_mC (temp : Z) : Z :=
  s32 (ulong (ulong (ulong temp * ulong 1000) / ulong 340 + ulong (35 * 1000))).

Definition mpu9250_read_temperature (output : Z) : M (Z * Z) :=
  d <- get_dev ;;
  rc <- i2c_acquire bus ;;
  if negb (rc =? 0) then ret (-1, output)
  else
    data <- i2c_read_regs bus (addr (params d)) (MPU9250_TEMP_START_REG x) 2 ;;
    i2c_release ;;;
    let temp :=
      s16 (Z.lor (Z.shiftl (u16 (nth 0 data 0)) 8) (nth 1 data 0)) in
    ret (0, temperature_mC temp).

Definition mpu9250_set_interrupt (enable : Z) : M Z :=
  d <- get_dev ;;
  rc <- i2c_acquire bus ;;
  if negb (rc =? 0) then ret (-1)
  else if negb (enable =? 0) then
    i2c_write_reg (addr (params d)) MPU9250_INT_PIN_CFG_REG
                  (MPU9250_INT_EN_CFG x) ;;;
    i2c_write_reg (addr (params d)) MPU9250_INT_ENABLE_REG
                  (MPU9250_INT_EN x) ;;;
    i2c_release ;;;
    ret 0
  else
    i2c_write_reg (addr (params d)) MPU9250_INT_ENABLE_REG REG_RESET ;;;
    i2c_release ;;;
    ret 0.

(** The status structure is an out-parameter: [memset] clears whatever it
    held before anything else happens. *)
Definition mpu9250_read_int_status (status : mpu9250_int_results_t)
  : M (Z * mpu9250_int_results_t) :=
  let status := {| wom := 0; raw := 0 |} in
  d <- get_dev ;;
  rc <- i2c_acquire bus ;;
  if negb (rc =? 0) then ret (-1, status)
  else
    temp <- i2c_read_reg bus (addr (params d)) (MPU9250_INT_STATUS_REG x) ;;
    let status :=
      if negb (Z.land temp (MPU9250_INT_STATUS_WOM x) =? 0)
      then {| wom := 1; raw := raw status |} else status in
    let status :=
      if negb (Z.land temp (MPU9250_INT_STATUS_RAW x) =? 0)
      then {| wom := wom status; raw := 1 |} else status in
    i2c_release ;;;
    ret (0, status).

(** The functions that take the bus for themselves: every function of the
    driver's interface except the two initialisation functions. *)
Inductive bus_op : Type :=
| OpSetter (c : api_call)
| OpReadGyro (output : mpu9250_results_t)
| OpReadAccel (output : mpu9250_results_t)
| OpReadTemperature (output : Z)
| OpSetInterrupt (enable : Z)
| OpReadIntStatus (status : mpu9250_int_results_t).

Definition takes_bus_itself (o : bus_op) : bool :=
  match o with
  | OpSetter ResetAndInit | OpSetter (Init _) => false
  | _ => true
  end.

(** The world after one such call (results dropped). *)
Definition run_op (o : bus_op) (w : world) : world :=
  match o with
  | OpSetter c => snd (call h bus c w)
  | OpReadGyro out => snd (mpu9250_read_gyro h bus out w)
  | OpReadAccel out => snd (mpu9250_read_accel h bus out w)
  | OpReadTemperature out => snd (mpu9250_read_temperature out w)
  | OpSetInterrupt e => snd (mpu9250_set_interrupt e w)
  | OpReadIntStatus s => snd (mpu9250_read_int_status s w)
  end.

End MoreDriver.

(** ** Holding the bus *)

(** Replays a trace against the acquire/release protocol of the bus.
    [held] tells whether the bus is held; the result is [None] when a
    register is accessed or the bus is released while it is not held, or
    when it is acquired while held, and otherwise tells whether the bus is
    held at the end. *)
Fixpoint bus_discipline (held : bool) (evs : list event) : option bool :=
  match evs with
  | [] => Some held
  | EvAcquire rc :: evs' =>
    if held then None else bus_discipline (rc =? 0) evs'
  | EvRelease :: evs' =>
    if held then bus_discipline false evs' else None
  | EvRead _ _ _ :: evs' | EvReadRegs _ _ _ :: evs' | EvWrite _ _ _ :: evs' =>
    if held then bus_discipline true evs' else None
  | EvInitMaster _ :: evs' | EvUsleep _ :: evs' => bus_discipline held evs'
  end.

(** The big-endian signed 16-bit value of two bytes, as the read functions
    assemble it. *)
Definition be16 (hi lo : Z) : Z := s16 (Z.lor (Z.shiftl hi 8) lo).

(** Example values for the macros of [mpu9250_more_h], on a target with a
    32-bit [unsigned long]; two register names of [reg] stand in for the
    temperature and interrupt-status registers. *)
Definition example_more : mpu9250_more_h :=
  {| MPU9250_TEMP_START_REG := MPU9250_GYRO_START_REG;
     MPU9250_INT_STATUS_REG := MPU9250_INT_ENABLE_REG;
     MPU9250_INT_EN_CFG := 0x30;
     MPU9250_INT_EN := 0x01;
     MPU9250_INT_STATUS_WOM := 0x40;
     MPU9250_INT_STATUS_RAW := 0x01;
     ulong_bits := 32 |}.

(** A bus that is always free, with a chip on which every even offset of a
    block read delivers [0x40] and every odd offset 0: each big-endian
    16-bit value reads as [0x4000]. *)
Definition half_scale_bus : i2c_bus :=
  {| init_master_rc := fun _ => 0;
     acquire_rc := fun _ => 0;
     slave_byte := fun _ _ _ i => if Nat.even i then 0x40 else 0 |}.

(** The setters of an enumerated field: the power and the range setters. *)
Definition is_enum_setter (c : api_call) : bool :=
  match c with
  | SetAccelPower _ | SetGyroPower _ | SetCompassPower _
  | SetGyroFsr _ | SetAccelFsr _ => true
  | _ => false
  end.

(** The snapshot holds what the setter call [c] asked for. *)
Definition stores_request (c : api_call) (s : mpu9250_status_t) : Prop :=
  match c with
  | SetAccelPower p => accel_pwr s = p
  | SetGyroPower p => gyro_pwr s = p
  | SetCompassPower p => compass_pwr s = p
  | SetGyroFsr f => gyro_fsr s = f
  | SetAccelFsr f => accel_fsr s = f
  | _ => True
  end.

(** The six orders in which the three subsystems can be switched off. *)
Definition power_off_orders : list (list api_call) :=
  let a := SetAccelPower MPU9250_SENSOR_PWR_OFF in
  let g := SetGyroPower MPU9250_SENSOR_PWR_OFF in
  let c := SetCompassPower MPU9250_SENSOR_PWR_OFF in
  [ [a; g; c]; [a; c; g]; [g; a; c]; [g; c; a]; [c; a; g]; [c; g; a] ].

(** A bus that is always free, with a chip on which every register reads
    as [0xFF]. *)
Definition all_ones_bus : i2c_bus :=
  {| init_master_rc := fun _ => 0;
     acquire_rc := fun _ => 0;
     slave_byte := fun _ _ _ _ => 0xFF |}.

(** * Properties *)

Lemma events_since_app (w w' : world) (evs : list event) :
  trace w' = trace w ++ evs -> events_since w w' = evs.
Proof.
  unfold events_since. intros ->.
  induction (trace w) as [|e l IH]; simpl; auto.
Qed.

Lemma events_since_refl (w : world) : events_since w w = [].
Proof. apply events_since_app. now rewrite app_nil_r. Qed.

Lemma pwr_eqb_refl (p : mpu9250_pwr_t) : pwr_eqb p p = true.
Proof. now destruct p. Qed.

Lemma pwr_eqb_eq (p q : mpu9250_pwr_t) : pwr_eqb p q = true <-> p = q.
Proof. destruct p, q; simpl; split; congruence. Qed.

(** Unfold the monad and the bus primitives. *)
Ltac run :=
  cbv [bind ret get_dev get_conf put_conf put_dev emit
       i2c_init_master i2c_acquire i2c_release
       i2c_read_reg i2c_read_regs i2c_write_reg xtimer_usleep] in *;
  cbn [dev trace conf params fst snd] in *.

(** Bring a trace into the form [trace w ++ [e1; ...; en]]. *)
Ltac flatten_trace := rewrite <- ?app_assoc; cbn [app].

(** C9.  Requesting, from any of the three subsystem power setters, the
    power state already recorded in the configuration snapshot returns 0
    (success) and leaves the world as it was: the snapshot is unchanged and
    nothing is appended to the trace, so no bus transaction (and no delay)
    takes place. *)
Theorem set_power_same_state_is_noop
  (h : mpu9250_regs_h) (bus : i2c_bus) (w : world) :
  let c := conf (dev w) in
  mpu9250_set_accel_power h bus (accel_pwr c) w = (0, w) /\
  mpu9250_set_gyro_power h bus (gyro_pwr c) w = (0, w) /\
  mpu9250_set_compass_power h bus (compass_pwr c) w = (0, w) /\
  events_since w (snd (mpu9250_set_accel_power h bus (accel_pwr c) w)) = [] /\
  events_since w (snd (mpu9250_set_gyro_power h bus (gyro_pwr c) w)) = [] /\
  events_since w (snd (mpu9250_set_compass_power h bus (compass_pwr c) w)) = [].
Proof.
  intros c.
  assert (A : mpu9250_set_accel_power h bus (accel_pwr c) w = (0, w)).
  { unfold mpu9250_set_accel_power. run. subst c.
    now rewrite pwr_eqb_refl. }
  assert (G : mpu9250_set_gyro_power h bus (gyro_pwr c) w = (0, w)).
  { unfold mpu9250_set_gyro_power. run. subst c.
    now rewrite pwr_eqb_refl. }
  assert (C : mpu9250_set_compass_power h bus (compass_pwr c) w = (0, w)).
  { unfold mpu9250_set_compass_power. run. subst c.
    now rewrite pwr_eqb_refl. }
  rewrite A, G, C. cbn [snd].
  repeat split; apply events_since_refl.
Qed.

(** One case split for each undecided test of the goal. *)
Ltac split_tests :=
  repeat (match goal with
          | |- context [if ?c then _ else _] => destruct c eqn:?
          | |- context [match ?c with Some _ => _ | None => _ end] =>
            destruct c eqn:?
          end; run).

(** Replace [events_since w w'] in the goal by the events appended. *)
Ltac since :=
  repeat match goal with
  | |- context [events_since ?w ?w'] =>
    first
      [ rewrite (events_since_refl w)
      | let E := fresh "E" in
        eassert (E : events_since w w' = _)
          by (apply events_since_app; cbn [trace]; flatten_trace; reflexivity);
        rewrite E; clear E ]
  end.

Lemma u8_idem (x : Z) : u8 (u8 x) = u8 x.
Proof. unfold u8. apply Z.mod_mod. lia. Qed.

Lemma u8_small (x : Z) : 0 <= x < 256 -> u8 x = x.
Proof. unfold u8. intros H. now apply Z.mod_small. Qed.

Lemma u16_small (x : Z) : 0 <= x < 65536 -> u16 x = x.
Proof. unfold u16. intros H. now apply Z.mod_small. Qed.

(** *** Bus acquisition *)

Ltac acquire_facts :=
  repeat match goal with
         | H : negb (_ =? 0) = false |- _ =>
           apply negb_false_iff, Z.eqb_eq in H
         | H : negb (_ =? 0) = true |- _ =>
           apply negb_true_iff, Z.eqb_neq in H
         end.

Ltac no_acquire :=
  let rc := fresh "rc" in
  let H := fresh "H" in
  intros rc H; cbn [In] in H;
  repeat (destruct H as [H|H]; [discriminate H|]); exact H.

Ltac by_acquire :=
  acquire_facts;
  first
    [ left; reflexivity
    | right; left; eexists; split; [eassumption | reflexivity]
    | right; right;
      match goal with H : acquire_rc _ _ = 0 |- _ => rewrite H end;
      eexists; split;
      [ cbn [snd trace]; flatten_trace; reflexivity | no_acquire ] ].

Ltac unfold_setters :=
  unfold mpu9250_set_accel_power, mpu9250_set_gyro_power,
    mpu9250_set_compass_power, mpu9250_set_gyro_fsr, mpu9250_set_accel_fsr,
    mpu9250_set_sample_rate, mpu9250_set_compass_sample_rate, conf_lpf.

Lemma setters_guarded_by_acquire
  (h : mpu9250_regs_h) (bus : i2c_bus) (c : api_call) (w : world) :
  is_bus_setter c = true -> guarded_by_acquire w (call h bus c w).
Proof.
  intros S. destruct c; try discriminate S; clear S; cbn [call];
  unfold guarded_by_acquire; unfold_setters;
  run; split_tests; by_acquire.
Qed.

Lemma setter_stops_at_failed_acquire
  (h : mpu9250_regs_h) (bus : i2c_bus) (c : api_call) (w : world) :
  is_bus_setter c = true ->
  returns_before_acquire h c (conf (dev w)) = None ->
  acquire_rc bus (trace w) <> 0 ->
  call h bus c w
  = (-1, {| dev := dev w;
            trace := trace w ++ [EvAcquire (acquire_rc bus (trace w))] |}).
Proof.
  intros S N A. apply Z.eqb_neq in A.
  destruct c; try discriminate S; clear S;
  cbn [call returns_before_acquire] in *; unfold_setters; run;
  repeat match type of N with
         | context [if ?t then _ else _] => destruct t eqn:?
         | context [match ?t with Some _ => _ | None => _ end] =>
           destruct t eqn:?
         end; try discriminate N; run; rewrite A; reflexivity.
Qed.

Lemma setter_early_return
  (h : mpu9250_regs_h) (bus : i2c_bus) (c : api_call) (w : world) (r : Z) :
  is_bus_setter c = true ->
  returns_before_acquire h c (conf (dev w)) = Some r ->
  (r = 0 \/ r = -2) /\ call h bus c w = (r, w).
Proof.
  intros S N.
  destruct c; try discriminate S; clear S;
  cbn [call returns_before_acquire] in *; unfold_setters; run;
  repeat match type of N with
         | context [if ?t then _ else _] => destruct t eqn:?
         | context [match ?t with Some _ => _ | None => _ end] =>
           destruct t eqn:?
         end; try discriminate N; injection N as <-;
  (split; [auto | reflexivity]).
Qed.

(** C8 (as the code has it).  For every setter that touches the bus (the
    three power setters, the two range setters and the two sample-rate
    setters), on a bus that cannot be acquired ([i2c_acquire] returns
    non-zero in the state of the call): when the setter gets past the tests
    that precede its [i2c_acquire] (the request differs from the stored
    value and is a value the setter accepts), the call returns -1
    (BusError), the device descriptor, and with it the configuration
    snapshot, is exactly as before, and the failed acquisition is the only
    thing the call did: no register was read or written.  When one of those
    tests makes the setter return, it returns 0 or -2 and leaves the world
    as it was, whatever the bus would have answered. *)
Theorem setter_bus_failure_keeps_snapshot
  (h : mpu9250_regs_h) (bus : i2c_bus) (c : api_call) (w : world) :
  is_bus_setter c = true ->
  (returns_before_acquire h c (conf (dev w)) = None ->
   acquire_rc bus (trace w) <> 0 ->
   fst (call h bus c w) = -1 /\
   dev (snd (call h bus c w)) = dev w /\
   conf (dev (snd (call h bus c w))) = conf (dev w) /\
   events_since w (snd (call h bus c w))
   = [EvAcquire (acquire_rc bus (trace w))]) /\
  (forall r, returns_before_acquire h c (conf (dev w)) = Some r ->
   (r = 0 \/ r = -2) /\ call h bus c w = (r, w) /\
   events_since w (snd (call h bus c w)) = []).
Proof.
  intros S. split.
  - intros N A. rewrite (setter_stops_at_failed_acquire h bus c w S N A).
    cbn [fst snd dev]. repeat split.
    now apply events_since_app.
  - intros r N. destruct (setter_early_return h bus c w r S N) as [V E].
    split; [exact V|]. split; [exact E|].
    rewrite E. apply events_since_refl.
Qed.

(** C8 as the spec states it gives a reason that the code does not have:
    the snapshot is not always updated after the register writes are
    complete.  From a fresh handle with a free bus, a request of 300 Hz to
    [mpu9250_set_sample_rate] is the acquisition, the write of the
    rate-divider register and the store of 333 Hz in the snapshot
    ([up_to_store]), followed by [conf_lpf] with half the rate just stored
    and the release ([from_store]): the filter, accelerometer and gyroscope
    configuration registers are written when the snapshot already holds
    the new rate. *)
Lemma set_sample_rate_stores_before_filter_writes :
  let w := fresh example_regs example_params in
  let divider := sample_rate_divider 300 in
  let up_to_store : M unit :=
    i2c_acquire quiet_bus ;;;
    i2c_write_reg (addr example_params) MPU9250_RATE_DIV_REG divider ;;;
    put_conf (with_sample_rate (Z.quot 1000 (u16 divider + 1))
                               (conf (dev w))) in
  let mid := snd (up_to_store w) in
  let from_store : M Z :=
    conf_lpf example_regs quiet_bus
             (Z.shiftr (sample_rate (conf (dev mid))) 1) ;;;
    i2c_release ;;;
    ret 0 in
  mpu9250_set_sample_rate example_regs quiet_bus 300 w = from_store mid /\
  sample_rate (conf (dev w)) = 0 /\
  sample_rate (conf (dev mid)) = 333 /\
  written_regs (events_since w mid) = [MPU9250_RATE_DIV_REG] /\
  written_regs (events_since mid (snd (from_store mid)))
  = [MPU9250_CONFIG; MPU9250_ACCEL_CFG_REG2; MPU9250_GYRO_CFG_REG].
Proof. vm_compute. repeat split. Qed.

(** *** Reads with an unsupported range *)

(** C10.  When the stored gyro (respectively accel) full-scale range is
    none of the four enumerators, [mpu9250_read_gyro] (respectively
    [mpu9250_read_accel]) returns -2, a code different from the -1 of a
    failed bus acquisition; the world is as before, so the bus was not
    acquired and no bus transaction took place, and the output structure is
    the one passed in. *)
Theorem read_with_unsupported_range_fails_early
  (h : mpu9250_regs_h) (bus : i2c_bus) (w : world)
  (output : mpu9250_results_t) :
  (let fsr := gyro_fsr (conf (dev w)) in
   fsr <> MPU9250_GYRO_FSR_250DPS h -> fsr <> MPU9250_GYRO_FSR_500DPS h ->
   fsr <> MPU9250_GYRO_FSR_1000DPS h -> fsr <> MPU9250_GYRO_FSR_2000DPS h ->
   mpu9250_read_gyro h bus output w = ((-2, output), w) /\
   events_since w (snd (mpu9250_read_gyro h bus output w)) = []) /\
  (let fsr := accel_fsr (conf (dev w)) in
   fsr <> MPU9250_ACCEL_FSR_2G h -> fsr <> MPU9250_ACCEL_FSR_4G h ->
   fsr <> MPU9250_ACCEL_FSR_8G h -> fsr <> MPU9250_ACCEL_FSR_16G h ->
   mpu9250_read_accel h bus output w = ((-2, output), w) /\
   events_since w (snd (mpu9250_read_accel h bus output w)) = []).
Proof.
  split; intros fsr H1 H2 H3 H4.
  - assert (E : mpu9250_read_gyro h bus output w = ((-2, output), w)).
    { unfold mpu9250_read_gyro, gyro_fsr_dps. run. fold fsr.
      apply Z.eqb_neq in H1, H2, H3, H4. now rewrite H1, H2, H3, H4. }
    rewrite E. split; [reflexivity | apply events_since_refl].
  - assert (E : mpu9250_read_accel h bus output w = ((-2, output), w)).
    { unfold mpu9250_read_accel, accel_fsr_mg. run. fold fsr.
      apply Z.eqb_neq in H1, H2, H3, H4. now rewrite H1, H2, H3, H4. }
    rewrite E. split; [reflexivity | apply events_since_refl].
Qed.

(** *** Compass identity check *)

Lemma appends_refl (w : world) : appends w w [].
Proof. exists []. now rewrite app_nil_r. Qed.

Lemma appends_trans (w1 w2 w3 : world) (a b c : list Z) :
  appends w1 w2 a -> appends w2 w3 b -> a ++ b = c -> appends w1 w3 c.
Proof.
  intros [e1 [T1 O1]] [e2 [T2 O2]] <-. exists (e1 ++ e2). split.
  - now rewrite T2, T1, app_assoc.
  - unfold whoami_reads in *. now rewrite flat_map_app, O1, O2.
Qed.

Lemma appends_since (w w' : world) (ids : list Z) :
  appends w w' ids -> whoami_reads (events_since w w') = ids.
Proof. intros [evs [T O]]. now rewrite (events_since_app w w' evs T). Qed.

Ltac appended :=
  first [ apply appends_refl
        | eexists; split;
          [cbn [trace]; flatten_trace; reflexivity | reflexivity] ].

Lemma setter_reads_no_identity
  (h : mpu9250_regs_h) (bus : i2c_bus) (c : api_call) (w : world) :
  is_bus_setter c = true -> appends w (snd (call h bus c w)) [].
Proof.
  intros S. destruct c; try discriminate S; clear S; cbn [call];
  unfold_setters; run; split_tests; appended.
Qed.

Lemma compass_init_identity (h : mpu9250_regs_h) (bus : i2c_bus) (w : world) :
  exists v,
    appends w (snd (compass_init h bus w)) [v] /\
    fst (compass_init h bus w) =
      if v =? MPU9250_COMP_WHOAMI_ANSWER h then 0 else -1.
Proof.
  unfold compass_init, conf_bypass. run. cbn [Z.eqb negb]. run.
  eexists.
  match goal with
  | |- context [if negb (?a =? ?b) then _ else _] => destruct (a =? b) eqn:E
  end; cbn [negb]; run; (split; [appended|]);
  rewrite <- ?app_assoc in E; cbn [app] in E; now rewrite E.
Qed.

Lemma reset_and_init_identity
  (h : mpu9250_regs_h) (bus : i2c_bus) (w : world) :
  exists v,
    appends w (snd (mpu9250_reset_and_init h bus w)) [v] /\
    fst (mpu9250_reset_and_init h bus w) =
      if v =? MPU9250_COMP_WHOAMI_ANSWER h then 0 else -2.
Proof.
  unfold mpu9250_reset_and_init. run.
  set (w1 := {| dev := dev w; trace := _ |}).
  assert (A1 : appends w w1 []) by (subst w1; appended).
  pose proof (setter_reads_no_identity h bus
                (SetGyroFsr (MPU9250_GYRO_FSR_2000DPS h)) w1 eq_refl) as A2.
  cbn [call] in A2.
  destruct (mpu9250_set_gyro_fsr h bus _ w1) as [r2 w2]. run.
  pose proof (setter_reads_no_identity h bus
                (SetAccelFsr (MPU9250_ACCEL_FSR_2G h)) w2 eq_refl) as A3.
  cbn [call] in A3.
  destruct (mpu9250_set_accel_fsr h bus _ w2) as [r3 w3]. run.
  pose proof (setter_reads_no_identity h bus
                (SetSampleRate (params_sample_rate (params (dev w))))
                w3 eq_refl) as A4.
  cbn [call] in A4.
  destruct (mpu9250_set_sample_rate h bus _ w3) as [r4 w4]. run.
  set (w5 := {| dev := dev w4; trace := _ |}).
  assert (A5 : appends w4 w5 []) by (subst w5; appended).
  destruct (compass_init_identity h bus w5) as [v [A6 R6]].
  destruct (compass_init h bus w5) as [r6 w6]. run. subst r6.
  assert (A : appends w w6 [v]).
  { eapply appends_trans; [exact A1| |reflexivity].
    eapply appends_trans; [exact A2| |reflexivity].
    eapply appends_trans; [exact A3| |reflexivity].
    eapply appends_trans; [exact A4| |reflexivity].
    eapply appends_trans; [exact A5|exact A6|reflexivity]. }
  exists v. destruct (v =? MPU9250_COMP_WHOAMI_ANSWER h); cbn [Z.eqb negb]; run.
  - set (w7 := {| dev := dev w6; trace := _ |}).
    assert (A7 : appends w6 w7 []) by (subst w7; appended).
    pose proof (setter_reads_no_identity h bus (SetCompassSampleRate 10)
                  w7 eq_refl) as A8.
    cbn [call] in A8.
    destruct (mpu9250_set_compass_sample_rate bus 10 w7) as [r8 w8]. run.
    split; [|reflexivity].
    eapply appends_trans; [exact A| |apply app_nil_r].
    eapply appends_trans; [exact A7| |reflexivity].
    eapply appends_trans; [exact A8| |reflexivity].
    appended.
  - split; [|reflexivity].
    eapply appends_trans; [exact A| |apply app_nil_r]. appended.
Qed.

Lemma init_identity
  (h : mpu9250_regs_h) (bus : i2c_bus) (p : mpu9250_params_t) (w : world) :
  (appends w (snd (mpu9250_init h bus p w)) [] /\
   fst (mpu9250_init h bus p w) = -1) \/
  (exists v,
     appends w (snd (mpu9250_init h bus p w)) [v] /\
     fst (mpu9250_init h bus p w) =
       if v =? MPU9250_COMP_WHOAMI_ANSWER h then 0 else -2).
Proof.
  unfold mpu9250_init. run.
  destruct (init_master_rc bus (trace w) =? 0) eqn:E; cbn [negb]; run.
  - right.
    set (w1 := {| dev := _; trace := _ |}).
    destruct (reset_and_init_identity h bus w1) as [v [A R]].
    exists v. split; [|exact R].
    eapply appends_trans with (a := []); [|exact A|reflexivity].
    subst w1. appended.
  - left. split; [appended | reflexivity].
Qed.

(** C6.  If the byte read from the compass identity register during
    bring-up is not the expected answer, [compass_init] fails (returns -1),
    and [mpu9250_reset_and_init] and [mpu9250_init] return -2, the code
    this path alone produces in initialisation (0 is success, -1 is a bus
    that cannot be initialised); the identity register is read exactly once
    in the whole call, so the check is not retried. *)
Theorem compass_identity_mismatch_fails_init
  (h : mpu9250_regs_h) (bus : i2c_bus) (p : mpu9250_params_t) (w : world)
  (v : Z) :
  v <> MPU9250_COMP_WHOAMI_ANSWER h ->
  (In v (whoami_reads (events_since w (snd (compass_init h bus w)))) ->
   fst (compass_init h bus w) = -1 /\
   whoami_reads (events_since w (snd (compass_init h bus w))) = [v]) /\
  (In v (whoami_reads
           (events_since w (snd (mpu9250_reset_and_init h bus w)))) ->
   fst (mpu9250_reset_and_init h bus w) = -2 /\
   whoami_reads (events_since w (snd (mpu9250_reset_and_init h bus w)))
   = [v]) /\
  (In v (whoami_reads (events_since w (snd (mpu9250_init h bus p w)))) ->
   fst (mpu9250_init h bus p w) = -2 /\
   whoami_reads (events_since w (snd (mpu9250_init h bus p w))) = [v]).
Proof.
  intros Hv. apply Z.eqb_neq in Hv. split; [|split]; intros H.
  - destruct (compass_init_identity h bus w) as [v0 [A R]].
    apply appends_since in A. rewrite A in H |- *.
    destruct H as [<- | []]. now rewrite R, Hv.
  - destruct (reset_and_init_identity h bus w) as [v0 [A R]].
    apply appends_since in A. rewrite A in H |- *.
    destruct H as [<- | []]. now rewrite R, Hv.
  - destruct (init_identity h bus p w) as [[A R] | [v0 [A R]]];
      apply appends_since in A; rewrite A in H |- *.
    + destruct H.
    + destruct H as [<- | []]. now rewrite R, Hv.
Qed.

Lemma compass_identity_mismatch_fails_init_witness :
  let w := example_world (example_conf MPU9250_SENSOR_PWR_ON
                            MPU9250_SENSOR_PWR_ON MPU9250_SENSOR_PWR_ON 0 0) in
  0 <> MPU9250_COMP_WHOAMI_ANSWER example_regs /\
  fst (mpu9250_init example_regs quiet_bus example_params w) = -2 /\
  whoami_reads
    (events_since w (snd (mpu9250_init example_regs quiet_bus example_params w)))
  = [0].
Proof.
  intros w.
  assert (Hv : 0 <> MPU9250_COMP_WHOAMI_ANSWER example_regs)
    by (vm_compute; discriminate).
  split; [exact Hv|].
  apply (compass_identity_mismatch_fails_init
           example_regs quiet_bus example_params w 0 Hv).
  vm_compute. left. reflexivity.
Defined.

Lemma setter_bus_failure_keeps_snapshot_witness :
  let w := example_world (example_conf MPU9250_SENSOR_PWR_ON
                            MPU9250_SENSOR_PWR_ON MPU9250_SENSOR_PWR_ON 0 0) in
  let c := SetGyroFsr 2 in
  let c' := SetSampleRate 3000 in
  (is_bus_setter c = true /\
   returns_before_acquire example_regs c (conf (dev w)) = None /\
   acquire_rc busy_bus (trace w) <> 0) /\
  (fst (call example_regs busy_bus c w) = -1 /\
   dev (snd (call example_regs busy_bus c w)) = dev w /\
   events_since w (snd (call example_regs busy_bus c w))
   = [EvAcquire (-1)]) /\
  (is_bus_setter c' = true /\
   returns_before_acquire example_regs c' (conf (dev w)) = Some (-2)) /\
  call example_regs busy_bus c' w = (-2, w).
Proof.
  intros w c c'.
  assert (A : acquire_rc busy_bus (trace w) <> 0) by discriminate.
  destruct (setter_bus_failure_keeps_snapshot
              example_regs busy_bus c w eq_refl) as [B _].
  destruct (B eq_refl A) as [F [D [_ E]]].
  destruct (setter_bus_failure_keeps_snapshot
              example_regs busy_bus c' w eq_refl) as [_ R].
  destruct (R (-2) eq_refl) as [_ [Q _]].
  split; [split; [reflexivity | split; [reflexivity | exact A]]|].
  split; [split; [exact F | split; [exact D | exact E]]|].
  split; [split; reflexivity | exact Q].
Defined.

Lemma read_with_unsupported_range_fails_early_witness :
  let c := {| accel_pwr := MPU9250_SENSOR_PWR_ON;
              gyro_pwr := MPU9250_SENSOR_PWR_ON;
              compass_pwr := MPU9250_SENSOR_PWR_ON;
              gyro_fsr := 7; accel_fsr := 9;
              sample_rate := 50; compass_sample_rate := 10;
              compass_x_adj := 0; compass_y_adj := 0; compass_z_adj := 0 |} in
  let w := example_world c in
  let out := {| x_axis := 1; y_axis := 2; z_axis := 3 |} in
  mpu9250_read_gyro example_regs quiet_bus out w = ((-2, out), w) /\
  mpu9250_read_accel example_regs quiet_bus out w = ((-2, out), w).
Proof.
  intros c w out.
  destruct (read_with_unsupported_range_fails_early
              example_regs quiet_bus w out) as [G A].
  split.
  - apply G; vm_compute; discriminate.
  - apply A; vm_compute; discriminate.
Defined.

(** *** Wake on motion *)

Lemma lnot_lor_lnot (a b : Z) :
  Z.lnot (Z.lor a (Z.lnot b)) = Z.land (Z.lnot a) b.
Proof.
  apply Z.bits_inj'. intros n Hn.
  rewrite Z.land_spec, !Z.lnot_spec, Z.lor_spec, Z.lnot_spec by assumption.
  now destruct (Z.testbit a n), (Z.testbit b n).
Qed.

(** C7.  Once [mpu9250_enable_wom] holds the bus, its only accesses to
    power management 2 are one read, of some byte [old], followed by one
    write of the byte [old & ~(ACCEL | ~GYRO)], whatever [old] is.  That
    byte is [old & ~ACCEL & GYRO]: the gyro standby bits are kept as they
    were read and every other bit is cleared; it is not the byte that
    clears the accel standby bits and sets the gyro standby bits (the two
    differ, for instance, when the register reads 0 and the gyro mask is
    not empty). *)
Theorem enable_wom_pwr_mgmt_2_literal
  (h : mpu9250_regs_h) (bus : i2c_bus) (wom_threshold wake_up_freq : Z)
  (w : world) :
  acquire_rc bus (trace w) = 0 ->
  let A := MPU9250_PWR_ACCEL h in
  let G := MPU9250_PWR_GYRO h in
  let a := addr (params (dev w)) in
  let literal old := u8 (Z.land old (Z.lnot (Z.lor A (Z.lnot G)))) in
  let evs :=
    events_since w (snd (mpu9250_enable_wom h bus wom_threshold wake_up_freq w))
  in
  (exists old,
     0 <= old < 256 /\
     accesses_of MPU9250_PWR_MGMT_2_REG evs =
       [EvRead a MPU9250_PWR_MGMT_2_REG old;
        EvWrite a MPU9250_PWR_MGMT_2_REG (literal old)]) /\
  (forall old, literal old = u8 (Z.land (Z.land old (Z.lnot A)) G)) /\
  (u8 G <> 0 -> literal 0 <> spec_wom_intended h 0).
Proof.
  intros Hacq A G a literal evs. split; [|split].
  - subst evs. unfold mpu9250_enable_wom, conf_bypass. run.
    rewrite Hacq. cbn [Z.eqb negb]. run. since.
    cbn [accesses_of filter reg_eq_dec reg_rec reg_rect].
    rewrite !u8_idem.
    eexists. split; [|subst literal a; cbv beta; reflexivity].
    unfold u8. apply Z.mod_pos_bound. lia.
  - intros old. subst literal. cbv beta.
    now rewrite lnot_lor_lnot, Z.land_assoc.
  - intros HG. subst literal. unfold spec_wom_intended. cbv beta.
    rewrite !Z.land_0_l, Z.lor_0_l. change (u8 0) with 0.
    intros E. apply HG. subst G. now rewrite <- E.
Qed.

Lemma enable_wom_pwr_mgmt_2_literal_witness :
  let w := example_world (example_conf MPU9250_SENSOR_PWR_ON
                            MPU9250_SENSOR_PWR_ON MPU9250_SENSOR_PWR_ON 50 10) in
  acquire_rc quiet_bus (trace w) = 0 /\
  u8 (MPU9250_PWR_GYRO example_regs) <> 0 /\
  u8 (Z.land 0 (Z.lnot (Z.lor 0x38 (Z.lnot 0x07))))
  <> spec_wom_intended example_regs 0 /\
  exists old,
    0 <= old < 256 /\
    accesses_of MPU9250_PWR_MGMT_2_REG
      (events_since w (snd (mpu9250_enable_wom example_regs quiet_bus 20 6 w)))
    = [EvRead 0x68 MPU9250_PWR_MGMT_2_REG old;
       EvWrite 0x68 MPU9250_PWR_MGMT_2_REG
         (u8 (Z.land old (Z.lnot (Z.lor 0x38 (Z.lnot 0x07)))))].
Proof.
  intros w.
  destruct (enable_wom_pwr_mgmt_2_literal example_regs quiet_bus 20 6 w
              eq_refl) as [R [_ D]].
  split; [reflexivity|].
  split; [vm_compute; discriminate|].
  split; [apply D; vm_compute; discriminate | exact R].
Defined.

(** *** Power transitions and power management 1 *)

Ltac run_power Hacq :=
  run; cbn [accel_pwr gyro_pwr compass_pwr pwr_eqb andb] in *; run;
  rewrite Hacq; cbn [Z.eqb negb]; run; since;
  cbn [power_triple with_accel_pwr with_gyro_pwr with_compass_pwr
       accel_pwr gyro_pwr compass_pwr all_off spec_pm1_touched
       andb orb negb];
  cbn [pm1_written existsb is_write_to writes_to written_regs accesses_of
       filter flat_map app reg_eq_dec reg_rec reg_rect orb];
  rewrite ?u8_idem.

(** C1 (as the code has it).  Whenever a power setter changes the state of
    its subsystem and holds the bus:
    - [mpu9250_set_accel_power] and [mpu9250_set_compass_power] write power
      management 1 if and only if the transition leaves all three
      subsystems off or starts from all three off (that is, the other two
      are off); the value is the sleep bit when switching off and the
      wake-up value when switching on;
    - apart from that, the accel setter only reads power management 2 and
      writes it back with the accel standby bits set (off) or cleared (on),
      while the compass setter never touches power management 2: it writes
      the slave-1 data-out register and the user-control register;
    - [mpu9250_set_gyro_power] writes power management 1 on every
      transition (the PLL clock when switching on; when switching off, the
      sleep bit if the other two are off and the wake-up value otherwise),
      and writes power management 2 back with the gyro standby bits
      cleared (on) or set (off). *)
Theorem power_setters_pm1_discipline
  (h : mpu9250_regs_h) (bus : i2c_bus) (p : mpu9250_pwr_t) (w : world) :
  acquire_rc bus (trace w) = 0 ->
  let c := conf (dev w) in
  let a := addr (params (dev w)) in
  let sleep_or_wake :=
    match p with
    | MPU9250_SENSOR_PWR_ON => MPU9250_PWR_WAKEUP h
    | MPU9250_SENSOR_PWR_OFF => BIT_PWR_MGMT1_SLEEP h
    end in
  let standby mask old :=
    match p with
    | MPU9250_SENSOR_PWR_ON => u8 (Z.land old (Z.lnot mask))
    | MPU9250_SENSOR_PWR_OFF => u8 (Z.lor old mask)
    end in
  (accel_pwr c <> p ->
   let w' := snd (mpu9250_set_accel_power h bus p w) in
   let evs := events_since w w' in
   let touched := spec_pm1_touched (power_triple c) (power_triple (conf (dev w'))) in
   power_triple (conf (dev w')) = (p, gyro_pwr c, compass_pwr c) /\
   pm1_written evs = touched /\
   writes_to MPU9250_PWR_MGMT_1_REG evs
   = (if touched then [u8 sleep_or_wake] else []) /\
   written_regs evs
   = (if touched then [MPU9250_PWR_MGMT_1_REG] else [])
       ++ [MPU9250_PWR_MGMT_2_REG] /\
   exists old,
     accesses_of MPU9250_PWR_MGMT_2_REG evs
     = [EvRead a MPU9250_PWR_MGMT_2_REG old;
        EvWrite a MPU9250_PWR_MGMT_2_REG
          (standby (MPU9250_PWR_ACCEL h) old)]) /\
  (compass_pwr c <> p ->
   let w' := snd (mpu9250_set_compass_power h bus p w) in
   let evs := events_since w w' in
   let touched := spec_pm1_touched (power_triple c) (power_triple (conf (dev w'))) in
   power_triple (conf (dev w')) = (accel_pwr c, gyro_pwr c, p) /\
   pm1_written evs = touched /\
   writes_to MPU9250_PWR_MGMT_1_REG evs
   = (if touched then [u8 sleep_or_wake] else []) /\
   written_regs evs
   = (if touched then [MPU9250_PWR_MGMT_1_REG] else [])
       ++ [MPU9250_SLAVE1_DATA_OUT_REG; MPU9250_USER_CTRL_REG] /\
   accesses_of MPU9250_PWR_MGMT_2_REG evs = []) /\
  (gyro_pwr c <> p ->
   let w' := snd (mpu9250_set_gyro_power h bus p w) in
   let evs := events_since w w' in
   power_triple (conf (dev w')) = (accel_pwr c, p, compass_pwr c) /\
   pm1_written evs = true /\
   writes_to MPU9250_PWR_MGMT_1_REG evs
   = [u8 (match p with
          | MPU9250_SENSOR_PWR_ON => MPU9250_PWR_PLL h
          | MPU9250_SENSOR_PWR_OFF =>
            if all_off (power_triple (conf (dev w')))
            then BIT_PWR_MGMT1_SLEEP h else MPU9250_PWR_WAKEUP h
          end)] /\
   written_regs evs = [MPU9250_PWR_MGMT_1_REG; MPU9250_PWR_MGMT_2_REG] /\
   exists old,
     accesses_of MPU9250_PWR_MGMT_2_REG evs
     = [EvRead a MPU9250_PWR_MGMT_2_REG old;
        EvWrite a MPU9250_PWR_MGMT_2_REG
          (standby (MPU9250_PWR_GYRO h) old)]).
Proof.
  intros Hacq c a sleep_or_wake standby.
  destruct w as [[pa [ap gp cp gf af sr cr x y z]] tr].
  subst c a sleep_or_wake standby. cbn [dev trace conf params] in *.
  cbv zeta.
  split; [|split]; intros Hne; cbn [accel_pwr gyro_pwr compass_pwr] in Hne.
  - unfold mpu9250_set_accel_power.
    destruct ap, gp, cp, p; try congruence; run_power Hacq;
      repeat split; eexists; reflexivity.
  - unfold mpu9250_set_compass_power.
    destruct ap, gp, cp, p; try congruence; run_power Hacq;
      repeat split.
  - unfold mpu9250_set_gyro_power.
    destruct ap, gp, cp, p; try congruence; run_power Hacq;
      repeat split; eexists; reflexivity.
Qed.

Lemma power_setters_pm1_discipline_witness :
  let w := example_world (example_conf MPU9250_SENSOR_PWR_ON
                            MPU9250_SENSOR_PWR_OFF MPU9250_SENSOR_PWR_OFF
                            50 10) in
  let w' := snd (mpu9250_set_accel_power example_regs quiet_bus
                   MPU9250_SENSOR_PWR_OFF w) in
  acquire_rc quiet_bus (trace w) = 0 /\
  accel_pwr (conf (dev w)) <> MPU9250_SENSOR_PWR_OFF /\
  pm1_written (events_since w w') = true /\
  writes_to MPU9250_PWR_MGMT_1_REG (events_since w w') = [0x40] /\
  written_regs (events_since w w')
  = [MPU9250_PWR_MGMT_1_REG; MPU9250_PWR_MGMT_2_REG].
Proof.
  intros w w'.
  assert (Hne : accel_pwr (conf (dev w)) <> MPU9250_SENSOR_PWR_OFF)
    by discriminate.
  destruct (power_setters_pm1_discipline example_regs quiet_bus
              MPU9250_SENSOR_PWR_OFF w eq_refl) as [A _].
  destruct (A Hne) as [_ [T [V [R _]]]].
  split; [reflexivity|]. split; [exact Hne|].
  split; [exact T|]. split; [exact V | exact R].
Defined.

(** C1 as the spec states it fails: with the accelerometer and the compass
    on, switching the gyroscope on writes power management 1 (the PLL
    clock) although the transition neither ends nor starts with all three
    subsystems off; and switching the compass off while the others are on
    does not touch power management 2 at all: it writes the slave-1
    data-out and the user-control registers. *)
Lemma pm1_written_outside_sleep_and_wake :
  let on := MPU9250_SENSOR_PWR_ON in
  let off := MPU9250_SENSOR_PWR_OFF in
  let w := example_world (example_conf on off on 50 10) in
  let w' := snd (mpu9250_set_gyro_power example_regs quiet_bus on w) in
  let u := example_world (example_conf on on on 50 10) in
  let u' := snd (mpu9250_set_compass_power example_regs quiet_bus off u) in
  (power_triple (conf (dev w)) = (on, off, on) /\
   power_triple (conf (dev w')) = (on, on, on) /\
   spec_pm1_touched (power_triple (conf (dev w)))
                    (power_triple (conf (dev w'))) = false /\
   pm1_written (events_since w w') = true /\
   writes_to MPU9250_PWR_MGMT_1_REG (events_since w w') = [0x01]) /\
  (power_triple (conf (dev u')) = (on, on, off) /\
   spec_pm1_touched (power_triple (conf (dev u)))
                    (power_triple (conf (dev u'))) = false /\
   written_regs (events_since u u')
   = [MPU9250_SLAVE1_DATA_OUT_REG; MPU9250_USER_CTRL_REG]).
Proof. vm_compute. repeat split. Qed.

(** *** Arithmetic of the dividers *)

Lemma in_zrange (lo : Z) (n : nat) (x : Z) :
  lo <= x < lo + Z.of_nat n -> In x (zrange lo n).
Proof.
  intros H. unfold zrange. apply in_map_iff.
  exists (Z.to_nat (x - lo)). split; [lia|].
  apply in_seq. lia.
Qed.

Lemma forallb_zrange (f : Z -> bool) (lo : Z) (n : nat) :
  forallb f (zrange lo n) = true ->
  forall x, lo <= x < lo + Z.of_nat n -> f x = true.
Proof.
  intros H x Hx. rewrite forallb_forall in H. apply H. now apply in_zrange.
Qed.

Lemma stored_rate_okb_ok (s : Z) : stored_rate_okb s = true <-> stored_rate_ok s.
Proof. unfold stored_rate_okb, stored_rate_ok. lia. Qed.

(** The rate [mpu9250_set_sample_rate] stores for a request in [4,1000]. *)
Lemma sample_rate_arith (rate : Z) :
  4 <= rate <= 1000 ->
  let divider := sample_rate_divider rate in
  let stored := u16 (Z.quot 1000 (u16 divider + 1)) in
  divider = 1000 / rate - 1 /\
  0 <= divider <= 249 /\
  stored = 1000 / (1000 / rate - 1 + 1) /\
  stored_rate_ok stored.
Proof.
  intros H.
  assert (C : forallb (fun rate =>
            let divider := sample_rate_divider rate in
            let stored := u16 (Z.quot 1000 (u16 divider + 1)) in
            (divider =? 1000 / rate - 1) && (0 <=? divider)
            && (divider <=? 249)
            && (stored =? 1000 / (1000 / rate - 1 + 1))
            && stored_rate_okb stored) (zrange 4 997) = true)
    by (vm_compute; reflexivity).
  pose proof (forallb_zrange _ _ _ C rate ltac:(lia)) as R.
  cbv zeta in R |- *.
  rewrite !andb_true_iff, stored_rate_okb_ok in R.
  destruct R as [[[[R1 R2] R3] R4] R5].
  apply Z.eqb_eq in R1, R4. apply Z.leb_le in R2, R3.
  repeat split; assumption.
Qed.

(** The rate [mpu9250_set_compass_sample_rate] stores when the divider fits
    its byte. *)
Lemma compass_rate_arith (sr r : Z) :
  1 <= r <= 100 -> r <= sr -> sr / r <= 256 ->
  let divider := compass_rate_divider sr r in
  let stored := u8 (Z.quot sr (u16 divider + 1)) in
  divider = sr / r - 1 /\
  stored = sr / (sr / r - 1 + 1) /\
  r <= stored <= 199 /\ stored <= sr.
Proof.
  intros Hr Hsr Hq. cbv zeta. unfold compass_rate_divider.
  assert (Q1 : 1 <= sr / r) by (apply Z.div_le_lower_bound; lia).
  rewrite (Z.quot_div_nonneg sr r) by lia.
  rewrite (u8_small (sr / r - 1)) by lia.
  rewrite (u16_small (sr / r - 1)) by lia.
  replace (sr / r - 1 + 1) with (sr / r) by lia.
  rewrite (Z.quot_div_nonneg sr (sr / r)) by lia.
  assert (T1 : sr / (sr / r) < 2 * r).
  { apply Z.div_lt_upper_bound; [lia|].
    pose proof (Z.div_mod sr r ltac:(lia)).
    pose proof (Z.mod_pos_bound sr r ltac:(lia)). nia. }
  assert (T2 : r <= sr / (sr / r)).
  { apply Z.div_le_lower_bound; [lia|].
    pose proof (Z.div_mod sr r ltac:(lia)).
    pose proof (Z.mod_pos_bound sr r ltac:(lia)). nia. }
  assert (T3 : sr / (sr / r) <= sr).
  { apply Z.div_le_upper_bound; [lia|]. nia. }
  rewrite (u8_small (sr / (sr / r))) by lia.
  repeat split; lia.
Qed.

(** The compass rate stored on top of a sample rate the driver can have
    stored, whether or not the divider fits its byte. *)
Lemma compass_rate_bounds (sr r : Z) :
  stored_rate_ok sr -> 1 <= r <= 100 -> r <= sr ->
  let stored := u8 (Z.quot sr (u16 (compass_rate_divider sr r) + 1)) in
  1 <= stored <= 166 /\ stored <= sr.
Proof.
  intros Hsr Hr Hle.
  assert (C : forallb (fun sr =>
            negb (stored_rate_okb sr) ||
            forallb (fun r =>
              let stored :=
                u8 (Z.quot sr (u16 (compass_rate_divider sr r) + 1)) in
              negb (r <=? sr) ||
              ((1 <=? stored) && (stored <=? 166) && (stored <=? sr)))
              (zrange 1 100)) (zrange 4 997) = true)
    by (vm_compute; reflexivity).
  assert (S : 4 <= sr <= 1000) by (destruct Hsr as [-> | [? _]]; lia).
  pose proof (forallb_zrange _ _ _ C sr ltac:(lia)) as R.
  cbv beta in R.
  apply stored_rate_okb_ok in Hsr. rewrite Hsr in R. cbn [negb orb] in R.
  pose proof (forallb_zrange _ _ _ R r ltac:(lia)) as R'.
  cbv beta zeta in R' |- *. lia.
Qed.

(** *** The sample-rate setters, case by case *)

Lemma set_sample_rate_range_error
  (h : mpu9250_regs_h) (bus : i2c_bus) (rate : Z) (w : world) :
  rate < 4 \/ rate > 1000 ->
  mpu9250_set_sample_rate h bus rate w = (-2, w).
Proof.
  intros H. unfold mpu9250_set_sample_rate. run.
  unfold MPU9250_MIN_SAMPLE_RATE, MPU9250_MAX_SAMPLE_RATE.
  replace ((rate <? 4) || (rate >? 1000)) with true by lia. reflexivity.
Qed.

Lemma set_sample_rate_same
  (h : mpu9250_regs_h) (bus : i2c_bus) (rate : Z) (w : world) :
  4 <= rate <= 1000 -> sample_rate (conf (dev w)) = rate ->
  mpu9250_set_sample_rate h bus rate w = (0, w).
Proof.
  intros H E. unfold mpu9250_set_sample_rate. run.
  unfold MPU9250_MIN_SAMPLE_RATE, MPU9250_MAX_SAMPLE_RATE.
  replace ((rate <? 4) || (rate >? 1000)) with false by lia.
  rewrite E, Z.eqb_refl. reflexivity.
Qed.

Lemma set_sample_rate_busy
  (h : mpu9250_regs_h) (bus : i2c_bus) (rate : Z) (w : world) :
  4 <= rate <= 1000 -> sample_rate (conf (dev w)) <> rate ->
  acquire_rc bus (trace w) <> 0 ->
  mpu9250_set_sample_rate h bus rate w
  = (-1, {| dev := dev w;
            trace := trace w ++ [EvAcquire (acquire_rc bus (trace w))] |}).
Proof.
  intros H E A. unfold mpu9250_set_sample_rate. run.
  unfold MPU9250_MIN_SAMPLE_RATE, MPU9250_MAX_SAMPLE_RATE.
  replace ((rate <? 4) || (rate >? 1000)) with false by lia.
  apply Z.eqb_neq in E, A. rewrite E. run. rewrite A. reflexivity.
Qed.

Lemma set_sample_rate_ok
  (h : mpu9250_regs_h) (bus : i2c_bus) (rate : Z) (w : world) :
  4 <= rate <= 1000 -> sample_rate (conf (dev w)) <> rate ->
  acquire_rc bus (trace w) = 0 ->
  let w' := snd (mpu9250_set_sample_rate h bus rate w) in
  let evs := events_since w w' in
  let stored := 1000 / (1000 / rate - 1 + 1) in
  fst (mpu9250_set_sample_rate h bus rate w) = 0 /\
  conf (dev w') = with_sample_rate stored (conf (dev w)) /\
  sample_rate (conf (dev w')) = stored /\
  writes_to MPU9250_RATE_DIV_REG evs = [1000 / rate - 1] /\
  writes_to MPU9250_CONFIG evs
  = [u8 (lpf_code h (lpf_for (Z.shiftr stored 1)))].
Proof.
  intros H E A. cbv zeta.
  destruct (sample_rate_arith rate H) as [D1 [D2 [D3 D4]]].
  unfold mpu9250_set_sample_rate, conf_lpf. run.
  unfold MPU9250_MIN_SAMPLE_RATE, MPU9250_MAX_SAMPLE_RATE.
  replace ((rate <? 4) || (rate >? 1000)) with false by lia.
  apply Z.eqb_neq in E. rewrite E. run. rewrite A. cbn [Z.eqb negb]. run.
  since.
  cbn [writes_to flat_map app reg_eq_dec reg_rec reg_rect with_sample_rate
       sample_rate].
  rewrite ?u8_idem.
  assert (S : 4 <= 1000 / (1000 / rate - 1 + 1) <= 1000).
  { rewrite <- D3. destruct D4 as [D4 | [D4 _]]; [|exact D4].
    exfalso. rewrite D3 in D4.
    assert (1 <= 1000 / rate <= 250).
    { split; [apply Z.div_le_lower_bound | apply Z.div_le_upper_bound]; lia. }
    replace (1000 / rate - 1 + 1) with (1000 / rate) in D4 by lia.
    assert (4 <= 1000 / (1000 / rate))
      by (apply Z.div_le_lower_bound; lia).
    lia. }
  split; [reflexivity|]. split.
  { unfold with_sample_rate. rewrite D3, u16_small by lia. reflexivity. }
  split; [exact D3|]. split.
  - rewrite D1, u8_small by lia. reflexivity.
  - rewrite D3. reflexivity.
Qed.

Lemma set_compass_sample_rate_range_error
  (bus : i2c_bus) (rate : Z) (w : world) :
  rate < 1 \/ rate > 100 \/ rate > sample_rate (conf (dev w)) ->
  mpu9250_set_compass_sample_rate bus rate w = (-2, w).
Proof.
  intros H. unfold mpu9250_set_compass_sample_rate. run.
  unfold MPU9250_MIN_COMP_SMPL_RATE, MPU9250_MAX_COMP_SMPL_RATE.
  replace ((rate <? 1) || (rate >? 100)
           || (rate >? sample_rate (conf (dev w)))) with true by lia.
  reflexivity.
Qed.

Lemma set_compass_sample_rate_same
  (bus : i2c_bus) (rate : Z) (w : world) :
  1 <= rate <= 100 -> rate <= sample_rate (conf (dev w)) ->
  compass_sample_rate (conf (dev w)) = rate ->
  mpu9250_set_compass_sample_rate bus rate w = (0, w).
Proof.
  intros H L E. unfold mpu9250_set_compass_sample_rate. run.
  unfold MPU9250_MIN_COMP_SMPL_RATE, MPU9250_MAX_COMP_SMPL_RATE.
  replace ((rate <? 1) || (rate >? 100)
           || (rate >? sample_rate (conf (dev w)))) with false by lia.
  rewrite E, Z.eqb_refl. reflexivity.
Qed.

Lemma set_compass_sample_rate_busy
  (bus : i2c_bus) (rate : Z) (w : world) :
  1 <= rate <= 100 -> rate <= sample_rate (conf (dev w)) ->
  compass_sample_rate (conf (dev w)) <> rate ->
  acquire_rc bus (trace w) <> 0 ->
  mpu9250_set_compass_sample_rate bus rate w
  = (-1, {| dev := dev w;
            trace := trace w ++ [EvAcquire (acquire_rc bus (trace w))] |}).
Proof.
  intros H L E A. unfold mpu9250_set_compass_sample_rate. run.
  unfold MPU9250_MIN_COMP_SMPL_RATE, MPU9250_MAX_COMP_SMPL_RATE.
  replace ((rate <? 1) || (rate >? 100)
           || (rate >? sample_rate (conf (dev w)))) with false by lia.
  apply Z.eqb_neq in E, A. rewrite E. run. rewrite A. reflexivity.
Qed.

Lemma set_compass_sample_rate_changes
  (bus : i2c_bus) (rate : Z) (w : world) :
  1 <= rate <= 100 -> rate <= sample_rate (conf (dev w)) ->
  compass_sample_rate (conf (dev w)) <> rate ->
  acquire_rc bus (trace w) = 0 ->
  let sr := sample_rate (conf (dev w)) in
  let divider := compass_rate_divider sr rate in
  mpu9250_set_compass_sample_rate bus rate w
  = (0, {| dev := {| params := params (dev w);
                     conf := with_compass_sample_rate
                               (Z.quot sr (u16 divider + 1)) (conf (dev w)) |};
           trace := trace w ++
                    [EvAcquire 0;
                     EvWrite (addr (params (dev w))) MPU9250_SLAVE4_CTRL_REG
                             divider;
                     EvRelease] |}).
Proof.
  intros H L E A. unfold mpu9250_set_compass_sample_rate. run.
  unfold MPU9250_MIN_COMP_SMPL_RATE, MPU9250_MAX_COMP_SMPL_RATE.
  replace ((rate <? 1) || (rate >? 100)
           || (rate >? sample_rate (conf (dev w)))) with false by lia.
  apply Z.eqb_neq in E. rewrite E. run. rewrite A. cbn [Z.eqb negb]. run.
  flatten_trace. unfold compass_rate_divider. rewrite u8_idem. reflexivity.
Qed.

(** *** What every reachable configuration satisfies *)

Lemma rates_inv_conf (w w' : world) :
  sample_rate (conf (dev w')) = sample_rate (conf (dev w)) ->
  compass_sample_rate (conf (dev w'))
  = compass_sample_rate (conf (dev w)) ->
  rates_inv w -> rates_inv w'.
Proof. unfold rates_inv. now intros -> ->. Qed.

Lemma set_sample_rate_inv
  (h : mpu9250_regs_h) (bus : i2c_bus) (rate : Z) (w : world) :
  rates_inv w -> rates_inv (snd (mpu9250_set_sample_rate h bus rate w)).
Proof.
  intros I.
  destruct (Z_lt_dec rate 4) as [|L1];
    [rewrite set_sample_rate_range_error by lia; exact I|].
  destruct (Z_gt_dec rate 1000) as [|L2];
    [rewrite set_sample_rate_range_error by lia; exact I|].
  destruct (Z.eq_dec (sample_rate (conf (dev w))) rate) as [E|E];
    [rewrite set_sample_rate_same by lia; exact I|].
  destruct (Z.eq_dec (acquire_rc bus (trace w)) 0) as [A|A].
  - destruct (set_sample_rate_ok h bus rate w ltac:(lia) E A)
      as [_ [C [S _]]].
    destruct (sample_rate_arith rate ltac:(lia)) as [_ [_ [D3 D4]]].
    split.
    + rewrite S, <- D3. exact D4.
    + rewrite C. exact (proj2 I).
  - rewrite set_sample_rate_busy by (assumption || lia). exact I.
Qed.

Lemma set_compass_sample_rate_inv (bus : i2c_bus) (rate : Z) (w : world) :
  rates_inv w -> rates_inv (snd (mpu9250_set_compass_sample_rate bus rate w)).
Proof.
  intros I.
  destruct (Z_lt_dec rate 1) as [|L1];
    [rewrite set_compass_sample_rate_range_error by lia; exact I|].
  destruct (Z_gt_dec rate 100) as [|L2];
    [rewrite set_compass_sample_rate_range_error by lia; exact I|].
  destruct (Z_gt_dec rate (sample_rate (conf (dev w)))) as [|L3];
    [rewrite set_compass_sample_rate_range_error by lia; exact I|].
  destruct (Z.eq_dec (compass_sample_rate (conf (dev w))) rate) as [E|E];
    [rewrite set_compass_sample_rate_same by lia; exact I|].
  destruct (Z.eq_dec (acquire_rc bus (trace w)) 0) as [A|A].
  - rewrite set_compass_sample_rate_changes by (assumption || lia).
    destruct I as [I1 I2].
    destruct (compass_rate_bounds _ rate I1 ltac:(lia) ltac:(lia)) as [B _].
    split; cbn; [exact I1 | lia].
  - rewrite set_compass_sample_rate_busy by (assumption || lia). exact I.
Qed.

Lemma call_setter_inv
  (h : mpu9250_regs_h) (bus : i2c_bus) (c : api_call) (w : world) :
  is_bus_setter c = true -> rates_inv w -> rates_inv (snd (call h bus c w)).
Proof.
  intros S. destruct c; try discriminate S; clear S; cbn [call];
    try apply set_sample_rate_inv; try apply set_compass_sample_rate_inv;
    apply rates_inv_conf;
    unfold_setters; run; split_tests; reflexivity.
Qed.

Lemma compass_init_inv (h : mpu9250_regs_h) (bus : i2c_bus) (w : world) :
  rates_inv w -> rates_inv (snd (compass_init h bus w)).
Proof.
  apply rates_inv_conf;
    unfold compass_init, conf_bypass; run; cbn [Z.eqb negb]; run;
    split_tests; reflexivity.
Qed.

Lemma enable_wom_inv
  (h : mpu9250_regs_h) (bus : i2c_bus) (t f : Z) (w : world) :
  rates_inv w -> rates_inv (snd (mpu9250_enable_wom h bus t f w)).
Proof.
  apply rates_inv_conf;
    unfold mpu9250_enable_wom, conf_bypass; run; split_tests;
    cbn [Z.eqb negb]; run; reflexivity.
Qed.

Lemma reset_and_init_inv (h : mpu9250_regs_h) (bus : i2c_bus) (w : world) :
  rates_inv w -> rates_inv (snd (mpu9250_reset_and_init h bus w)).
Proof.
  intros I. unfold mpu9250_reset_and_init. run.
  set (w1 := {| dev := dev w; trace := _ |}).
  assert (I1 : rates_inv w1) by exact I.
  pose proof (call_setter_inv h bus
                (SetGyroFsr (MPU9250_GYRO_FSR_2000DPS h)) w1 eq_refl I1) as I2.
  cbn [call] in I2.
  destruct (mpu9250_set_gyro_fsr h bus _ w1) as [r2 w2]. run.
  pose proof (call_setter_inv h bus
                (SetAccelFsr (MPU9250_ACCEL_FSR_2G h)) w2 eq_refl I2) as I3.
  cbn [call] in I3.
  destruct (mpu9250_set_accel_fsr h bus _ w2) as [r3 w3]. run.
  pose proof (set_sample_rate_inv h bus
                (params_sample_rate (params (dev w))) w3 I3) as I4.
  destruct (mpu9250_set_sample_rate h bus _ w3) as [r4 w4]. run.
  set (w5 := {| dev := dev w4; trace := _ |}).
  assert (I5 : rates_inv w5) by exact I4.
  pose proof (compass_init_inv h bus w5 I5) as I6.
  destruct (compass_init h bus w5) as [r6 w6]. run.
  destruct (negb (r6 =? 0)); run; [exact I6|].
  set (w7 := {| dev := dev w6; trace := _ |}).
  assert (I7 : rates_inv w7) by exact I6.
  pose proof (set_compass_sample_rate_inv bus 10 w7 I7) as I8.
  destruct (mpu9250_set_compass_sample_rate bus 10 w7) as [r8 w8]. run.
  exact I8.
Qed.

Lemma default_status_inv (h : mpu9250_regs_h) (p : mpu9250_params_t)
  (tr : list event) :
  rates_inv {| dev := {| params := p; conf := DEFAULT_STATUS h |};
               trace := tr |}.
Proof. split; cbn; [now left | lia]. Qed.

Lemma init_inv
  (h : mpu9250_regs_h) (bus : i2c_bus) (p : mpu9250_params_t) (w : world) :
  rates_inv (snd (mpu9250_init h bus p w)).
Proof.
  unfold mpu9250_init. run.
  destruct (negb (init_master_rc bus (trace w) =? 0)); run.
  - apply default_status_inv.
  - apply reset_and_init_inv, default_status_inv.
Qed.

Lemma call_inv
  (h : mpu9250_regs_h) (bus : i2c_bus) (c : api_call) (w : world) :
  rates_inv w -> rates_inv (snd (call h bus c w)).
Proof.
  intros I. destruct c;
    try (apply call_setter_inv; [reflexivity | exact I]); cbn [call].
  - now apply enable_wom_inv.
  - now apply reset_and_init_inv.
  - apply init_inv.
Qed.

Lemma calls_inv
  (h : mpu9250_regs_h) (bus : i2c_bus) (cs : list api_call) (w : world) :
  rates_inv w -> rates_inv (calls h bus cs w).
Proof.
  revert w. induction cs as [|c cs IH]; intros w I; cbn [calls].
  - exact I.
  - apply IH. now apply call_inv.
Qed.

Lemma reachable_inv (h : mpu9250_regs_h) (bus : i2c_bus) (w : world) :
  reachable h bus w -> rates_inv w.
Proof.
  intros [p [cs ->]]. apply calls_inv. apply default_status_inv.
Qed.

(** *** Sample rate *)

Lemma stored_rate_fixpoint (s : Z) :
  stored_rate_ok s -> 4 <= s -> 1000 / (1000 / s - 1 + 1) = s.
Proof.
  intros [-> | [_ E]] H; [lia|].
  now replace (1000 / s - 1 + 1) with (1000 / s) by lia.
Qed.

(** C2 (as the code has it).  In every reachable configuration and for
    every requested rate in [4,1000] Hz, if the bus can be acquired,
    [mpu9250_set_sample_rate] returns 0 and the stored sample rate
    afterwards is [1000/((1000/rate - 1) + 1)], where [/] is the truncating
    integer division of C: the divider written to the rate-divider
    register is [1000/rate - 1], the quotient rounded down and not to the
    nearest integer.  If the requested rate differs from the stored rate
    and the bus cannot be acquired, the call returns -1, the device
    descriptor is unchanged and the failed acquisition is the only bus
    event.  If the requested rate is the stored rate, the call returns 0
    and leaves the world as it was, whether or not the bus is free.  For
    every rate outside [4,1000] the call returns -2 and leaves the world as
    it was: no bus event, configuration unchanged. *)
Theorem set_sample_rate_stores_divider_rate
  (h : mpu9250_regs_h) (bus : i2c_bus) (rate : Z) (w : world) :
  reachable h bus w ->
  (4 <= rate <= 1000 -> acquire_rc bus (trace w) = 0 ->
   let w' := snd (mpu9250_set_sample_rate h bus rate w) in
   fst (mpu9250_set_sample_rate h bus rate w) = 0 /\
   sample_rate (conf (dev w')) = 1000 / (1000 / rate - 1 + 1) /\
   (sample_rate (conf (dev w)) <> rate ->
    writes_to MPU9250_RATE_DIV_REG (events_since w w')
    = [1000 / rate - 1])) /\
  (4 <= rate <= 1000 -> sample_rate (conf (dev w)) <> rate ->
   acquire_rc bus (trace w) <> 0 ->
   let w' := snd (mpu9250_set_sample_rate h bus rate w) in
   fst (mpu9250_set_sample_rate h bus rate w) = -1 /\
   dev w' = dev w /\
   events_since w w' = [EvAcquire (acquire_rc bus (trace w))]) /\
  (4 <= rate <= 1000 -> sample_rate (conf (dev w)) = rate ->
   mpu9250_set_sample_rate h bus rate w = (0, w)) /\
  (rate < 4 \/ rate > 1000 ->
   mpu9250_set_sample_rate h bus rate w = (-2, w) /\
   events_since w (snd (mpu9250_set_sample_rate h bus rate w)) = []).
Proof.
  intros R. apply reachable_inv in R. destruct R as [R _].
  split; [|split; [|split]].
  - intros H A. cbv zeta.
    destruct (Z.eq_dec (sample_rate (conf (dev w))) rate) as [E|E].
    + rewrite set_sample_rate_same by assumption. cbn [fst snd].
      repeat split.
      * rewrite E in *. symmetry. apply stored_rate_fixpoint; [exact R|lia].
      * intros N. now destruct N.
    + destruct (set_sample_rate_ok h bus rate w H E A)
        as [F [_ [S [D _]]]].
      split; [exact F|]. split; [exact S|]. intros _. exact D.
  - intros H E A. cbv zeta.
    rewrite set_sample_rate_busy by assumption. cbn [fst snd dev].
    split; [reflexivity|]. split; [reflexivity|].
    now apply events_since_app.
  - intros H E. now apply set_sample_rate_same.
  - intros H. rewrite set_sample_rate_range_error by exact H.
    split; [reflexivity | apply events_since_refl].
Qed.

Lemma set_sample_rate_stores_divider_rate_witness :
  let w := fresh example_regs example_params in
  let w' := snd (mpu9250_set_sample_rate example_regs quiet_bus 300 w) in
  (reachable example_regs quiet_bus w /\
   4 <= 300 <= 1000 /\
   acquire_rc quiet_bus (trace w) = 0 /\
   fst (mpu9250_set_sample_rate example_regs quiet_bus 300 w) = 0 /\
   sample_rate (conf (dev w')) = 1000 / (1000 / 300 - 1 + 1) /\
   sample_rate (conf (dev w')) = 333) /\
  (reachable example_regs busy_bus w /\
   sample_rate (conf (dev w)) <> 300 /\
   acquire_rc busy_bus (trace w) <> 0 /\
   fst (mpu9250_set_sample_rate example_regs busy_bus 300 w) = -1 /\
   dev (snd (mpu9250_set_sample_rate example_regs busy_bus 300 w)) = dev w) /\
  (reachable example_regs quiet_bus w' /\
   4 <= 333 <= 1000 /\
   sample_rate (conf (dev w')) = 333 /\
   mpu9250_set_sample_rate example_regs quiet_bus 333 w' = (0, w')) /\
  ((3000 < 4 \/ 3000 > 1000) /\
   mpu9250_set_sample_rate example_regs quiet_bus 3000 w = (-2, w)).
Proof.
  intros w w'.
  assert (R : reachable example_regs quiet_bus w)
    by (exists example_params, []; reflexivity).
  assert (R' : reachable example_regs busy_bus w)
    by (exists example_params, []; reflexivity).
  assert (R'' : reachable example_regs quiet_bus w')
    by (exists example_params, [SetSampleRate 300]; reflexivity).
  assert (H : 4 <= 300 <= 1000) by lia.
  assert (H' : 4 <= 333 <= 1000) by lia.
  assert (N : sample_rate (conf (dev w)) <> 300) by discriminate.
  assert (B : acquire_rc busy_bus (trace w) <> 0) by discriminate.
  assert (O : 3000 < 4 \/ 3000 > 1000) by lia.
  destruct (set_sample_rate_stores_divider_rate
              example_regs quiet_bus 300 w R) as [A _].
  destruct (A H eq_refl) as [F [S _]].
  destruct (set_sample_rate_stores_divider_rate
              example_regs quiet_bus 3000 w R) as [_ [_ [_ D]]].
  destruct (D O) as [E _].
  destruct (set_sample_rate_stores_divider_rate
              example_regs busy_bus 300 w R') as [_ [A' _]].
  destruct (A' H N B) as [F' [K _]].
  destruct (set_sample_rate_stores_divider_rate
              example_regs quiet_bus 333 w' R'') as [_ [_ [A'' _]]].
  split; [repeat split; try assumption; try lia; reflexivity|].
  split; [repeat split; assumption|].
  split; [split; [exact R'' | split; [exact H' | split;
            [reflexivity | exact (A'' H' eq_refl)]]]|].
  split; [exact O | exact E].
Defined.

(** C2 as the spec states it fails.  From a fresh handle, with a free bus,
    a request of 600 Hz stores 1000 Hz: the code truncates 1000/600 to 1
    where rounding to the nearest integer gives 2 and a stored rate of
    500 Hz.  And a request within [4,1000] does not succeed when the bus
    cannot be acquired: the call returns -1 and the stored rate stays 0. *)
Lemma set_sample_rate_truncates :
  let w := fresh example_regs example_params in
  (fst (mpu9250_set_sample_rate example_regs quiet_bus 600 w) = 0 /\
   sample_rate
     (conf (dev (snd (mpu9250_set_sample_rate example_regs quiet_bus 600 w))))
   = 1000 /\
   spec_round_div 1000 600 = 2 /\
   spec_stored_sample_rate 600 = 500) /\
  (fst (mpu9250_set_sample_rate example_regs busy_bus 600 w) = -1 /\
   sample_rate
     (conf (dev (snd (mpu9250_set_sample_rate example_regs busy_bus 600 w))))
   = 0).
Proof. vm_compute. repeat split. Qed.

(** *** Low-pass filter *)

Lemma lpf_for_table (half_rate : Z) :
  lpf_for half_rate = lpf_lookup lpf_thresholds half_rate.
Proof. reflexivity. Qed.

Lemma lpf_for_monotone (a b : Z) :
  a <= b -> lpf_bandwidth (lpf_for a) <= lpf_bandwidth (lpf_for b).
Proof.
  intros H. unfold lpf_for.
  repeat match goal with
         | |- context [?x <=? ?y] => destruct (Z.leb_spec x y)
         end; cbn [lpf_bandwidth]; lia.
Qed.

Lemma lpf_for_below_half (s : Z) :
  10 <= s -> lpf_bandwidth (lpf_for (Z.shiftr s 1)) <= Z.shiftr s 1.
Proof.
  intros H. rewrite Z.shiftr_div_pow2 by lia. change (2 ^ 1) with 2.
  assert (B : 5 <= s / 2) by (apply Z.div_le_lower_bound; lia).
  generalize dependent (s / 2). intros hr B.
  unfold lpf_for.
  repeat match goal with
         | |- context [?x <=? ?y] => destruct (Z.leb_spec x y)
         end; cbn [lpf_bandwidth]; lia.
Qed.

Lemma lpf_for_narrowest (s : Z) :
  s <= 19 -> lpf_for (Z.shiftr s 1) = MPU9250_FILTER_5HZ.
Proof.
  intros H. rewrite Z.shiftr_div_pow2 by lia. change (2 ^ 1) with 2.
  assert (B : s / 2 < 10) by (apply Z.div_lt_upper_bound; lia).
  generalize dependent (s / 2). intros hr B.
  unfold lpf_for.
  repeat match goal with
         | |- context [?x <=? ?y] => destruct (Z.leb_spec x y)
         end; try reflexivity; lia.
Qed.

Lemma set_sample_rate_accel_filter
  (h : mpu9250_regs_h) (bus : i2c_bus) (rate : Z) (w : world) :
  4 <= rate <= 1000 -> sample_rate (conf (dev w)) <> rate ->
  acquire_rc bus (trace w) = 0 ->
  let w' := snd (mpu9250_set_sample_rate h bus rate w) in
  let code := lpf_code h (lpf_for (Z.shiftr (sample_rate (conf (dev w'))) 1)) in
  exists old,
    accesses_of MPU9250_ACCEL_CFG_REG2 (events_since w w')
    = [EvRead (addr (params (dev w))) MPU9250_ACCEL_CFG_REG2 old;
       EvWrite (addr (params (dev w))) MPU9250_ACCEL_CFG_REG2
         (u8 (Z.lor (u8 (Z.land old (Z.lnot 0x0F))) code))].
Proof.
  intros H E A. cbv zeta.
  unfold mpu9250_set_sample_rate, conf_lpf. run.
  unfold MPU9250_MIN_SAMPLE_RATE, MPU9250_MAX_SAMPLE_RATE.
  replace ((rate <? 4) || (rate >? 1000)) with false by lia.
  apply Z.eqb_neq in E. rewrite E. run. rewrite A. cbn [Z.eqb negb]. run.
  since.
  cbn [accesses_of filter reg_eq_dec reg_rec reg_rect with_sample_rate
       sample_rate].
  rewrite ?u8_idem. eexists. reflexivity.
Qed.

(** C3 (as the code has it).  The filter [conf_lpf] selects is the lookup
    of half the sample rate in the ordered threshold table 184, 92, 42, 20,
    10 Hz, with the 5 Hz filter below 10 Hz, and its bandwidth is monotone
    in the half rate.  Every [mpu9250_set_sample_rate] call that changes
    the rate (request in [4,1000], different from the stored rate, bus
    acquired) writes the filter selected for half the newly stored rate to
    the configuration register and into the low four bits of accel
    configuration 2.  The selected bandwidth is at most half the stored
    rate for every stored rate of at least 10 Hz; for stored rates below
    10 Hz the 5 Hz filter is selected, which is wider than half the
    rate. *)
Theorem lpf_follows_stored_rate
  (h : mpu9250_regs_h) (bus : i2c_bus) (rate : Z) (w : world) :
  (forall half_rate, lpf_for half_rate = lpf_lookup lpf_thresholds half_rate) /\
  (forall a b, a <= b ->
     lpf_bandwidth (lpf_for a) <= lpf_bandwidth (lpf_for b)) /\
  (forall s, 10 <= s ->
     lpf_bandwidth (lpf_for (Z.shiftr s 1)) <= Z.shiftr s 1 /\
     2 * lpf_bandwidth (lpf_for (Z.shiftr s 1)) <= s) /\
  (forall s, s <= 9 ->
     lpf_for (Z.shiftr s 1) = MPU9250_FILTER_5HZ /\
     s < 2 * lpf_bandwidth (lpf_for (Z.shiftr s 1))) /\
  (4 <= rate <= 1000 -> sample_rate (conf (dev w)) <> rate ->
   acquire_rc bus (trace w) = 0 ->
   let w' := snd (mpu9250_set_sample_rate h bus rate w) in
   let evs := events_since w w' in
   let code :=
     lpf_code h (lpf_for (Z.shiftr (sample_rate (conf (dev w'))) 1)) in
   writes_to MPU9250_CONFIG evs = [u8 code] /\
   exists old,
     accesses_of MPU9250_ACCEL_CFG_REG2 evs
     = [EvRead (addr (params (dev w))) MPU9250_ACCEL_CFG_REG2 old;
        EvWrite (addr (params (dev w))) MPU9250_ACCEL_CFG_REG2
          (u8 (Z.lor (u8 (Z.land old (Z.lnot 0x0F))) code))]).
Proof.
  split; [exact lpf_for_table|].
  split; [exact lpf_for_monotone|].
  split; [|split].
  - intros s Hs. pose proof (lpf_for_below_half s Hs) as B. split; [exact B|].
    rewrite Z.shiftr_div_pow2 in * by lia. change (2 ^ 1) with 2 in *.
    pose proof (Z.mul_div_le s 2 ltac:(lia)). lia.
  - intros s Hs. rewrite lpf_for_narrowest by lia. cbn [lpf_bandwidth].
    split; [reflexivity | lia].
  - intros H E A. cbv zeta. split.
    + destruct (set_sample_rate_ok h bus rate w H E A)
        as [_ [_ [S [_ C]]]].
      rewrite S. exact C.
    + exact (set_sample_rate_accel_filter h bus rate w H E A).
Qed.

Lemma lpf_follows_stored_rate_witness :
  let w := fresh example_regs example_params in
  let w' := snd (mpu9250_set_sample_rate example_regs quiet_bus 50 w) in
  4 <= 50 <= 1000 /\
  sample_rate (conf (dev w)) <> 50 /\
  acquire_rc quiet_bus (trace w) = 0 /\
  writes_to MPU9250_CONFIG (events_since w w')
  = [u8 (lpf_code example_regs
           (lpf_for (Z.shiftr (sample_rate (conf (dev w'))) 1)))] /\
  (10 <= 50 /\ lpf_bandwidth (lpf_for (Z.shiftr 50 1)) <= Z.shiftr 50 1) /\
  (4 <= 9 /\ lpf_for (Z.shiftr 4 1) = MPU9250_FILTER_5HZ) /\
  (10 <= 25 /\ lpf_bandwidth (lpf_for 10) <= lpf_bandwidth (lpf_for 25)).
Proof.
  intros w w'.
  assert (H : 4 <= 50 <= 1000) by lia.
  assert (E : sample_rate (conf (dev w)) <> 50) by (cbn; lia).
  destruct (lpf_follows_stored_rate example_regs quiet_bus 50 w)
    as [_ [M [B [N S]]]].
  destruct (S H E eq_refl) as [C _].
  split; [exact H|]. split; [exact E|]. split; [reflexivity|].
  split; [exact C|].
  split; [split; [lia | exact (proj1 (B 50 ltac:(lia)))]|].
  split; [split; [lia | exact (proj1 (N 4 ltac:(lia)))]|].
  split; [lia | exact (M 10 25 ltac:(lia))].
Defined.

(** C3 as the spec states it fails.  From a fresh handle, with a free bus,
    a request of 4 Hz succeeds and stores 4 Hz; the filter written is the
    5 Hz one, whose bandwidth exceeds half the stored rate (2 Hz).  And a
    second, equally successful request of 4 Hz touches no register: the
    filter is not recomputed. *)
Lemma lpf_wider_than_half_rate_at_4_hz :
  let w := fresh example_regs example_params in
  let w' := snd (mpu9250_set_sample_rate example_regs quiet_bus 4 w) in
  let w'' := snd (mpu9250_set_sample_rate example_regs quiet_bus 4 w') in
  (fst (mpu9250_set_sample_rate example_regs quiet_bus 4 w) = 0 /\
   sample_rate (conf (dev w')) = 4 /\
   writes_to MPU9250_CONFIG (events_since w w')
   = [lpf_code example_regs MPU9250_FILTER_5HZ] /\
   lpf_bandwidth MPU9250_FILTER_5HZ = 5 /\
   Z.shiftr (sample_rate (conf (dev w'))) 1 = 2) /\
  (fst (mpu9250_set_sample_rate example_regs quiet_bus 4 w') = 0 /\
   events_since w' w'' = []).
Proof. vm_compute. repeat split. Qed.

(** *** Compass sample rate *)

(** C4 (as the code has it).  With [sr] the stored sensor rate: for every
    requested compass rate [r] in [1,100] with [r <= sr], different from
    the stored compass rate and with a divider that fits its byte
    ([sr/r <= 256]), if the bus can be acquired
    [mpu9250_set_compass_sample_rate] returns 0, writes the divider
    [sr/r - 1] and stores the compass rate [sr/((sr/r - 1) + 1)], where
    [/] is the truncating integer division of C; if the bus cannot be
    acquired, the call for such an [r] (whatever [sr/r] is) returns -1, the
    device descriptor is unchanged and the failed acquisition is the only
    bus event; when [r] is the stored compass rate the call returns 0 and
    changes nothing, whether or not the bus is free; for every [r] outside
    [1,100] or greater than [sr] it returns -2 and leaves the world as it
    was. *)
Theorem set_compass_sample_rate_stores_divider_rate
  (bus : i2c_bus) (r : Z) (w : world) :
  let sr := sample_rate (conf (dev w)) in
  (1 <= r <= 100 -> r <= sr -> sr / r <= 256 ->
   compass_sample_rate (conf (dev w)) <> r ->
   acquire_rc bus (trace w) = 0 ->
   let w' := snd (mpu9250_set_compass_sample_rate bus r w) in
   fst (mpu9250_set_compass_sample_rate bus r w) = 0 /\
   compass_sample_rate (conf (dev w')) = sr / (sr / r - 1 + 1) /\
   sample_rate (conf (dev w')) = sr /\
   writes_to MPU9250_SLAVE4_CTRL_REG (events_since w w') = [sr / r - 1]) /\
  (1 <= r <= 100 -> r <= sr ->
   compass_sample_rate (conf (dev w)) <> r ->
   acquire_rc bus (trace w) <> 0 ->
   let w' := snd (mpu9250_set_compass_sample_rate bus r w) in
   fst (mpu9250_set_compass_sample_rate bus r w) = -1 /\
   dev w' = dev w /\
   events_since w w' = [EvAcquire (acquire_rc bus (trace w))]) /\
  (1 <= r <= 100 -> r <= sr -> compass_sample_rate (conf (dev w)) = r ->
   mpu9250_set_compass_sample_rate bus r w = (0, w)) /\
  (r < 1 \/ r > 100 \/ r > sr ->
   mpu9250_set_compass_sample_rate bus r w = (-2, w)).
Proof.
  intros sr. split; [|split; [|split]].
  - intros H L Q E A. cbv zeta.
    rewrite set_compass_sample_rate_changes by assumption.
    destruct (compass_rate_arith sr r H L Q) as [D [S _]].
    fold sr. cbn [fst snd dev conf]. since.
    cbn [writes_to flat_map app reg_eq_dec reg_rec reg_rect
         with_compass_sample_rate compass_sample_rate sample_rate].
    rewrite S, D. repeat split.
  - intros H L E A. cbv zeta.
    rewrite set_compass_sample_rate_busy by assumption. cbn [fst snd dev].
    split; [reflexivity|]. split; [reflexivity|].
    now apply events_since_app.
  - intros H L E. now apply set_compass_sample_rate_same.
  - intros H. now apply set_compass_sample_rate_range_error.
Qed.

Lemma set_compass_sample_rate_stores_divider_rate_witness :
  let w := example_world (example_conf MPU9250_SENSOR_PWR_ON
                            MPU9250_SENSOR_PWR_ON MPU9250_SENSOR_PWR_ON
                            166 10) in
  let w' := snd (mpu9250_set_compass_sample_rate quiet_bus 100 w) in
  let b := snd (mpu9250_set_compass_sample_rate busy_bus 100 w) in
  (1 <= 100 <= 100 /\ 100 <= 166 /\ 166 / 100 <= 256 /\
   compass_sample_rate (conf (dev w)) <> 100 /\
   acquire_rc quiet_bus (trace w) = 0) /\
  (fst (mpu9250_set_compass_sample_rate quiet_bus 100 w) = 0 /\
   compass_sample_rate (conf (dev w')) = 166 / (166 / 100 - 1 + 1)) /\
  (acquire_rc busy_bus (trace w) <> 0 /\
   fst (mpu9250_set_compass_sample_rate busy_bus 100 w) = -1 /\
   dev b = dev w /\
   events_since w b = [EvAcquire (-1)]) /\
  (1 <= 10 <= 100 /\ 10 <= 166 /\ compass_sample_rate (conf (dev w)) = 10 /\
   mpu9250_set_compass_sample_rate busy_bus 10 w = (0, w)) /\
  ((167 < 1 \/ 167 > 100 \/ 167 > 166) /\
   mpu9250_set_compass_sample_rate quiet_bus 167 w = (-2, w)).
Proof.
  intros w w' b.
  assert (H1 : 1 <= 100 <= 100) by lia.
  assert (H2 : 100 <= 166) by lia.
  assert (H3 : 166 / 100 <= 256) by (vm_compute; discriminate).
  assert (H4 : compass_sample_rate (conf (dev w)) <> 100) by (cbn; lia).
  assert (H5 : 1 <= 10 <= 100) by lia.
  assert (H6 : 10 <= 166) by lia.
  assert (H7 : 167 < 1 \/ 167 > 100 \/ 167 > 166) by lia.
  assert (H8 : acquire_rc busy_bus (trace w) <> 0) by discriminate.
  destruct (set_compass_sample_rate_stores_divider_rate quiet_bus 100 w)
    as [A _].
  destruct (A H1 H2 H3 H4 eq_refl) as [F [S _]].
  destruct (set_compass_sample_rate_stores_divider_rate busy_bus 100 w)
    as [_ [A' _]].
  destruct (A' H1 H2 H4 H8) as [F' [D' E']].
  destruct (set_compass_sample_rate_stores_divider_rate busy_bus 10 w)
    as [_ [_ [B _]]].
  destruct (set_compass_sample_rate_stores_divider_rate quiet_bus 167 w)
    as [_ [_ [_ C]]].
  split; [repeat split; try assumption; try lia|].
  split; [split; assumption|].
  split; [split; [exact H8 | split; [exact F' | split; [exact D' | exact E']]]|].
  split; [repeat split; try lia; exact (B H5 H6 eq_refl)|].
  split; [exact H7 | exact (C H7)].
Defined.

(** C4 as the spec states it fails, on configurations reached from a fresh
    handle with a free bus.  With a sensor rate of 166 Hz a request of
    100 Hz stores 166 Hz: the code truncates 166/100 to 1 where rounding to
    the nearest integer gives 2 and a stored rate of 83 Hz.  With a stored
    compass rate of 100 Hz and the sensor rate changed to 166 Hz
    afterwards, a request of 100 Hz returns 0 and keeps the 100 Hz, which
    is not the rate of any divider of 166 Hz.  And a request in range does
    not succeed when the bus cannot be acquired. *)
Lemma set_compass_sample_rate_truncates :
  let f := fresh example_regs example_params in
  let w := calls example_regs quiet_bus [SetSampleRate 166] f in
  let u := calls example_regs quiet_bus
             [SetSampleRate 1000; SetCompassSampleRate 100; SetSampleRate 166]
             f in
  (sample_rate (conf (dev w)) = 166 /\
   fst (mpu9250_set_compass_sample_rate quiet_bus 100 w) = 0 /\
   compass_sample_rate
     (conf (dev (snd (mpu9250_set_compass_sample_rate quiet_bus 100 w))))
   = 166 /\
   spec_round_div 166 100 = 2 /\
   spec_stored_compass_rate 166 100 = 83) /\
  (sample_rate (conf (dev u)) = 166 /\
   compass_sample_rate (conf (dev u)) = 100 /\
   mpu9250_set_compass_sample_rate quiet_bus 100 u = (0, u) /\
   166 / (166 / 100 - 1 + 1) = 166) /\
  (fst (mpu9250_set_compass_sample_rate busy_bus 100 w) = -1 /\
   compass_sample_rate
     (conf (dev (snd (mpu9250_set_compass_sample_rate busy_bus 100 w))))
   = 0).
Proof. vm_compute. repeat split. Qed.

(** When the quotient [sr/r] exceeds 256 the divider does not fit its
    byte: at a sensor rate of 1000 Hz a request of 1 Hz writes the divider
    231 (999 modulo 256) and stores a compass rate of 4 Hz. *)
Lemma compass_rate_divider_wraps :
  let f := fresh example_regs example_params in
  let w := calls example_regs quiet_bus [SetSampleRate 1000] f in
  let w' := snd (mpu9250_set_compass_sample_rate quiet_bus 1 w) in
  fst (mpu9250_set_compass_sample_rate quiet_bus 1 w) = 0 /\
  writes_to MPU9250_SLAVE4_CTRL_REG (events_since w w') = [231] /\
  compass_sample_rate (conf (dev w')) = 4.
Proof. vm_compute. repeat split. Qed.

(** C5 (as the code has it).  In every configuration reached from a fresh
    handle by any sequence of calls, the stored sensor rate is 0 (never
    set) or within [4,1000] and the stored compass rate is within [0,166]:
    0 until it is first set, and afterwards the rate of the divider, which
    can exceed the requested rate.  Right after every
    [mpu9250_set_compass_sample_rate] call that returns 0 the stored
    compass rate is at least 1 and at most the stored sensor rate. *)
Theorem reachable_rates
  (h : mpu9250_regs_h) (bus : i2c_bus) (w : world) :
  reachable h bus w ->
  let c := conf (dev w) in
  (sample_rate c = 0 \/ 4 <= sample_rate c <= 1000) /\
  0 <= compass_sample_rate c <= 166 /\
  forall r,
    fst (mpu9250_set_compass_sample_rate bus r w) = 0 ->
    let c' := conf (dev (snd (mpu9250_set_compass_sample_rate bus r w))) in
    1 <= compass_sample_rate c' <= 166 /\
    compass_sample_rate c' <= sample_rate c'.
Proof.
  intros R c. subst c. apply reachable_inv in R. destruct R as [R1 R2].
  split; [destruct R1 as [R1 | [R1 _]]; [now left | now right]|].
  split; [exact R2|].
  intros r F. cbv zeta.
  destruct (Z_lt_dec r 1) as [|L1];
    [rewrite set_compass_sample_rate_range_error in F by lia; discriminate F|].
  destruct (Z_gt_dec r 100) as [|L2];
    [rewrite set_compass_sample_rate_range_error in F by lia; discriminate F|].
  destruct (Z_gt_dec r (sample_rate (conf (dev w)))) as [|L3];
    [rewrite set_compass_sample_rate_range_error in F by lia; discriminate F|].
  destruct (Z.eq_dec (compass_sample_rate (conf (dev w))) r) as [E|E].
  { rewrite set_compass_sample_rate_same by lia. cbn [snd]. lia. }
  destruct (Z.eq_dec (acquire_rc bus (trace w)) 0) as [A|A].
  - rewrite set_compass_sample_rate_changes by (assumption || lia).
    destruct (compass_rate_bounds _ r R1 ltac:(lia) ltac:(lia)) as [B1 B2].
    cbn. lia.
  - rewrite set_compass_sample_rate_busy in F by (assumption || lia).
    discriminate F.
Qed.

Lemma reachable_rates_witness :
  let w := calls example_regs quiet_bus
             [SetSampleRate 166; SetCompassSampleRate 100]
             (fresh example_regs example_params) in
  reachable example_regs quiet_bus w /\
  (sample_rate (conf (dev w)) = 0 \/ 4 <= sample_rate (conf (dev w)) <= 1000) /\
  0 <= compass_sample_rate (conf (dev w)) <= 166.
Proof.
  intros w.
  assert (R : reachable example_regs quiet_bus w)
    by (exists example_params,
          [SetSampleRate 166; SetCompassSampleRate 100]; reflexivity).
  destruct (reachable_rates example_regs quiet_bus w R) as [S [C _]].
  split; [exact R|]. split; [exact S | exact C].
Defined.

(** C5 as the spec states it fails, after successful setter calls on a
    fresh handle with a free bus.  A sensor rate of 166 Hz followed by a
    compass rate request of 100 Hz stores a compass rate of 166 Hz, outside
    [1,100].  A sensor rate of 1000 Hz, a compass rate of 100 Hz and then a
    sensor rate of 4 Hz leave the stored compass rate, 100 Hz, above the
    stored sensor rate. *)
Lemma compass_rate_leaves_range :
  let f := fresh example_regs example_params in
  let cs1 := [SetSampleRate 166; SetCompassSampleRate 100] in
  let cs2 := [SetSampleRate 1000; SetCompassSampleRate 100; SetSampleRate 4] in
  let w1 := calls example_regs quiet_bus cs1 f in
  let w2 := calls example_regs quiet_bus cs2 f in
  (returns example_regs quiet_bus cs1 f = [0; 0] /\
   sample_rate (conf (dev w1)) = 166 /\
   compass_sample_rate (conf (dev w1)) = 166) /\
  (returns example_regs quiet_bus cs2 f = [0; 0; 0] /\
   sample_rate (conf (dev w2)) = 4 /\
   compass_sample_rate (conf (dev w2)) = 100).
Proof. vm_compute. repeat split. Qed.

(** * Further properties of the driver *)

(** *** Holding the bus *)

Ltac acquire_tests :=
  repeat match goal with
         | H : negb (_ =? 0) = false |- _ => apply negb_false_iff in H
         | H : negb (_ =? 0) = true |- _ => apply negb_true_iff in H
         end.

Ltac replay :=
  acquire_tests; since; cbn [bus_discipline];
  repeat match goal with
         | H : (acquire_rc _ _ =? 0) = _ |- _ => rewrite H
         end;
  cbn [bus_discipline]; reflexivity.

(** X1.  Every function of the interface other than the two initialisation
    functions keeps to the acquire/release protocol on every path: it
    accesses registers only between a successful [i2c_acquire] and the
    matching [i2c_release], never acquires the bus twice, and does not hold
    the bus when it returns, whether it succeeds, fails to acquire the bus
    or rejects its argument. *)
Theorem bus_released_on_every_path
  (h : mpu9250_regs_h) (x : mpu9250_more_h) (bus : i2c_bus)
  (o : bus_op) (w : world) :
  takes_bus_itself o = true ->
  bus_discipline false (events_since w (run_op h x bus o w)) = Some false.
Proof.
  intros T. destruct o as [c | out | out | out | e | s]; cbn [run_op].
  - destruct c; try discriminate T; cbn [call];
      unfold_setters; unfold mpu9250_enable_wom, conf_bypass;
      run; split_tests; cbn [Z.eqb negb]; run; replay.
  - unfold mpu9250_read_gyro. run. split_tests. all: replay.
  - unfold mpu9250_read_accel. run. split_tests. all: replay.
  - unfold mpu9250_read_temperature. run. split_tests. all: replay.
  - unfold mpu9250_set_interrupt. run. split_tests. all: replay.
  - unfold mpu9250_read_int_status. run. split_tests. all: replay.
Qed.

Lemma bus_released_on_every_path_witness :
  let w := example_world (example_conf MPU9250_SENSOR_PWR_ON
                            MPU9250_SENSOR_PWR_ON MPU9250_SENSOR_PWR_ON 0 0) in
  let o := OpSetter (SetSampleRate 50) in
  takes_bus_itself o = true /\
  bus_discipline false
    (events_since w (run_op example_regs example_more quiet_bus o w))
  = Some false.
Proof.
  intros w o. split; [reflexivity|].
  apply (bus_released_on_every_path example_regs example_more quiet_bus o w).
  reflexivity.
Defined.

(** The events of a call start with [pre] when the world after [pre] is
    only continued. *)
Lemma events_since_prefix (w w1 w' : world) (pre : list event) (ids : list Z) :
  trace w1 = trace w ++ pre -> appends w1 w' ids ->
  exists rest, events_since w w' = pre ++ rest.
Proof.
  intros T [evs [E _]]. exists evs.
  apply events_since_app. now rewrite E, T, app_assoc.
Qed.

Lemma reset_and_init_continues_reset
  (h : mpu9250_regs_h) (bus : i2c_bus) (w : world) :
  let a := addr (params (dev w)) in
  let w1 :=
    {| dev := dev w;
       trace := trace w ++
                [EvAcquire (acquire_rc bus (trace w));
                 EvWrite a MPU9250_PWR_MGMT_1_REG (u8 (MPU9250_PWR_RESET h));
                 EvUsleep MPU9250_RESET_SLEEP_US;
                 EvWrite a MPU9250_PWR_MGMT_1_REG (u8 (MPU9250_PWR_WAKEUP h));
                 EvRelease] |} in
  exists ids, appends w1 (snd (mpu9250_reset_and_init h bus w)) ids.
Proof.
  intros a w1. unfold mpu9250_reset_and_init. run.
  set (w1' := {| dev := dev w; trace := _ |}).
  assert (A1 : appends w1 w1' []).
  { subst w1 w1' a. exists [].
    split; [cbn [trace]; flatten_trace; reflexivity | reflexivity]. }
  pose proof (setter_reads_no_identity h bus
                (SetGyroFsr (MPU9250_GYRO_FSR_2000DPS h)) w1' eq_refl) as A2.
  cbn [call] in A2.
  destruct (mpu9250_set_gyro_fsr h bus _ w1') as [r2 w2]. run.
  pose proof (setter_reads_no_identity h bus
                (SetAccelFsr (MPU9250_ACCEL_FSR_2G h)) w2 eq_refl) as A3.
  cbn [call] in A3.
  destruct (mpu9250_set_accel_fsr h bus _ w2) as [r3 w3]. run.
  pose proof (setter_reads_no_identity h bus
                (SetSampleRate (params_sample_rate (params (dev w))))
                w3 eq_refl) as A4.
  cbn [call] in A4.
  destruct (mpu9250_set_sample_rate h bus _ w3) as [r4 w4]. run.
  set (w5 := {| dev := dev w4; trace := _ |}).
  assert (A5 : appends w4 w5 []) by (subst w5; appended).
  destruct (compass_init_identity h bus w5) as [v [A6 _]].
  destruct (compass_init h bus w5) as [r6 w6]. run.
  assert (A : appends w1 w6 [v]).
  { eapply appends_trans; [exact A1| |reflexivity].
    eapply appends_trans; [exact A2| |reflexivity].
    eapply appends_trans; [exact A3| |reflexivity].
    eapply appends_trans; [exact A4| |reflexivity].
    eapply appends_trans; [exact A5|exact A6|reflexivity]. }
  destruct (negb (r6 =? 0)); run.
  - eexists. eapply appends_trans; [exact A| |reflexivity]. appended.
  - set (w7 := {| dev := dev w6; trace := _ |}).
    assert (A7 : appends w6 w7 []) by (subst w7; appended).
    pose proof (setter_reads_no_identity h bus (SetCompassSampleRate 10)
                  w7 eq_refl) as A8.
    cbn [call] in A8.
    destruct (mpu9250_set_compass_sample_rate bus 10 w7) as [r8 w8]. run.
    eexists.
    eapply appends_trans; [exact A| |reflexivity].
    eapply appends_trans; [exact A7| |reflexivity].
    eapply appends_trans; [exact A8| |reflexivity].
    appended.
Qed.

(** X2.  [mpu9250_reset_and_init] does not look at the result of
    [i2c_acquire]: whatever the acquisition returns, the call goes on to
    write the reset and the wake-up value to power management 1 and to
    release the bus.  So when the bus cannot be acquired, the registers are
    written without the bus being held. *)
Theorem reset_and_init_ignores_acquire_result
  (h : mpu9250_regs_h) (bus : i2c_bus) (w : world) :
  let a := addr (params (dev w)) in
  let rc := acquire_rc bus (trace w) in
  let evs := events_since w (snd (mpu9250_reset_and_init h bus w)) in
  (exists rest,
     evs = [EvAcquire rc;
            EvWrite a MPU9250_PWR_MGMT_1_REG (u8 (MPU9250_PWR_RESET h));
            EvUsleep MPU9250_RESET_SLEEP_US;
            EvWrite a MPU9250_PWR_MGMT_1_REG (u8 (MPU9250_PWR_WAKEUP h));
            EvRelease] ++ rest) /\
  (rc <> 0 -> bus_discipline false evs = None).
Proof.
  intros a rc evs.
  destruct (reset_and_init_continues_reset h bus w) as [ids A].
  cbv zeta in A.
  match type of A with
  | appends {| dev := _; trace := _ ++ ?p |} _ _ =>
    apply (events_since_prefix w) with (pre := p) in A; [|reflexivity];
    destruct A as [rest E]
  end.
  fold evs a rc in E. split.
  - exists rest. exact E.
  - intros N. rewrite E. cbn [app bus_discipline].
    apply Z.eqb_neq in N. now rewrite N.
Qed.

Lemma reset_and_init_ignores_acquire_result_witness :
  let w := example_world (example_conf MPU9250_SENSOR_PWR_ON
                            MPU9250_SENSOR_PWR_ON MPU9250_SENSOR_PWR_ON 0 0) in
  acquire_rc busy_bus (trace w) <> 0 /\
  bus_discipline false
    (events_since w (snd (mpu9250_reset_and_init example_regs busy_bus w)))
  = None.
Proof.
  intros w.
  assert (N : acquire_rc busy_bus (trace w) <> 0) by discriminate.
  split; [exact N|].
  exact (proj2 (reset_and_init_ignores_acquire_result example_regs busy_bus w)
               N).
Defined.

(** *** Properties of the snapshot kept by every call *)

Section Kept.

Variable h : mpu9250_regs_h.
Variable bus : i2c_bus.
Variable P : mpu9250_status_t -> Prop.

Hypothesis P_default : P (DEFAULT_STATUS h).
Hypothesis P_adj : forall a b c s, P s -> P (with_compass_adj a b c s).
Hypothesis P_setter :
  forall c w, is_bus_setter c = true ->
              P (conf (dev w)) -> P (conf (dev (snd (call h bus c w)))).

Lemma compass_init_keeps (w : world) :
  P (conf (dev w)) -> P (conf (dev (snd (compass_init h bus w)))).
Proof.
  intros I. unfold compass_init, conf_bypass. run. cbn [Z.eqb negb]. run.
  split_tests; [exact I | now apply P_adj].
Qed.

Lemma enable_wom_keeps (t f : Z) (w : world) :
  P (conf (dev w)) -> P (conf (dev (snd (mpu9250_enable_wom h bus t f w)))).
Proof.
  intros I. unfold mpu9250_enable_wom, conf_bypass. run.
  split_tests; cbn [Z.eqb negb]; run; exact I.
Qed.

Lemma reset_and_init_keeps (w : world) :
  P (conf (dev w)) -> P (conf (dev (snd (mpu9250_reset_and_init h bus w)))).
Proof.
  intros I. unfold mpu9250_reset_and_init. run.
  set (w1 := {| dev := dev w; trace := _ |}).
  assert (I1 : P (conf (dev w1))) by exact I.
  pose proof (P_setter (SetGyroFsr (MPU9250_GYRO_FSR_2000DPS h)) w1
                eq_refl I1) as I2.
  cbn [call] in I2.
  destruct (mpu9250_set_gyro_fsr h bus _ w1) as [r2 w2]. run.
  pose proof (P_setter (SetAccelFsr (MPU9250_ACCEL_FSR_2G h)) w2
                eq_refl I2) as I3.
  cbn [call] in I3.
  destruct (mpu9250_set_accel_fsr h bus _ w2) as [r3 w3]. run.
  pose proof (P_setter (SetSampleRate (params_sample_rate (params (dev w))))
                w3 eq_refl I3) as I4.
  cbn [call] in I4.
  destruct (mpu9250_set_sample_rate h bus _ w3) as [r4 w4]. run.
  set (w5 := {| dev := dev w4; trace := _ |}).
  assert (I5 : P (conf (dev w5))) by exact I4.
  pose proof (compass_init_keeps w5 I5) as I6.
  destruct (compass_init h bus w5) as [r6 w6]. run.
  destruct (negb (r6 =? 0)); run; [exact I6|].
  set (w7 := {| dev := dev w6; trace := _ |}).
  assert (I7 : P (conf (dev w7))) by exact I6.
  pose proof (P_setter (SetCompassSampleRate 10) w7 eq_refl I7) as I8.
  cbn [call] in I8.
  destruct (mpu9250_set_compass_sample_rate bus 10 w7) as [r8 w8]. run.
  exact I8.
Qed.

Lemma init_keeps (p : mpu9250_params_t) (w : world) :
  P (conf (dev (snd (mpu9250_init h bus p w)))).
Proof.
  unfold mpu9250_init. run.
  destruct (negb (init_master_rc bus (trace w) =? 0)); run.
  - exact P_default.
  - apply reset_and_init_keeps. exact P_default.
Qed.

Lemma call_keeps (c : api_call) (w : world) :
  P (conf (dev w)) -> P (conf (dev (snd (call h bus c w)))).
Proof.
  intros I. destruct c;
    try (apply P_setter; [reflexivity | exact I]); cbn [call].
  - now apply enable_wom_keeps.
  - now apply reset_and_init_keeps.
  - apply init_keeps.
Qed.

Lemma reachable_keeps (w : world) : reachable h bus w -> P (conf (dev w)).
Proof.
  intros [p [cs ->]].
  assert (G : forall u, P (conf (dev u)) -> P (conf (dev (calls h bus cs u)))).
  { induction cs as [|c cs IH]; intros u I; cbn [calls].
    - exact I.
    - apply IH. now apply call_keeps. }
  apply G. exact P_default.
Qed.

End Kept.

(** *** Ranges *)

Lemma setter_keeps_ranges
  (h : mpu9250_regs_h) (bus : i2c_bus) (c : api_call) (w : world) :
  is_bus_setter c = true ->
  gyro_fsr_dps h (gyro_fsr (conf (dev w))) <> None /\
  accel_fsr_mg h (accel_fsr (conf (dev w))) <> None ->
  gyro_fsr_dps h (gyro_fsr (conf (dev (snd (call h bus c w))))) <> None /\
  accel_fsr_mg h (accel_fsr (conf (dev (snd (call h bus c w))))) <> None.
Proof.
  intros S I. destruct c; try discriminate S; clear S; cbn [call];
    unfold_setters; run; split_tests;
    cbn [with_accel_pwr with_gyro_pwr with_compass_pwr with_gyro_fsr
         with_accel_fsr with_sample_rate with_compass_sample_rate
         gyro_fsr accel_fsr];
    try exact I; destruct I as [I1 I2]; split; congruence.
Qed.

Lemma default_ranges (h : mpu9250_regs_h) :
  gyro_fsr_dps h (gyro_fsr (DEFAULT_STATUS h)) <> None /\
  accel_fsr_mg h (accel_fsr (DEFAULT_STATUS h)) <> None.
Proof.
  unfold gyro_fsr_dps, accel_fsr_mg. cbn [DEFAULT_STATUS gyro_fsr accel_fsr].
  rewrite !Z.eqb_refl. split; [discriminate|].
  repeat match goal with
         | |- context [if ?c then _ else _] => destruct c
         end; discriminate.
Qed.

(** X3.  In every configuration reached from a fresh handle by any
    sequence of calls, the stored gyro and accel ranges are enumerators the
    read functions know: [mpu9250_read_gyro] and [mpu9250_read_accel]
    never return -2 there; they return 0 when the bus is acquired and -1
    when it is not. *)
Theorem reads_never_reject_reachable_range
  (h : mpu9250_regs_h) (bus : i2c_bus) (w : world)
  (output : mpu9250_results_t) :
  reachable h bus w ->
  let ok := if acquire_rc bus (trace w) =? 0 then 0 else -1 in
  gyro_fsr_dps h (gyro_fsr (conf (dev w))) <> None /\
  accel_fsr_mg h (accel_fsr (conf (dev w))) <> None /\
  fst (fst (mpu9250_read_gyro h bus output w)) = ok /\
  fst (fst (mpu9250_read_accel h bus output w)) = ok.
Proof.
  intros R ok.
  pose proof (reachable_keeps h bus
                (fun c => gyro_fsr_dps h (gyro_fsr c) <> None /\
                          accel_fsr_mg h (accel_fsr c) <> None)
                (default_ranges h)
                (fun a b c s I => I)
                (setter_keeps_ranges h bus) w R) as [G A].
  cbv beta in G, A.
  split; [exact G|]. split; [exact A|]. subst ok. split.
  - unfold mpu9250_read_gyro. run.
    destruct (gyro_fsr_dps h (gyro_fsr (conf (dev w)))); [|now destruct G].
    run. destruct (acquire_rc bus (trace w) =? 0); reflexivity.
  - unfold mpu9250_read_accel. run.
    destruct (accel_fsr_mg h (accel_fsr (conf (dev w)))); [|now destruct A].
    run. destruct (acquire_rc bus (trace w) =? 0); reflexivity.
Qed.

Lemma reads_never_reject_reachable_range_witness :
  let w := calls example_regs quiet_bus [SetGyroFsr 2; SetAccelFsr 7]
             (fresh example_regs example_params) in
  let out := {| x_axis := 0; y_axis := 0; z_axis := 0 |} in
  reachable example_regs quiet_bus w /\
  fst (fst (mpu9250_read_gyro example_regs quiet_bus out w)) = 0 /\
  fst (fst (mpu9250_read_accel example_regs quiet_bus out w)) = 0.
Proof.
  intros w out.
  assert (R : reachable example_regs quiet_bus w)
    by (exists example_params, [SetGyroFsr 2; SetAccelFsr 7]; reflexivity).
  destruct (reads_never_reject_reachable_range
              example_regs quiet_bus w out R) as [_ [_ [G A]]].
  split; [exact R|]. split; [exact G | exact A].
Defined.

(** *** Measurements *)

Lemma s16_range (v : Z) : -32768 <= s16 v <= 32767.
Proof.
  unfold s16. pose proof (Z.mod_pos_bound (v + 32768) 65536 ltac:(lia)). lia.
Qed.

Lemma s16_small (v : Z) : -32768 <= v <= 32767 -> s16 v = v.
Proof. intros H. unfold s16. rewrite Z.mod_small by lia. lia. Qed.

(** Scaling by a full-scale range below [MAX_VALUE] never leaves the
    range. *)
Lemma scaled_within_range (raw fsr : Z) :
  -32768 <= raw <= 32767 -> 0 <= fsr < 32767 ->
  - fsr <= Z.quot (raw * fsr) MAX_VALUE <= fsr.
Proof.
  intros R F. unfold MAX_VALUE.
  pose proof (Z.quot_rem' (raw * fsr) 32767) as E.
  destruct (Z_le_gt_dec 0 raw) as [P | N].
  - pose proof (Z.rem_bound_pos (raw * fsr) 32767 ltac:(nia) ltac:(lia)).
    nia.
  - pose proof (Z.rem_bound_pos_neg (raw * fsr) 32767 ltac:(lia) ltac:(nia)).
    nia.
Qed.

Lemma normalize_within_range (data : list Z) (i : nat) (fsr : Z) :
  0 <= fsr < 32767 ->
  normalize data i fsr
  = Z.quot (be16 (nth i data 0) (nth (S i) data 0) * fsr) MAX_VALUE /\
  - fsr <= normalize data i fsr <= fsr.
Proof.
  intros F. unfold normalize, be16.
  pose proof (s16_range (Z.lor (Z.shiftl (nth i data 0) 8) (nth (S i) data 0)))
    as R.
  pose proof (scaled_within_range _ fsr R F) as B.
  rewrite s16_small by lia. split; [reflexivity | exact B].
Qed.

Lemma gyro_fsr_dps_values (h : mpu9250_regs_h) (f fsr : Z) :
  gyro_fsr_dps h f = Some fsr -> In fsr [250; 500; 1000; 2000].
Proof.
  unfold gyro_fsr_dps.
  repeat match goal with
         | |- context [if ?c then _ else _] => destruct c
         end; intros E; inversion E; cbn; auto.
Qed.

Lemma accel_fsr_mg_values (h : mpu9250_regs_h) (f fsr : Z) :
  accel_fsr_mg h f = Some fsr -> In fsr [2000; 4000; 8000; 16000].
Proof.
  unfold accel_fsr_mg.
  repeat match goal with
         | |- context [if ?c then _ else _] => destruct c
         end; intros E; inversion E; cbn; auto.
Qed.

(** X4.  When the stored range is one of the enumerators, with full scale
    [fsr] (250..2000 degrees per second for the gyroscope, 2000..16000
    milli-g for the accelerometer), and the bus is acquired,
    [mpu9250_read_gyro] and [mpu9250_read_accel] return 0, leave the device
    descriptor alone and do one six-byte read between acquiring and
    releasing the bus.  Each axis is the big-endian signed 16-bit value of
    its two bytes, times [fsr], divided by 32767 with truncation, and
    always lies within [-fsr, fsr]. *)
Theorem read_axes_within_full_scale
  (h : mpu9250_regs_h) (bus : i2c_bus) (w : world)
  (output : mpu9250_results_t) (fsr : Z) :
  acquire_rc bus (trace w) = 0 ->
  let a := addr (params (dev w)) in
  let scaled hi lo := Z.quot (be16 hi lo * fsr) MAX_VALUE in
  let good (start : reg) (res : Z * mpu9250_results_t * world) :=
    let out := snd (fst res) in
    fst (fst res) = 0 /\
    dev (snd res) = dev w /\
    (exists b0 b1 b2 b3 b4 b5,
       events_since w (snd res)
       = [EvAcquire 0; EvReadRegs a start [b0; b1; b2; b3; b4; b5];
          EvRelease] /\
       x_axis out = scaled b0 b1 /\
       y_axis out = scaled b2 b3 /\
       z_axis out = scaled b4 b5) /\
    - fsr <= x_axis out <= fsr /\
    - fsr <= y_axis out <= fsr /\
    - fsr <= z_axis out <= fsr in
  (gyro_fsr_dps h (gyro_fsr (conf (dev w))) = Some fsr ->
   good MPU9250_GYRO_START_REG (mpu9250_read_gyro h bus output w)) /\
  (accel_fsr_mg h (accel_fsr (conf (dev w))) = Some fsr ->
   good MPU9250_ACCEL_START_REG (mpu9250_read_accel h bus output w)).
Proof.
  intros A a scaled good. subst good scaled a. cbv beta zeta.
  split; intros E.
  - assert (F : 0 <= fsr < 32767).
    { apply gyro_fsr_dps_values in E. cbn [In] in E. lia. }
    unfold mpu9250_read_gyro. run. rewrite E. run. rewrite A.
    cbn [Z.eqb negb]. run. since.
    cbn [seq map nth x_axis y_axis z_axis].
    pose proof (fun d i => normalize_within_range d i fsr F) as N.
    split; [reflexivity|]. split; [reflexivity|]. split.
    + do 6 eexists. split; [reflexivity|].
      repeat split;
        match goal with |- normalize ?d ?i _ = _ => exact (proj1 (N d i)) end.
    + repeat split; apply N.
  - assert (F : 0 <= fsr < 32767).
    { apply accel_fsr_mg_values in E. cbn [In] in E. lia. }
    unfold mpu9250_read_accel. run. rewrite E. run. rewrite A.
    cbn [Z.eqb negb]. run. since.
    cbn [seq map nth x_axis y_axis z_axis].
    pose proof (fun d i => normalize_within_range d i fsr F) as N.
    split; [reflexivity|]. split; [reflexivity|]. split.
    + do 6 eexists. split; [reflexivity|].
      repeat split;
        match goal with |- normalize ?d ?i _ = _ => exact (proj1 (N d i)) end.
    + repeat split; apply N.
Qed.

Lemma read_axes_within_full_scale_witness :
  let w := fresh example_regs example_params in
  let out := {| x_axis := 0; y_axis := 0; z_axis := 0 |} in
  let res := mpu9250_read_gyro example_regs half_scale_bus out w in
  acquire_rc half_scale_bus (trace w) = 0 /\
  gyro_fsr_dps example_regs (gyro_fsr (conf (dev w))) = Some 250 /\
  fst (fst res) = 0 /\
  x_axis (snd (fst res)) = 125 /\
  - 250 <= x_axis (snd (fst res)) <= 250.
Proof.
  intros w out res.
  assert (E : gyro_fsr_dps example_regs (gyro_fsr (conf (dev w))) = Some 250)
    by reflexivity.
  destruct (read_axes_within_full_scale
              example_regs half_scale_bus w out 250 eq_refl) as [G _].
  destruct (G E) as [F [_ [_ [B _]]]].
  split; [reflexivity|]. split; [exact E|]. split; [exact F|].
  split; [reflexivity | exact B].
Defined.

(** *** Setters of an enumerated field *)

Lemma pwr_eqb_neq (p q : mpu9250_pwr_t) : pwr_eqb p q = false <-> p <> q.
Proof. destruct p, q; simpl; split; congruence. Qed.

(** X5.  A power or range setter returns 0 exactly when the snapshot
    afterwards holds the requested value; when it returns anything else
    (-1 or -2) the device descriptor is as before.  A range setter
    validates only a value that differs from the stored one. *)
Theorem enum_setter_succeeds_iff_stored
  (h : mpu9250_regs_h) (bus : i2c_bus) (c : api_call) (w : world) :
  is_enum_setter c = true ->
  let res := call h bus c w in
  (fst res = 0 <-> stores_request c (conf (dev (snd res)))) /\
  (fst res <> 0 -> dev (snd res) = dev w /\ (fst res = -1 \/ fst res = -2)).
Proof.
  intros S. cbv zeta.
  destruct c; try discriminate S; clear S; cbn [call stores_request];
    unfold_setters; run; split_tests;
    cbn [with_accel_pwr with_gyro_pwr with_compass_pwr with_gyro_fsr
         with_accel_fsr accel_pwr gyro_pwr compass_pwr gyro_fsr accel_fsr];
    repeat match goal with
           | H : pwr_eqb _ _ = true |- _ => apply pwr_eqb_eq in H
           | H : pwr_eqb _ _ = false |- _ => apply pwr_eqb_neq in H
           | H : (_ =? _) = true |- _ => apply Z.eqb_eq in H
           | H : (_ =? _) = false |- _ => apply Z.eqb_neq in H
           end;
    (split; [split; intros E; try reflexivity; try assumption;
             try discriminate E; try congruence
            | intros N; try (now destruct N); split; auto]).
Qed.

Lemma enum_setter_succeeds_iff_stored_witness :
  let w := fresh example_regs example_params in
  let res := call example_regs quiet_bus (SetGyroFsr 9) w in
  is_enum_setter (SetGyroFsr 9) = true /\
  fst res <> 0 /\
  dev (snd res) = dev w /\
  ~ stores_request (SetGyroFsr 9) (conf (dev (snd res))).
Proof.
  intros w res.
  destruct (enum_setter_succeeds_iff_stored
              example_regs quiet_bus (SetGyroFsr 9) w eq_refl) as [I K].
  assert (N : fst res <> 0) by (vm_compute; discriminate).
  split; [reflexivity|]. split; [exact N|].
  split; [exact (proj1 (K N))|].
  intros E. apply N. apply I. exact E.
Defined.

(** *** Switching everything off *)

(** X6.  On a bus that is always free, starting with all three subsystems
    on and switching them off in any of the six orders, every call returns
    0, all three end up off, and the sleep bit is written to power
    management 1 exactly once, by the last call.  The first two calls write
    power management 1 only if the gyroscope is among them (the wake-up
    value, selecting the internal oscillator). *)
Theorem sleep_bit_written_by_last_power_off
  (h : mpu9250_regs_h) (bus : i2c_bus) (w : world) (cs : list api_call) :
  (forall tr, acquire_rc bus tr = 0) ->
  power_triple (conf (dev w))
  = (MPU9250_SENSOR_PWR_ON, MPU9250_SENSOR_PWR_ON, MPU9250_SENSOR_PWR_ON) ->
  In cs power_off_orders ->
  let w2 := calls h bus (firstn 2 cs) w in
  let w3 := calls h bus cs w in
  returns h bus cs w = [0; 0; 0] /\
  power_triple (conf (dev w3))
  = (MPU9250_SENSOR_PWR_OFF, MPU9250_SENSOR_PWR_OFF, MPU9250_SENSOR_PWR_OFF) /\
  writes_to MPU9250_PWR_MGMT_1_REG (events_since w w2)
  = match nth 2 cs ResetAndInit with
    | SetGyroPower _ => []
    | _ => [u8 (MPU9250_PWR_WAKEUP h)]
    end /\
  writes_to MPU9250_PWR_MGMT_1_REG (events_since w2 w3)
  = [u8 (BIT_PWR_MGMT1_SLEEP h)].
Proof.
  intros F T I.
  destruct w as [[pa [ap gp cp gf af sr cr x y z]] tr].
  cbn [power_triple conf dev accel_pwr gyro_pwr compass_pwr] in T.
  injection T as -> -> ->.
  unfold power_off_orders in I. cbv zeta in I. cbn [In] in I.
  destruct I as [<- | [<- | [<- | [<- | [<- | [<- | []]]]]]];
    cbv zeta; cbn [firstn nth calls returns call];
    unfold mpu9250_set_accel_power, mpu9250_set_gyro_power,
      mpu9250_set_compass_power;
    repeat (run; cbn [accel_pwr gyro_pwr compass_pwr pwr_eqb andb
                      with_accel_pwr with_gyro_pwr with_compass_pwr];
            rewrite ?F; cbn [Z.eqb negb]);
    since;
    cbn [power_triple accel_pwr gyro_pwr compass_pwr writes_to flat_map app
         reg_eq_dec reg_rec reg_rect];
    rewrite ?u8_idem; repeat split.
Qed.

Lemma sleep_bit_written_by_last_power_off_witness :
  let on := MPU9250_SENSOR_PWR_ON in
  let off := MPU9250_SENSOR_PWR_OFF in
  let w := example_world (example_conf on on on 50 10) in
  let cs := [SetGyroPower off; SetCompassPower off; SetAccelPower off] in
  (forall tr, acquire_rc quiet_bus tr = 0) /\
  power_triple (conf (dev w)) = (on, on, on) /\
  In cs power_off_orders /\
  returns example_regs quiet_bus cs w = [0; 0; 0] /\
  writes_to MPU9250_PWR_MGMT_1_REG
    (events_since w (calls example_regs quiet_bus (firstn 2 cs) w))
  = [0x00] /\
  writes_to MPU9250_PWR_MGMT_1_REG
    (events_since (calls example_regs quiet_bus (firstn 2 cs) w)
                  (calls example_regs quiet_bus cs w))
  = [0x40].
Proof.
  intros on off w cs.
  assert (F : forall tr, acquire_rc quiet_bus tr = 0) by reflexivity.
  assert (I : In cs power_off_orders)
    by (cbn; right; right; right; left; reflexivity).
  destruct (sleep_bit_written_by_last_power_off
              example_regs quiet_bus w cs F eq_refl I) as [R [_ [A B]]].
  split; [exact F|]. split; [reflexivity|]. split; [exact I|].
  split; [exact R|]. split; [exact A | exact B].
Defined.

(** *** Wake on motion *)

Lemma testbit_u8 (v n : Z) :
  0 <= n -> Z.testbit (u8 v) n = (n <? 8) && Z.testbit v n.
Proof.
  intros H. unfold u8. change 256 with (2 ^ 8).
  apply Z.testbit_mod_pow2. lia.
Qed.

(** [temp &= ~m; temp |= m] on a byte is [temp |= m]. *)
Lemma clear_then_set (old m : Z) :
  u8 (Z.lor (u8 (Z.land old (Z.lnot m))) m) = u8 (Z.lor old m).
Proof.
  apply Z.bits_inj'. intros n Hn.
  rewrite !testbit_u8, !Z.lor_spec, testbit_u8, Z.land_spec, Z.lnot_spec
    by assumption.
  destruct (n <? 8), (Z.testbit old n), (Z.testbit m n); reflexivity.
Qed.

(** X7.  [mpu9250_enable_wom] never changes the device descriptor: the
    snapshot keeps the power states and rates it had, although the chip has
    been reset and reconfigured.  When the bus cannot be acquired it
    returns -1 and has done nothing else.  When it is acquired the call
    returns 0, powers the compass down through the bypass, writes reset,
    wake-up and cycle to power management 1 in that order, writes
    threshold and wake-up frequency as bytes, and the clear-then-set of the
    motion-detection register amounts to setting the intelligence bits and
    keeping the others. *)
Theorem enable_wom_keeps_snapshot
  (h : mpu9250_regs_h) (bus : i2c_bus) (wom_threshold wake_up_freq : Z)
  (w : world) :
  let res := mpu9250_enable_wom h bus wom_threshold wake_up_freq w in
  let evs := events_since w (snd res) in
  let a := addr (params (dev w)) in
  dev (snd res) = dev w /\
  (acquire_rc bus (trace w) <> 0 ->
   fst res = -1 /\ evs = [EvAcquire (acquire_rc bus (trace w))]) /\
  (acquire_rc bus (trace w) = 0 ->
   fst res = 0 /\
   writes_to MPU9250_PWR_MGMT_1_REG evs
   = [u8 (MPU9250_PWR_RESET h); u8 (MPU9250_PWR_WAKEUP h);
      u8 (MPU9250_PWR_CYCLE h)] /\
   accesses_of COMPASS_CNTL_REG evs
   = [EvWrite (comp_addr (params (dev w))) COMPASS_CNTL_REG
        (u8 (MPU9250_COMP_POWER_DOWN h))] /\
   writes_to MPU9250_INT_PIN_CFG_REG evs
   = [u8 (BIT_I2C_BYPASS_EN h); u8 REG_RESET] /\
   writes_to MPU9250_INT_ENABLE_REG evs = [u8 (MPU9250_INT_WOM h)] /\
   writes_to MPU9250_WOM_THR_REG evs = [u8 wom_threshold] /\
   writes_to MPU9250_LP_ACCEL_ODR_REG evs = [u8 wake_up_freq] /\
   exists old,
     accesses_of MPU9250_MOT_DETECT_CTRL_REG evs
     = [EvRead a MPU9250_MOT_DETECT_CTRL_REG old;
        EvWrite a MPU9250_MOT_DETECT_CTRL_REG
          (u8 (Z.lor old (MPU9250_ACCEL_INTEL_CFG h)))]).
Proof.
  cbv zeta. unfold mpu9250_enable_wom, conf_bypass. run.
  destruct (acquire_rc bus (trace w) =? 0) eqn:E; cbn [Z.eqb negb]; run.
  - apply Z.eqb_eq in E. split; [reflexivity|]. split; [intros N; now destruct N|].
    intros _. rewrite E. since.
    cbn [writes_to accesses_of filter flat_map app reg_eq_dec reg_rec
         reg_rect].
    rewrite ?u8_idem, clear_then_set.
    repeat split. eexists. reflexivity.
  - apply Z.eqb_neq in E. split; [reflexivity|]. split.
    + intros _. split; [reflexivity|]. now since.
    + intros Z0. now destruct E.
Qed.

Lemma enable_wom_keeps_snapshot_witness :
  let w := example_world (example_conf MPU9250_SENSOR_PWR_ON
                            MPU9250_SENSOR_PWR_ON MPU9250_SENSOR_PWR_ON 50 10) in
  let res := mpu9250_enable_wom example_regs quiet_bus 300 6 w in
  let bad := mpu9250_enable_wom example_regs busy_bus 300 6 w in
  acquire_rc quiet_bus (trace w) = 0 /\
  acquire_rc busy_bus (trace w) <> 0 /\
  fst res = 0 /\
  writes_to MPU9250_PWR_MGMT_1_REG (events_since w (snd res))
  = [0x80; 0x00; 0x20] /\
  writes_to MPU9250_WOM_THR_REG (events_since w (snd res)) = [44] /\
  fst bad = -1 /\ dev (snd bad) = dev w.
Proof.
  intros w res bad.
  assert (N : acquire_rc busy_bus (trace w) <> 0) by discriminate.
  destruct (enable_wom_keeps_snapshot example_regs quiet_bus 300 6 w)
    as [_ [_ G]].
  destruct (G eq_refl) as [F [P [_ [_ [_ [T _]]]]]].
  destruct (enable_wom_keeps_snapshot example_regs busy_bus 300 6 w)
    as [D [B _]].
  destruct (B N) as [FB _].
  split; [reflexivity|]. split; [exact N|]. split; [exact F|].
  split; [exact P|]. split; [exact T|]. split; [exact FB | exact D].
Defined.

(** *** How far the stored rates are from the request *)

Lemma stored_rate_near (rate : Z) :
  4 <= rate <= 1000 ->
  let stored := 1000 / (1000 / rate - 1 + 1) in
  rate <= stored < 2 * rate /\ stored <= 1000 /\
  1000 / (1000 / stored - 1 + 1) = stored.
Proof.
  intros H.
  assert (C : forallb (fun rate =>
            let stored := 1000 / (1000 / rate - 1 + 1) in
            (rate <=? stored) && (stored <? 2 * rate) && (stored <=? 1000)
            && (1000 / (1000 / stored - 1 + 1) =? stored))
            (zrange 4 997) = true)
    by (vm_compute; reflexivity).
  pose proof (forallb_zrange _ _ _ C rate ltac:(lia)) as R.
  cbv beta zeta in R |- *.
  rewrite !andb_true_iff in R. destruct R as [[[R1 R2] R3] R4].
  apply Z.eqb_eq in R4. lia.
Qed.

(** X8.  On a bus that is always free, a request [rate] in [4,1000] that
    differs from the stored rate stores a rate that is never below the
    request, is less than twice the request and at most 1000 Hz.  Repeating
    the request, or requesting the stored rate itself, returns 0 and leaves
    the stored rate as it is. *)
Theorem set_sample_rate_near_request
  (h : mpu9250_regs_h) (bus : i2c_bus) (rate : Z) (w : world) :
  (forall tr, acquire_rc bus tr = 0) ->
  4 <= rate <= 1000 -> sample_rate (conf (dev w)) <> rate ->
  let w' := snd (mpu9250_set_sample_rate h bus rate w) in
  let stored := sample_rate (conf (dev w')) in
  rate <= stored < 2 * rate /\ stored <= 1000 /\
  (fst (mpu9250_set_sample_rate h bus rate w') = 0 /\
   sample_rate (conf (dev (snd (mpu9250_set_sample_rate h bus rate w'))))
   = stored) /\
  mpu9250_set_sample_rate h bus stored w' = (0, w').
Proof.
  intros F H E. cbv zeta.
  destruct (set_sample_rate_ok h bus rate w H E (F _)) as [_ [_ [S _]]].
  destruct (stored_rate_near rate H) as [N1 [N2 N3]].
  cbv zeta in N1, N2, N3. rewrite S.
  split; [exact N1|]. split; [exact N2|].
  set (w' := snd (mpu9250_set_sample_rate h bus rate w)) in *.
  split.
  - destruct (Z.eq_dec (sample_rate (conf (dev w'))) rate) as [Q|Q].
    + rewrite set_sample_rate_same by assumption. cbn [fst snd].
      split; [reflexivity | exact S].
    + destruct (set_sample_rate_ok h bus rate w' H Q (F _)) as [F2 [_ [S2 _]]].
      split; [exact F2 | exact S2].
  - apply set_sample_rate_same; [lia | exact S].
Qed.

Lemma set_sample_rate_near_request_witness :
  let w := fresh example_regs example_params in
  let w' := snd (mpu9250_set_sample_rate example_regs quiet_bus 300 w) in
  (forall tr, acquire_rc quiet_bus tr = 0) /\
  4 <= 300 <= 1000 /\
  sample_rate (conf (dev w)) <> 300 /\
  sample_rate (conf (dev w')) = 333 /\
  300 <= sample_rate (conf (dev w')) < 2 * 300.
Proof.
  intros w w'.
  assert (F : forall tr, acquire_rc quiet_bus tr = 0) by reflexivity.
  assert (H : 4 <= 300 <= 1000) by lia.
  assert (E : sample_rate (conf (dev w)) <> 300) by (cbn; lia).
  destruct (set_sample_rate_near_request example_regs quiet_bus 300 w F H E)
    as [N _].
  split; [exact F|]. split; [exact H|]. split; [exact E|].
  split; [reflexivity | exact N].
Defined.

Lemma compass_rate_near (sr r : Z) :
  1 <= r <= 100 -> r <= sr -> sr / r <= 256 ->
  r <= sr / (sr / r - 1 + 1) < 2 * r.
Proof.
  intros Hr Hsr Hq.
  assert (Q1 : 1 <= sr / r) by (apply Z.div_le_lower_bound; lia).
  replace (sr / r - 1 + 1) with (sr / r) by lia.
  pose proof (Z.div_mod sr r ltac:(lia)).
  pose proof (Z.mod_pos_bound sr r ltac:(lia)).
  split.
  - apply Z.div_le_lower_bound; [lia | nia].
  - apply Z.div_lt_upper_bound; [lia | nia].
Qed.

(** X9.  With [sr] the stored sensor rate and a bus that can be acquired, a
    compass rate request [r] in [1,100] with [r <= sr] whose divider fits
    its byte ([sr/r <= 256]) and that differs from the stored compass rate
    stores a compass rate that is never below the request, is less than
    twice the request and does not exceed [sr]; the stored sensor rate and
    the rest of the snapshot are not touched, and the bus is released
    before the snapshot is updated. *)
Theorem set_compass_sample_rate_near_request
  (bus : i2c_bus) (r : Z) (w : world) :
  let sr := sample_rate (conf (dev w)) in
  1 <= r <= 100 -> r <= sr -> sr / r <= 256 ->
  compass_sample_rate (conf (dev w)) <> r ->
  acquire_rc bus (trace w) = 0 ->
  let w' := snd (mpu9250_set_compass_sample_rate bus r w) in
  let stored := compass_sample_rate (conf (dev w')) in
  r <= stored < 2 * r /\ stored <= sr /\
  conf (dev w') = with_compass_sample_rate stored (conf (dev w)) /\
  events_since w w'
  = [EvAcquire 0;
     EvWrite (addr (params (dev w))) MPU9250_SLAVE4_CTRL_REG (sr / r - 1);
     EvRelease].
Proof.
  intros sr H L Q E A. cbv zeta.
  rewrite set_compass_sample_rate_changes by assumption.
  destruct (compass_rate_arith sr r H L Q) as [D [S [B1 B2]]].
  pose proof (compass_rate_near sr r H L Q) as N.
  fold sr. cbn [fst snd dev conf]. since.
  cbn [with_compass_sample_rate compass_sample_rate].
  cbv zeta in S, D. unfold with_compass_sample_rate. rewrite !S, D.
  rewrite (u8_small (sr / (sr / r - 1 + 1))) by lia.
  split; [exact N|]. split; [lia|]. split; reflexivity.
Qed.

Lemma set_compass_sample_rate_near_request_witness :
  let w := example_world (example_conf MPU9250_SENSOR_PWR_ON
                            MPU9250_SENSOR_PWR_ON MPU9250_SENSOR_PWR_ON
                            250 0) in
  let w' := snd (mpu9250_set_compass_sample_rate quiet_bus 70 w) in
  (1 <= 70 <= 100 /\ 70 <= 250 /\ 250 / 70 <= 256 /\
   compass_sample_rate (conf (dev w)) <> 70 /\
   acquire_rc quiet_bus (trace w) = 0) /\
  compass_sample_rate (conf (dev w')) = 83 /\
  70 <= compass_sample_rate (conf (dev w')) < 2 * 70.
Proof.
  intros w w'.
  assert (H1 : 1 <= 70 <= 100) by lia.
  assert (H2 : 70 <= 250) by lia.
  assert (H3 : 250 / 70 <= 256) by (vm_compute; discriminate).
  assert (H4 : compass_sample_rate (conf (dev w)) <> 70) by (cbn; lia).
  destruct (set_compass_sample_rate_near_request quiet_bus 70 w
              H1 H2 H3 H4 eq_refl) as [N _].
  split; [repeat split; try assumption; lia|].
  split; [reflexivity | exact N].
Defined.

(** *** The filter bits *)

Lemma replace_low_nibble (old code : Z) :
  0 <= old < 256 -> 0 <= code < 16 ->
  u8 (Z.lor (u8 (Z.land old (Z.lnot 0x0F))) code) = old - old mod 16 + code.
Proof.
  intros Ho Hc.
  assert (C : forallb (fun old =>
            forallb (fun code =>
              u8 (Z.lor (u8 (Z.land old (Z.lnot 0x0F))) code)
              =? old - old mod 16 + code) (zrange 0 16))
            (zrange 0 256) = true)
    by (vm_compute; reflexivity).
  pose proof (forallb_zrange _ _ _ C old ltac:(lia)) as R. cbv beta in R.
  pose proof (forallb_zrange _ _ _ R code ltac:(lia)) as R'. cbv beta in R'.
  now apply Z.eqb_eq.
Qed.

Lemma clear_low_two_bits (old : Z) :
  0 <= old < 256 -> u8 (Z.land old (Z.lnot 0x03)) = old - old mod 4.
Proof.
  intros Ho.
  assert (C : forallb (fun old =>
              u8 (Z.land old (Z.lnot 0x03)) =? old - old mod 4)
            (zrange 0 256) = true)
    by (vm_compute; reflexivity).
  pose proof (forallb_zrange _ _ _ C old ltac:(lia)) as R. cbv beta in R.
  now apply Z.eqb_eq.
Qed.

Lemma u8_range (v : Z) : 0 <= u8 v < 256.
Proof. unfold u8. apply Z.mod_pos_bound. lia. Qed.

(** X10.  When [mpu9250_set_sample_rate] changes the rate, the filter
    setting is merged into the chip's registers without disturbing their
    other bits: accel configuration 2 is written back with its upper four
    bits as read and the filter code in the lower four (for a code below
    16), and the gyro configuration is written back as read with only its
    two lowest bits cleared, so the range bits survive. *)
Theorem set_sample_rate_merges_filter_bits
  (h : mpu9250_regs_h) (bus : i2c_bus) (rate : Z) (w : world) :
  4 <= rate <= 1000 -> sample_rate (conf (dev w)) <> rate ->
  acquire_rc bus (trace w) = 0 ->
  let w' := snd (mpu9250_set_sample_rate h bus rate w) in
  let evs := events_since w w' in
  let a := addr (params (dev w)) in
  let code :=
    lpf_code h (lpf_for (Z.shiftr (sample_rate (conf (dev w'))) 1)) in
  0 <= code < 16 ->
  (exists old,
     0 <= old < 256 /\
     accesses_of MPU9250_ACCEL_CFG_REG2 evs
     = [EvRead a MPU9250_ACCEL_CFG_REG2 old;
        EvWrite a MPU9250_ACCEL_CFG_REG2 (old - old mod 16 + code)]) /\
  (exists old,
     0 <= old < 256 /\
     accesses_of MPU9250_GYRO_CFG_REG evs
     = [EvRead a MPU9250_GYRO_CFG_REG old;
        EvWrite a MPU9250_GYRO_CFG_REG (old - old mod 4)]).
Proof.
  intros H E A. cbv zeta.
  unfold mpu9250_set_sample_rate, conf_lpf. run.
  unfold MPU9250_MIN_SAMPLE_RATE, MPU9250_MAX_SAMPLE_RATE.
  replace ((rate <? 4) || (rate >? 1000)) with false by lia.
  apply Z.eqb_neq in E. rewrite E. run. rewrite A. cbn [Z.eqb negb]. run.
  since.
  cbn [accesses_of filter reg_eq_dec reg_rec reg_rect with_sample_rate
       sample_rate].
  rewrite ?u8_idem. intros C. split.
  - eexists. split; [apply u8_range|].
    rewrite replace_low_nibble by (apply u8_range || exact C). reflexivity.
  - eexists. split; [apply u8_range|].
    rewrite clear_low_two_bits by apply u8_range. reflexivity.
Qed.

Lemma set_sample_rate_merges_filter_bits_witness :
  let w := fresh example_regs example_params in
  let w' := snd (mpu9250_set_sample_rate example_regs answering_bus 50 w) in
  4 <= 50 <= 1000 /\
  sample_rate (conf (dev w)) <> 50 /\
  acquire_rc answering_bus (trace w) = 0 /\
  0 <= lpf_code example_regs
         (lpf_for (Z.shiftr (sample_rate (conf (dev w'))) 1)) < 16 /\
  exists old,
    0 <= old < 256 /\
    accesses_of MPU9250_GYRO_CFG_REG (events_since w w')
    = [EvRead 0x68 MPU9250_GYRO_CFG_REG old;
       EvWrite 0x68 MPU9250_GYRO_CFG_REG (old - old mod 4)].
Proof.
  intros w w'.
  assert (H : 4 <= 50 <= 1000) by lia.
  assert (E : sample_rate (conf (dev w)) <> 50) by (cbn; lia).
  assert (C : 0 <= lpf_code example_regs
                (lpf_for (Z.shiftr (sample_rate (conf (dev w'))) 1)) < 16)
    by (vm_compute; split; [discriminate | reflexivity]).
  destruct (set_sample_rate_merges_filter_bits
              example_regs answering_bus 50 w H E eq_refl C) as [_ G].
  split; [exact H|]. split; [exact E|]. split; [reflexivity|].
  split; [exact C | exact G].
Defined.

(** *** Compass bring-up *)

(** X11.  [compass_init] reads the identity register once, after putting
    the chip in bypass mode.  On a mismatch it returns -1 at once: the
    snapshot is untouched and bypass mode is left enabled (the bypass bit
    is the only value written to the pin configuration, and user control
    was written once, with the master bit cleared).  On a match it returns
    0, cycles the compass through power-down, fuse-ROM access and
    power-down, stores the three bytes read from the fuse ROM as the
    sensitivity trims and nothing else in the snapshot, leaves bypass mode
    (pin configuration is written 0 last) and programs slave line 1 to
    trigger a single measurement. *)
Theorem compass_init_outcomes
  (h : mpu9250_regs_h) (bus : i2c_bus) (w : world) :
  let res := compass_init h bus w in
  let evs := events_since w (snd res) in
  let c := comp_addr (params (dev w)) in
  exists v,
    whoami_reads evs = [v] /\
    (v <> MPU9250_COMP_WHOAMI_ANSWER h ->
     fst res = -1 /\
     dev (snd res) = dev w /\
     writes_to MPU9250_INT_PIN_CFG_REG evs = [u8 (BIT_I2C_BYPASS_EN h)] /\
     length (writes_to MPU9250_USER_CTRL_REG evs) = 1%nat /\
     accesses_of COMPASS_CNTL_REG evs = []) /\
    (v = MPU9250_COMP_WHOAMI_ANSWER h ->
     fst res = 0 /\
     (exists x y z,
        accesses_of COMPASS_ASAX_REG evs
        = [EvReadRegs c COMPASS_ASAX_REG [x; y; z]] /\
        conf (dev (snd res)) = with_compass_adj x y z (conf (dev w))) /\
     params (dev (snd res)) = params (dev w) /\
     accesses_of COMPASS_CNTL_REG evs
     = [EvWrite c COMPASS_CNTL_REG (u8 (MPU9250_COMP_POWER_DOWN h));
        EvWrite c COMPASS_CNTL_REG (u8 (MPU9250_COMP_FUSE_ROM h));
        EvWrite c COMPASS_CNTL_REG (u8 (MPU9250_COMP_POWER_DOWN h))] /\
     writes_to MPU9250_INT_PIN_CFG_REG evs
     = [u8 (BIT_I2C_BYPASS_EN h); u8 REG_RESET] /\
     writes_to MPU9250_SLAVE1_DATA_OUT_REG evs
     = [u8 (MPU9250_COMP_SINGLE_MEASURE h)]).
Proof.
  cbv zeta. unfold compass_init, conf_bypass. run. cbn [Z.eqb negb]. run.
  eexists.
  match goal with
  | |- context [if negb (?a =? ?b) then _ else _] => destruct (a =? b) eqn:E
  end; cbn [negb]; run; since; flatten_trace;
  rewrite <- ?app_assoc in E; cbn [app] in E;
  cbn [whoami_reads writes_to accesses_of filter flat_map app length
       reg_eq_dec reg_rec reg_rect seq map nth];
  (split; [reflexivity|]).
  - apply Z.eqb_eq in E. split; [intros N; now destruct N|]. intros _.
    split; [reflexivity|]. split.
    + do 3 eexists. split; reflexivity.
    + repeat split.
  - apply Z.eqb_neq in E. split; [|intros Q; now destruct E]. intros _.
    repeat split.
Qed.

Lemma compass_init_outcomes_witness :
  let w := example_world (example_conf MPU9250_SENSOR_PWR_ON
                            MPU9250_SENSOR_PWR_ON MPU9250_SENSOR_PWR_ON 50 0) in
  (0 <> MPU9250_COMP_WHOAMI_ANSWER example_regs /\
   fst (compass_init example_regs quiet_bus w) = -1 /\
   dev (snd (compass_init example_regs quiet_bus w)) = dev w) /\
  (0x48 = MPU9250_COMP_WHOAMI_ANSWER example_regs /\
   fst (compass_init example_regs answering_bus w) = 0 /\
   compass_x_adj (conf (dev (snd (compass_init example_regs answering_bus w))))
   = 0x48).
Proof.
  intros w. split.
  - destruct (compass_init_outcomes example_regs quiet_bus w)
      as [v [R [Bad _]]].
    assert (V : v = 0) by (vm_compute in R; congruence).
    assert (N : v <> MPU9250_COMP_WHOAMI_ANSWER example_regs)
      by (rewrite V; vm_compute; discriminate).
    destruct (Bad N) as [F [D _]].
    split; [vm_compute; discriminate|]. split; [exact F | exact D].
  - destruct (compass_init_outcomes example_regs answering_bus w)
      as [v [R [_ Good]]].
    assert (V : v = 0x48) by (vm_compute in R; congruence).
    assert (Q : v = MPU9250_COMP_WHOAMI_ANSWER example_regs)
      by (rewrite V; reflexivity).
    destruct (Good Q) as [F _].
    split; [reflexivity|]. split; [exact F | reflexivity].
Defined.

(** *** Temperature *)

Lemma be16_bytes (hi lo : Z) :
  0 <= hi < 256 -> 0 <= lo < 256 ->
  be16 hi lo = if hi <? 128 then 256 * hi + lo else 256 * hi + lo - 65536.
Proof.
  intros Hh Hl.
  assert (C : forallb (fun hi =>
            forallb (fun lo =>
              be16 hi lo
              =? (if hi <? 128 then 256 * hi + lo else 256 * hi + lo - 65536))
              (zrange 0 256)) (zrange 0 256) = true)
    by (vm_compute; reflexivity).
  pose proof (forallb_zrange _ _ _ C hi ltac:(lia)) as R. cbv beta in R.
  pose proof (forallb_zrange _ _ _ R lo ltac:(lia)) as R'. cbv beta in R'.
  now apply Z.eqb_eq.
Qed.

Lemma ulong_small (x : mpu9250_more_h) (v : Z) :
  32 <= ulong_bits x -> 0 <= v < 2 ^ 32 -> ulong x v = v.
Proof.
  intros B H. unfold ulong. apply Z.mod_small.
  pose proof (Z.pow_le_mono_r 2 32 (ulong_bits x) ltac:(lia) B). lia.
Qed.

(** The conversion on a raw value that is not negative. *)
Lemma temperature_nonneg (x : mpu9250_more_h) (temp : Z) :
  32 <= ulong_bits x -> 0 <= temp <= 32767 ->
  temperature_mC x temp = temp * 1000 / 340 + 35000 /\
  35000 <= temperature_mC x temp <= 131373.
Proof.
  intros B H. unfold temperature_mC.
  assert (P : 2 ^ 32 = 4294967296) by reflexivity.
  rewrite (ulong_small x temp), (ulong_small x 1000), (ulong_small x 340),
    (ulong_small x (35 * 1000)) by lia.
  rewrite (ulong_small x (temp * 1000)) by lia.
  assert (Q : 0 <= temp * 1000 / 340 < 96374).
  { split; [apply Z.div_pos; lia|].
    apply Z.div_lt_upper_bound; lia. }
  rewrite (ulong_small x (temp * 1000 / 340 + 35 * 1000)) by lia.
  unfold s32. rewrite Z.mod_small by lia. lia.
Qed.

Lemma mod_of_negative (v m : Z) : 0 < m -> - m <= v < 0 -> v mod m = v + m.
Proof.
  intros M H. symmetry. apply (Z.mod_unique v m (-1)); lia.
Qed.

(** The conversion on a negative raw value when [unsigned long] has 32
    bits. *)
Lemma temperature_negative_32 (x : mpu9250_more_h) (temp : Z) :
  ulong_bits x = 32 -> -32768 <= temp < 0 ->
  temperature_mC x temp = (2 ^ 32 + temp * 1000) / 340 + 35000 /\
  12570000 < temperature_mC x temp.
Proof.
  intros B H. unfold temperature_mC, ulong. rewrite B.
  change (2 ^ 32) with 4294967296. change (2 ^ 31) with 2147483648.
  rewrite (mod_of_negative temp) by lia.
  rewrite (Z.mod_small 1000), (Z.mod_small 340), (Z.mod_small (35 * 1000))
    by lia.
  replace ((temp + 4294967296) * 1000)
    with (temp * 1000 + 4294967296 + 999 * 4294967296) by lia.
  rewrite Z.mod_add by lia.
  rewrite (Z.mod_small (temp * 1000 + 4294967296)) by lia.
  assert (Q : 12535880 <= (temp * 1000 + 4294967296) / 340 < 12632257).
  { split.
    - apply Z.div_le_lower_bound; lia.
    - apply Z.div_lt_upper_bound; lia. }
  rewrite (Z.mod_small ((temp * 1000 + 4294967296) / 340 + 35 * 1000)) by lia.
  unfold s32. change (2 ^ 32) with 4294967296. change (2 ^ 31) with 2147483648.
  rewrite Z.mod_small by lia.
  replace (4294967296 + temp * 1000) with (temp * 1000 + 4294967296) by lia.
  lia.
Qed.

Lemma read_temperature_run
  (x : mpu9250_more_h) (bus : i2c_bus) (output : Z) (w : world) :
  acquire_rc bus (trace w) = 0 ->
  exists hi lo,
    0 <= hi < 256 /\ 0 <= lo < 256 /\
    mpu9250_read_temperature x bus output w
    = ((0, temperature_mC x (be16 hi lo)),
       {| dev := dev w;
          trace := trace w ++
                   [EvAcquire 0;
                    EvReadRegs (addr (params (dev w)))
                               (MPU9250_TEMP_START_REG x) [hi; lo];
                    EvRelease] |}).
Proof.
  intros A. unfold mpu9250_read_temperature. run. rewrite A.
  cbn [Z.eqb negb]. run. cbn [seq map nth]. flatten_trace.
  do 2 eexists. split; [apply u8_range|]. split; [apply u8_range|].
  unfold be16. rewrite (u16_small (u8 _)).
  - reflexivity.
  - pose proof (u8_range (slave_byte bus (trace w ++ [EvAcquire 0])
                            (addr (params (dev w)))
                            (MPU9250_TEMP_START_REG x) 0)). lia.
Qed.

(** X12.  With the bus acquired, [mpu9250_read_temperature] returns 0 after
    one two-byte read between acquiring and releasing the bus and leaves
    the device descriptor alone.  When the big-endian raw value is not
    negative (high byte below 128) the result is [raw * 1000 / 340 + 35000]
    milli-degrees, between 35000 and 131373, on any target whose
    [unsigned long] has at least 32 bits; a raw value of 0 gives exactly
    35000. *)
Theorem read_temperature_of_nonnegative_raw
  (x : mpu9250_more_h) (bus : i2c_bus) (output : Z) (w : world) :
  32 <= ulong_bits x ->
  acquire_rc bus (trace w) = 0 ->
  let res := mpu9250_read_temperature x bus output w in
  exists hi lo,
    0 <= hi < 256 /\ 0 <= lo < 256 /\
    fst (fst res) = 0 /\
    dev (snd res) = dev w /\
    events_since w (snd res)
    = [EvAcquire 0;
       EvReadRegs (addr (params (dev w))) (MPU9250_TEMP_START_REG x) [hi; lo];
       EvRelease] /\
    (hi < 128 ->
     snd (fst res) = (256 * hi + lo) * 1000 / 340 + 35000 /\
     35000 <= snd (fst res) <= 131373 /\
     (hi = 0 -> lo = 0 -> snd (fst res) = 35000)).
Proof.
  intros B A. cbv zeta.
  destruct (read_temperature_run x bus output w A) as [hi [lo [Hh [Hl E]]]].
  exists hi, lo. rewrite E. cbn [fst snd dev].
  split; [exact Hh|]. split; [exact Hl|]. split; [reflexivity|].
  split; [reflexivity|]. split; [now since|].
  intros P. rewrite be16_bytes by assumption.
  replace (hi <? 128) with true by lia.
  destruct (temperature_nonneg x (256 * hi + lo) B ltac:(lia)) as [T1 T2].
  split; [exact T1|]. split; [exact T2|].
  intros -> ->. rewrite T1. reflexivity.
Qed.

(** X13.  On a target whose [unsigned long] has 32 bits, a negative raw
    temperature (high byte of 128 or more) is not converted by the linear
    formula: the multiplication is done on the unsigned image of the raw
    value, and [mpu9250_read_temperature] returns
    [(2^32 + raw * 1000) / 340 + 35000], more than 12570000 milli-degrees,
    with return code 0. *)
Theorem read_temperature_of_negative_raw
  (x : mpu9250_more_h) (bus : i2c_bus) (output : Z) (w : world) :
  ulong_bits x = 32 ->
  acquire_rc bus (trace w) = 0 ->
  let res := mpu9250_read_temperature x bus output w in
  exists hi lo,
    0 <= hi < 256 /\ 0 <= lo < 256 /\
    fst (fst res) = 0 /\
    events_since w (snd res)
    = [EvAcquire 0;
       EvReadRegs (addr (params (dev w))) (MPU9250_TEMP_START_REG x) [hi; lo];
       EvRelease] /\
    (128 <= hi ->
     let raw := 256 * hi + lo - 65536 in
     snd (fst res) = (2 ^ 32 + raw * 1000) / 340 + 35000 /\
     12570000 < snd (fst res)).
Proof.
  intros B A. cbv zeta.
  destruct (read_temperature_run x bus output w A) as [hi [lo [Hh [Hl E]]]].
  exists hi, lo. rewrite E. cbn [fst snd dev].
  split; [exact Hh|]. split; [exact Hl|]. split; [reflexivity|].
  split; [now since|].
  intros P. rewrite be16_bytes by assumption.
  replace (hi <? 128) with false by lia.
  apply temperature_negative_32; [exact B | lia].
Qed.

Lemma read_temperature_of_nonnegative_raw_witness :
  let w := fresh example_regs example_params in
  let res := mpu9250_read_temperature example_more answering_bus 0 w in
  32 <= ulong_bits example_more /\
  acquire_rc answering_bus (trace w) = 0 /\
  fst (fst res) = 0 /\
  snd (fst res) = (256 * 0x48 + 0x48) * 1000 / 340 + 35000 /\
  35000 <= snd (fst res) <= 131373.
Proof.
  intros w res.
  assert (B : 32 <= ulong_bits example_more) by (cbn; lia).
  destruct (read_temperature_of_nonnegative_raw
              example_more answering_bus 0 w B eq_refl)
    as [hi [lo [_ [_ [F [_ [E T]]]]]]].
  assert (V : hi = 0x48 /\ lo = 0x48)
    by (vm_compute in E; split; congruence).
  destruct V as [-> ->].
  destruct (T ltac:(lia)) as [T1 [T2 _]].
  split; [exact B|]. split; [reflexivity|]. split; [exact F|].
  split; [exact T1 | exact T2].
Defined.

Lemma read_temperature_of_negative_raw_witness :
  let w := fresh example_regs example_params in
  let res := mpu9250_read_temperature example_more all_ones_bus 0 w in
  ulong_bits example_more = 32 /\
  acquire_rc all_ones_bus (trace w) = 0 /\
  fst (fst res) = 0 /\
  snd (fst res) = (2 ^ 32 + (256 * 0xFF + 0xFF - 65536) * 1000) / 340 + 35000 /\
  12570000 < snd (fst res).
Proof.
  intros w res.
  destruct (read_temperature_of_negative_raw
              example_more all_ones_bus 0 w eq_refl eq_refl)
    as [hi [lo [_ [_ [F [E T]]]]]].
  assert (V : hi = 0xFF /\ lo = 0xFF)
    by (vm_compute in E; split; congruence).
  destruct V as [-> ->].
  destruct (T ltac:(lia)) as [T1 T2].
  split; [reflexivity|]. split; [reflexivity|]. split; [exact F|].
  split; [exact T1 | exact T2].
Defined.

(** *** Interrupts *)

(** X14.  [mpu9250_read_int_status] never reports what the status
    structure held before: it is cleared first, so when the bus cannot be
    acquired the call returns -1 with both flags 0.  With the bus acquired
    it returns 0 after one read of the status register, and each flag is 1
    exactly when the byte read has a bit in common with the flag's mask and
    0 otherwise, independently of the other flag; the device descriptor is
    left alone. *)
Theorem read_int_status_decodes_flags
  (x : mpu9250_more_h) (bus : i2c_bus) (status : mpu9250_int_results_t)
  (w : world) :
  let res := mpu9250_read_int_status x bus status w in
  let out := snd (fst res) in
  dev (snd res) = dev w /\
  (acquire_rc bus (trace w) <> 0 ->
   fst (fst res) = -1 /\ wom out = 0 /\ raw out = 0) /\
  (acquire_rc bus (trace w) = 0 ->
   fst (fst res) = 0 /\
   exists v,
     events_since w (snd res)
     = [EvAcquire 0;
        EvRead (addr (params (dev w))) (MPU9250_INT_STATUS_REG x) v;
        EvRelease] /\
     wom out = (if Z.land v (MPU9250_INT_STATUS_WOM x) =? 0 then 0 else 1) /\
     raw out = (if Z.land v (MPU9250_INT_STATUS_RAW x) =? 0 then 0 else 1)).
Proof.
  cbv zeta. unfold mpu9250_read_int_status. run.
  destruct (acquire_rc bus (trace w) =? 0) eqn:E; cbn [negb]; run.
  - apply Z.eqb_eq in E. split; [reflexivity|].
    split; [intros N; now destruct N|]. intros _.
    split; [reflexivity|]. rewrite E. since. eexists.
    split; [reflexivity|].
    repeat match goal with
           | |- context [Z.land ?a ?b =? 0] => destruct (Z.land a b =? 0)
           end; cbn [negb wom raw]; split; reflexivity.
  - apply Z.eqb_neq in E. split; [reflexivity|].
    split; [|intros Q; now destruct E]. intros _. repeat split.
Qed.

Lemma read_int_status_decodes_flags_witness :
  let w := fresh example_regs example_params in
  let s := {| wom := 1; raw := 1 |} in
  let bad := mpu9250_read_int_status example_more busy_bus s w in
  let good := mpu9250_read_int_status example_more answering_bus s w in
  acquire_rc busy_bus (trace w) <> 0 /\
  acquire_rc answering_bus (trace w) = 0 /\
  (fst (fst bad) = -1 /\ wom (snd (fst bad)) = 0 /\ raw (snd (fst bad)) = 0) /\
  fst (fst good) = 0 /\
  wom (snd (fst good)) = 1 /\ raw (snd (fst good)) = 0.
Proof.
  intros w s bad good.
  assert (N : acquire_rc busy_bus (trace w) <> 0) by discriminate.
  destruct (read_int_status_decodes_flags example_more busy_bus s w)
    as [_ [B _]].
  destruct (read_int_status_decodes_flags example_more answering_bus s w)
    as [_ [_ G]].
  destruct (G eq_refl) as [F _].
  split; [exact N|]. split; [reflexivity|]. split; [exact (B N)|].
  split; [exact F|]. split; reflexivity.
Defined.

(** X15.  [mpu9250_set_interrupt] treats its argument as a truth value and
    never changes the device descriptor.  It returns -1 when the bus
    cannot be acquired, having written nothing, and 0 otherwise.  Any
    non-zero argument writes the pin configuration and then the interrupt
    enable register; 0 writes only the interrupt enable register, with 0,
    and leaves the pin configuration as it is. *)
Theorem set_interrupt_outcomes
  (x : mpu9250_more_h) (bus : i2c_bus) (enable : Z) (w : world) :
  let res := mpu9250_set_interrupt x bus enable w in
  let evs := events_since w (snd res) in
  let a := addr (params (dev w)) in
  dev (snd res) = dev w /\
  (acquire_rc bus (trace w) <> 0 ->
   fst res = -1 /\ evs = [EvAcquire (acquire_rc bus (trace w))]) /\
  (acquire_rc bus (trace w) = 0 ->
   fst res = 0 /\
   (enable <> 0 ->
    evs = [EvAcquire 0;
           EvWrite a MPU9250_INT_PIN_CFG_REG (u8 (MPU9250_INT_EN_CFG x));
           EvWrite a MPU9250_INT_ENABLE_REG (u8 (MPU9250_INT_EN x));
           EvRelease]) /\
   (enable = 0 ->
    evs = [EvAcquire 0; EvWrite a MPU9250_INT_ENABLE_REG 0; EvRelease])).
Proof.
  cbv zeta. unfold mpu9250_set_interrupt. run.
  destruct (acquire_rc bus (trace w) =? 0) eqn:E; cbn [negb]; run.
  - apply Z.eqb_eq in E.
    destruct (enable =? 0) eqn:Q; cbn [negb]; run;
      (split; [reflexivity|]);
      (split; [intros N; now destruct N|]); intros _;
      (split; [reflexivity|]); rewrite E; since.
    + apply Z.eqb_eq in Q. split; [intros N; now destruct N|].
      intros _. reflexivity.
    + apply Z.eqb_neq in Q. split; [reflexivity|].
      intros Z0. now destruct Q.
  - apply Z.eqb_neq in E. split; [reflexivity|].
    split; [|intros Q; now destruct E]. intros _.
    split; [reflexivity | now since].
Qed.

Lemma set_interrupt_outcomes_witness :
  let w := fresh example_regs example_params in
  let on := mpu9250_set_interrupt example_more quiet_bus 5 w in
  let off := mpu9250_set_interrupt example_more quiet_bus 0 w in
  let bad := mpu9250_set_interrupt example_more busy_bus 1 w in
  acquire_rc quiet_bus (trace w) = 0 /\
  acquire_rc busy_bus (trace w) <> 0 /\
  5 <> 0 /\
  fst on = 0 /\
  events_since w (snd on)
  = [EvAcquire 0; EvWrite 0x68 MPU9250_INT_PIN_CFG_REG 0x30;
     EvWrite 0x68 MPU9250_INT_ENABLE_REG 0x01; EvRelease] /\
  events_since w (snd off)
  = [EvAcquire 0; EvWrite 0x68 MPU9250_INT_ENABLE_REG 0; EvRelease] /\
  fst bad = -1.
Proof.
  intros w on off bad.
  assert (N : acquire_rc busy_bus (trace w) <> 0) by discriminate.
  assert (P : 5 <> 0) by discriminate.
  destruct (set_interrupt_outcomes example_more quiet_bus 5 w) as [_ [_ G]].
  destruct (G eq_refl) as [F [On _]].
  destruct (set_interrupt_outcomes example_more quiet_bus 0 w) as [_ [_ G0]].
  destruct (G0 eq_refl) as [_ [_ Off]].
  destruct (set_interrupt_outcomes example_more busy_bus 1 w) as [_ [B _]].
  destruct (B N) as [FB _].
  split; [reflexivity|]. split; [exact N|]. split; [exact P|].
  split; [exact F|]. split; [exact (On P)|].
  split; [exact (Off eq_refl) | exact FB].
Defined.

(** *** Initialisation on a cooperative bus *)

Lemma setter_keeps_params
  (h : mpu9250_regs_h) (bus : i2c_bus) (c : api_call) (w : world) :
  is_bus_setter c = true ->
  params (dev (snd (call h bus c w))) = params (dev w).
Proof.
  intros S. destruct c; try discriminate S; clear S; cbn [call];
    unfold_setters; run; split_tests; reflexivity.
Qed.

Lemma with_gyro_fsr_same (s : mpu9250_status_t) :
  with_gyro_fsr (gyro_fsr s) s = s.
Proof. now destruct s. Qed.

Lemma with_accel_fsr_same (s : mpu9250_status_t) :
  with_accel_fsr (accel_fsr s) s = s.
Proof. now destruct s. Qed.

Lemma with_sample_rate_0 (s : mpu9250_status_t) :
  sample_rate s = 0 -> with_sample_rate 0 s = s.
Proof. destruct s. cbn. now intros ->. Qed.

Lemma with_compass_sample_rate_0 (s : mpu9250_status_t) :
  compass_sample_rate s = 0 -> with_compass_sample_rate 0 s = s.
Proof. destruct s. cbn. now intros ->. Qed.

Lemma set_gyro_fsr_free
  (h : mpu9250_regs_h) (bus : i2c_bus) (fsr : Z) (w : world) :
  (forall tr, acquire_rc bus tr = 0) -> gyro_fsr_dps h fsr <> None ->
  conf (dev (snd (mpu9250_set_gyro_fsr h bus fsr w)))
  = with_gyro_fsr fsr (conf (dev w)).
Proof.
  intros F S. unfold mpu9250_set_gyro_fsr. run.
  destruct (gyro_fsr (conf (dev w)) =? fsr) eqn:E; run.
  - apply Z.eqb_eq in E. rewrite <- E. symmetry. apply with_gyro_fsr_same.
  - destruct (gyro_fsr_dps h fsr); [|now destruct S]. run.
    rewrite F. reflexivity.
Qed.

Lemma set_accel_fsr_free
  (h : mpu9250_regs_h) (bus : i2c_bus) (fsr : Z) (w : world) :
  (forall tr, acquire_rc bus tr = 0) -> accel_fsr_mg h fsr <> None ->
  conf (dev (snd (mpu9250_set_accel_fsr h bus fsr w)))
  = with_accel_fsr fsr (conf (dev w)).
Proof.
  intros F S. unfold mpu9250_set_accel_fsr. run.
  destruct (accel_fsr (conf (dev w)) =? fsr) eqn:E; run.
  - apply Z.eqb_eq in E. rewrite <- E. symmetry. apply with_accel_fsr_same.
  - destruct (accel_fsr_mg h fsr); [|now destruct S]. run.
    rewrite F. reflexivity.
Qed.

Lemma set_sample_rate_first
  (h : mpu9250_regs_h) (bus : i2c_bus) (rate : Z) (w : world) :
  (forall tr, acquire_rc bus tr = 0) -> sample_rate (conf (dev w)) = 0 ->
  conf (dev (snd (mpu9250_set_sample_rate h bus rate w)))
  = with_sample_rate
      (if (4 <=? rate) && (rate <=? 1000)
       then 1000 / (1000 / rate - 1 + 1) else 0) (conf (dev w)).
Proof.
  intros F Z0.
  destruct ((4 <=? rate) && (rate <=? 1000)) eqn:R.
  - destruct (set_sample_rate_ok h bus rate w ltac:(lia) ltac:(lia) (F _))
      as [_ [C _]]. exact C.
  - rewrite set_sample_rate_range_error by lia. cbn [snd].
    symmetry. now apply with_sample_rate_0.
Qed.

Lemma set_compass_sample_rate_first (bus : i2c_bus) (w : world) :
  (forall tr, acquire_rc bus tr = 0) ->
  compass_sample_rate (conf (dev w)) = 0 ->
  let sr := sample_rate (conf (dev w)) in
  sr <= 1000 ->
  conf (dev (snd (mpu9250_set_compass_sample_rate bus 10 w)))
  = with_compass_sample_rate
      (if 10 <=? sr then sr / (sr / 10 - 1 + 1) else 0) (conf (dev w)).
Proof.
  intros F Z0 sr B.
  destruct (10 <=? sr) eqn:R.
  - assert (Q : sr / 10 <= 256)
      by (apply Z.div_le_upper_bound; lia).
    rewrite set_compass_sample_rate_changes by (try apply F; lia).
    fold sr. cbn [snd dev conf].
    destruct (compass_rate_arith sr 10 ltac:(lia) ltac:(lia) Q)
      as [_ [S [B1 _]]].
    cbv zeta in S. unfold with_compass_sample_rate. rewrite S.
    rewrite (u8_small (sr / (sr / 10 - 1 + 1))) by (rewrite <- S; lia).
    reflexivity.
  - rewrite set_compass_sample_rate_range_error by (fold sr; lia).
    cbn [snd]. symmetry. now apply with_compass_sample_rate_0.
Qed.

Lemma compass_init_match
  (h : mpu9250_regs_h) (bus : i2c_bus) (w : world) :
  (forall tr, u8 (slave_byte bus tr (comp_addr (params (dev w)))
                    COMPASS_WHOAMI_REG 0)
              = MPU9250_COMP_WHOAMI_ANSWER h) ->
  fst (compass_init h bus w) = 0 /\
  params (dev (snd (compass_init h bus w))) = params (dev w) /\
  exists a b c,
    conf (dev (snd (compass_init h bus w)))
    = with_compass_adj a b c (conf (dev w)).
Proof.
  intros I. unfold compass_init, conf_bypass. run. cbn [Z.eqb negb]. run.
  rewrite I, Z.eqb_refl. cbn [negb]. run.
  split; [reflexivity|]. split; [reflexivity|].
  do 3 eexists. reflexivity.
Qed.

(** X16.  On a bus that initialises, can always be acquired and on which
    the compass identifies itself, [mpu9250_init] returns 0 whatever
    default sample rate the parameters carry, because the results of the
    setters it calls are not looked at.  Afterwards the descriptor holds
    the parameters, all three subsystems are recorded as on, the ranges are
    2000 dps and 2 g, the stored sample rate is the rate of the divider for
    a default rate within [4,1000] and 0 (unset) for any other, and the
    stored compass rate is the rate of the divider for 10 Hz when the
    stored sample rate is at least 10 Hz and 0 (unset) otherwise. *)
Theorem init_on_cooperative_bus
  (h : mpu9250_regs_h) (bus : i2c_bus) (p : mpu9250_params_t) (w : world) :
  init_master_rc bus (trace w) = 0 ->
  (forall tr, acquire_rc bus tr = 0) ->
  (forall tr, u8 (slave_byte bus tr (comp_addr p) COMPASS_WHOAMI_REG 0)
              = MPU9250_COMP_WHOAMI_ANSWER h) ->
  let res := mpu9250_init h bus p w in
  let s := conf (dev (snd res)) in
  let rate := params_sample_rate p in
  let sr := if (4 <=? rate) && (rate <=? 1000)
            then 1000 / (1000 / rate - 1 + 1) else 0 in
  fst res = 0 /\
  params (dev (snd res)) = p /\
  power_triple s
  = (MPU9250_SENSOR_PWR_ON, MPU9250_SENSOR_PWR_ON, MPU9250_SENSOR_PWR_ON) /\
  gyro_fsr s = MPU9250_GYRO_FSR_2000DPS h /\
  accel_fsr s = MPU9250_ACCEL_FSR_2G h /\
  sample_rate s = sr /\
  compass_sample_rate s = (if 10 <=? sr then sr / (sr / 10 - 1 + 1) else 0).
Proof.
  intros IM F ID. cbv zeta.
  unfold mpu9250_init. run. rewrite IM. cbn [Z.eqb negb]. run.
  unfold mpu9250_reset_and_init. run.
  set (w1 := {| dev := _; trace := _ |}).
  assert (C1 : conf (dev w1) = DEFAULT_STATUS h) by reflexivity.
  assert (P1 : params (dev w1) = p) by reflexivity.
  assert (G : gyro_fsr_dps h (MPU9250_GYRO_FSR_2000DPS h) <> None).
  { unfold gyro_fsr_dps. rewrite Z.eqb_refl.
    repeat match goal with
           | |- context [if ?c then _ else _] => destruct c
           end; discriminate. }
  assert (A : accel_fsr_mg h (MPU9250_ACCEL_FSR_2G h) <> None).
  { unfold accel_fsr_mg. rewrite Z.eqb_refl. discriminate. }
  pose proof (set_gyro_fsr_free h bus _ w1 F G) as C2.
  pose proof (setter_keeps_params h bus
                (SetGyroFsr (MPU9250_GYRO_FSR_2000DPS h)) w1 eq_refl) as P2.
  cbn [call] in P2.
  destruct (mpu9250_set_gyro_fsr h bus _ w1) as [r2 w2]. run.
  pose proof (set_accel_fsr_free h bus _ w2 F A) as C3.
  pose proof (setter_keeps_params h bus
                (SetAccelFsr (MPU9250_ACCEL_FSR_2G h)) w2 eq_refl) as P3.
  cbn [call] in P3.
  destruct (mpu9250_set_accel_fsr h bus _ w2) as [r3 w3]. run.
  assert (Z3 : sample_rate (conf (dev w3)) = 0)
    by (rewrite C3, C2, C1; reflexivity).
  pose proof (set_sample_rate_first h bus (params_sample_rate p) w3 F Z3)
    as C4.
  pose proof (setter_keeps_params h bus
                (SetSampleRate (params_sample_rate p)) w3 eq_refl) as P4.
  cbn [call] in P4.
  destruct (mpu9250_set_sample_rate h bus _ w3) as [r4 w4]. run.
  set (w5 := {| dev := dev w4; trace := _ |}).
  assert (P5 : params (dev w5) = p)
    by (cbn [w5 dev]; rewrite P4, P3, P2; exact P1).
  assert (ID5 : forall tr,
             u8 (slave_byte bus tr (comp_addr (params (dev w5)))
                   COMPASS_WHOAMI_REG 0) = MPU9250_COMP_WHOAMI_ANSWER h)
    by (rewrite P5; exact ID).
  destruct (compass_init_match h bus w5 ID5) as [R6 [P6 [a [b [c C6]]]]].
  destruct (compass_init h bus w5) as [r6 w6]. run. subst r6.
  cbn [Z.eqb negb]. run.
  set (w7 := {| dev := dev w6; trace := _ |}).
  set (sr := if (4 <=? params_sample_rate p) && (params_sample_rate p <=? 1000)
             then 1000 / (1000 / params_sample_rate p - 1 + 1) else 0) in *.
  assert (B : 0 <= sr <= 1000).
  { subst sr. destruct ((4 <=? params_sample_rate p)
                        && (params_sample_rate p <=? 1000)) eqn:R; [|lia].
    destruct (stored_rate_near (params_sample_rate p) ltac:(lia)) as [N1 [N2 _]].
    cbv zeta in N1, N2. lia. }
  assert (S7 : conf (dev w7)
               = with_compass_adj a b c
                   (with_sample_rate sr
                      (with_accel_fsr (MPU9250_ACCEL_FSR_2G h)
                         (with_gyro_fsr (MPU9250_GYRO_FSR_2000DPS h)
                            (DEFAULT_STATUS h)))))
    by (cbn [w7 dev]; rewrite C6; cbn [w5 dev]; rewrite C4, C3, C2, C1;
        reflexivity).
  assert (SR7 : sample_rate (conf (dev w7)) = sr).
  { rewrite S7. cbn. apply u16_small. lia. }
  assert (Z7 : compass_sample_rate (conf (dev w7)) = 0)
    by (rewrite S7; reflexivity).
  pose proof (set_compass_sample_rate_first bus w7 F Z7) as C8.
  cbv zeta in C8. rewrite SR7 in C8. specialize (C8 ltac:(lia)).
  pose proof (setter_keeps_params h bus (SetCompassSampleRate 10) w7 eq_refl)
    as P8.
  cbn [call] in P8.
  destruct (mpu9250_set_compass_sample_rate bus 10 w7) as [r8 w8]. run.
  rewrite C8, S7, P8.
  split; [reflexivity|].
  split; [cbn [w7 dev]; rewrite P6; exact P5|].
  cbn [power_triple with_compass_sample_rate with_compass_adj
       with_sample_rate with_accel_fsr with_gyro_fsr DEFAULT_STATUS
       accel_pwr gyro_pwr compass_pwr gyro_fsr accel_fsr sample_rate
       compass_sample_rate].
  split; [reflexivity|]. split; [reflexivity|]. split; [reflexivity|].
  split; [apply u16_small; lia|].
  destruct (10 <=? sr) eqn:R; [|reflexivity].
  assert (Q : sr / 10 <= 256) by (apply Z.div_le_upper_bound; lia).
  destruct (compass_rate_arith sr 10 ltac:(lia) ltac:(lia) Q) as [_ [S [B1 _]]].
  cbv zeta in S. apply u8_small. rewrite <- S. lia.
Qed.

Lemma init_on_cooperative_bus_witness :
  let w := fresh example_regs example_params in
  let p := {| i2c := 0; addr := 0x68; comp_addr := 0x0C;
              params_sample_rate := 7 |} in
  let res := mpu9250_init example_regs answering_bus p w in
  init_master_rc answering_bus (trace w) = 0 /\
  (forall tr, acquire_rc answering_bus tr = 0) /\
  (forall tr, u8 (slave_byte answering_bus tr (comp_addr p)
                    COMPASS_WHOAMI_REG 0)
              = MPU9250_COMP_WHOAMI_ANSWER example_regs) /\
  fst res = 0 /\
  sample_rate (conf (dev (snd res))) = 7 /\
  compass_sample_rate (conf (dev (snd res))) = 0.
Proof.
  intros w p res.
  assert (F : forall tr, acquire_rc answering_bus tr = 0) by reflexivity.
  assert (ID : forall tr, u8 (slave_byte answering_bus tr (comp_addr p)
                                COMPASS_WHOAMI_REG 0)
                          = MPU9250_COMP_WHOAMI_ANSWER example_regs)
    by reflexivity.
  destruct (init_on_cooperative_bus example_regs answering_bus p w
              eq_refl F ID) as [R [_ [_ [_ [_ [S C]]]]]].
  split; [reflexivity|]. split; [exact F|]. split; [exact ID|].
  split; [exact R|]. split; [exact S | exact C].
Defined.

(** *** Power: round trip, and the snapshot after wake on motion *)

(** X17.  On a bus that is always free, switching a subsystem to the other
    power state and back returns 0 twice and restores the snapshot
    exactly; each of the two calls is followed by the settle delay. *)
Theorem power_round_trip_restores_snapshot
  (h : mpu9250_regs_h) (bus : i2c_bus) (w : world)
  (toggle : mpu9250_pwr_t -> api_call) :
  (forall tr, acquire_rc bus tr = 0) ->
  In toggle [SetAccelPower; SetGyroPower; SetCompassPower] ->
  let stored :=
    match toggle MPU9250_SENSOR_PWR_ON with
    | SetAccelPower _ => accel_pwr (conf (dev w))
    | SetGyroPower _ => gyro_pwr (conf (dev w))
    | _ => compass_pwr (conf (dev w))
    end in
  let other :=
    match stored with
    | MPU9250_SENSOR_PWR_ON => MPU9250_SENSOR_PWR_OFF
    | MPU9250_SENSOR_PWR_OFF => MPU9250_SENSOR_PWR_ON
    end in
  let cs := [toggle other; toggle stored] in
  returns h bus cs w = [0; 0] /\
  dev (calls h bus cs w) = dev w /\
  filter (fun e => match e with EvUsleep _ => true | _ => false end)
         (events_since w (calls h bus cs w))
  = [EvUsleep MPU9250_PWR_CHANGE_SLEEP_US;
     EvUsleep MPU9250_PWR_CHANGE_SLEEP_US].
Proof.
  intros F I.
  destruct w as [[pa [ap gp cp gf af sr cr x y z]] tr].
  cbn [In] in I.
  destruct I as [<- | [<- | [<- | []]]];
    cbv zeta; cbn [dev conf accel_pwr gyro_pwr compass_pwr];
    destruct ap, gp, cp;
    cbn [returns calls call];
    unfold mpu9250_set_accel_power, mpu9250_set_gyro_power,
      mpu9250_set_compass_power;
    repeat (run; cbn [accel_pwr gyro_pwr compass_pwr pwr_eqb andb
                      with_accel_pwr with_gyro_pwr with_compass_pwr];
            rewrite ?F; cbn [Z.eqb negb]);
    since; cbn [filter]; repeat split.
Qed.

Lemma power_round_trip_restores_snapshot_witness :
  let w := example_world (example_conf MPU9250_SENSOR_PWR_ON
                            MPU9250_SENSOR_PWR_OFF MPU9250_SENSOR_PWR_ON
                            50 10) in
  let cs := [SetGyroPower MPU9250_SENSOR_PWR_ON;
             SetGyroPower MPU9250_SENSOR_PWR_OFF] in
  (forall tr, acquire_rc quiet_bus tr = 0) /\
  In SetGyroPower [SetAccelPower; SetGyroPower; SetCompassPower] /\
  returns example_regs quiet_bus cs w = [0; 0] /\
  dev (calls example_regs quiet_bus cs w) = dev w.
Proof.
  intros w cs.
  assert (F : forall tr, acquire_rc quiet_bus tr = 0) by reflexivity.
  assert (I : In SetGyroPower [SetAccelPower; SetGyroPower; SetCompassPower])
    by (right; left; reflexivity).
  destruct (power_round_trip_restores_snapshot
              example_regs quiet_bus w SetGyroPower F I) as [R [D _]].
  split; [exact F|]. split; [exact I|]. split; [exact R | exact D].
Defined.

Lemma enable_wom_keeps_dev
  (h : mpu9250_regs_h) (bus : i2c_bus) (t f : Z) (w : world) :
  dev (snd (mpu9250_enable_wom h bus t f w)) = dev w.
Proof.
  unfold mpu9250_enable_wom, conf_bypass. run.
  split_tests; cbn [Z.eqb negb]; run; reflexivity.
Qed.

(** X18.  The snapshot is stale after [mpu9250_enable_wom]: the chip has
    been reset and the compass powered down, but the recorded power states
    are the old ones.  Asking a power setter for the state recorded before
    wake on motion was enabled is therefore still a no-op, returning 0
    without any bus traffic or delay, so the setters alone cannot bring a
    subsystem recorded as on back up. *)
Theorem power_request_after_wom_is_noop
  (h : mpu9250_regs_h) (bus : i2c_bus) (t f : Z) (w : world) :
  let s := conf (dev w) in
  let w' := snd (mpu9250_enable_wom h bus t f w) in
  mpu9250_set_accel_power h bus (accel_pwr s) w' = (0, w') /\
  mpu9250_set_gyro_power h bus (gyro_pwr s) w' = (0, w') /\
  mpu9250_set_compass_power h bus (compass_pwr s) w' = (0, w') /\
  (acquire_rc bus (trace w) = 0 ->
   In (EvWrite (comp_addr (params (dev w))) COMPASS_CNTL_REG
               (u8 (MPU9250_COMP_POWER_DOWN h)))
      (events_since w w')).
Proof.
  cbv zeta.
  pose proof (enable_wom_keeps_dev h bus t f w) as D.
  repeat split.
  - unfold mpu9250_set_accel_power. run. rewrite D.
    now rewrite pwr_eqb_refl.
  - unfold mpu9250_set_gyro_power. run. rewrite D.
    now rewrite pwr_eqb_refl.
  - unfold mpu9250_set_compass_power. run. rewrite D.
    now rewrite pwr_eqb_refl.
  - intros A. clear D. unfold mpu9250_enable_wom, conf_bypass. run.
    rewrite A. cbn [Z.eqb negb]. run. since. cbn [In]. tauto.
Qed.

Lemma power_request_after_wom_is_noop_witness :
  let w := example_world (example_conf MPU9250_SENSOR_PWR_ON
                            MPU9250_SENSOR_PWR_ON MPU9250_SENSOR_PWR_ON 50 10) in
  let w' := snd (mpu9250_enable_wom example_regs quiet_bus 20 6 w) in
  acquire_rc quiet_bus (trace w) = 0 /\
  mpu9250_set_compass_power example_regs quiet_bus MPU9250_SENSOR_PWR_ON w'
  = (0, w') /\
  In (EvWrite 0x0C COMPASS_CNTL_REG 0) (events_since w w').
Proof.
  intros w w'.
  destruct (power_request_after_wom_is_noop example_regs quiet_bus 20 6 w)
    as [_ [_ [C P]]].
  split; [reflexivity|]. split; [exact C | exact (P eq_refl)].
Defined.
